(** * Background processor of the AI Personal Health Companion

    A shallow embedding of [src/processor/processor.py] (class
    [HealthDataProcessor]) and the properties of its polling loops:
    the pending-analysis drainer, the three periodic jobs (daily insights,
    weekly trends, monthly cleanup) and the Service Bus consumer.

    Conventions of the embedding.
    - An instant ([datetime]) is a number of microseconds since
      1970-01-01T00:00:00 UTC, the resolution of Python's [datetime].  The
      documents store [datetime.isoformat()] text; the text is only ever
      compared, and the comparison of such texts is the chronological one,
      so the model keeps the instant itself.  The one comparison of
      [datetime] objects, [blob.last_modified < cutoff_datetime], is between
      an aware and a naive one: there the model keeps the distinction (see
      [datetime_lt]).
    - The results of the Vision SDK are modelled with the behaviour of its
      result objects: they are mappings, true when present, and iterating
      one yields its keys (see [food_prompt]).
    - A Cosmos container is the list of its documents; a document is a
      record of the fields the processor reads or writes.  A key the dict
      lacks is represented by the value the code reads it as: the default of
      its [.get], and a [status] or [type] that equals no literal of the
      queries.
    - Python code that can raise runs in a state-and-exception monad; an
      exception is represented by [str(e)], the only thing the code reads
      from it.  State changes made before a [raise] stay (no rollback).
    - External services (Blob Storage, Vision, OpenAI, [json.loads], the
      wall clock, and the failures of store writes) are fields of an
      environment record. *)

From Stdlib Require Import ZArith Lia.
From stdpp Require Import base tactics option list strings sorting pretty.

Local Open Scope string_scope.
Local Open Scope Z_scope.

(* ================================================================== *)
(** ** Wall-clock time *)

Module Clock.

Definition SECOND : Z := 1000000.
Definition MINUTE : Z := 60 * SECOND.
Definition HOUR : Z := 60 * MINUTE.
Definition DAY : Z := 24 * HOUR.

(** [timedelta(seconds=n)], [timedelta(days=n)] *)
Definition seconds (n : Z) : Z := n * SECOND.
Definition days (n : Z) : Z := n * DAY.

(** [t.date()], as the number of days since 1970-01-01 *)
Definition date_of (t : Z) : Z := t / DAY.

(** [t.hour], [t.minute] *)
Definition hour (t : Z) : Z := (t / HOUR) mod 24.
Definition minute (t : Z) : Z := (t / MINUTE) mod 60.

(** [t.weekday()]: Monday is 0, Sunday is 6; 1970-01-01 was a Thursday. *)
Definition weekday (t : Z) : Z := (date_of t + 3) mod 7.

(** Index of the Monday-to-Sunday week an instant falls in. *)
Definition week_of (t : Z) : Z := (date_of t + 3) / 7.

(** Year, month and day of a day number (proleptic Gregorian calendar,
    computed per 400-year era with the year starting in March). *)
Definition civil_from_days (z0 : Z) : Z * Z * Z :=
  let z := z0 + 719468 in
  let era := z / 146097 in
  let doe := z - era * 146097 in
  let yoe := (doe - doe / 1460 + doe / 36524 - doe / 146096) / 365 in
  let y := yoe + era * 400 in
  let doy := doe - (365 * yoe + yoe / 4 - yoe / 100) in
  let mp := (5 * doy + 2) / 153 in
  let d := doy - (153 * mp + 2) / 5 + 1 in
  let m := if mp <? 10 then mp + 3 else mp - 9 in
  (if m <=? 2 then y + 1 else y, m, d).

(** [t.day]: the day of the month *)
Definition day (t : Z) : Z := snd (civil_from_days (date_of t)).

Definition pad2 (n : Z) : string :=
  if n <? 10 then "0" +:+ pretty n else pretty n.

Definition pad4 (n : Z) : string :=
  if n <? 10 then "000" +:+ pretty n
  else if n <? 100 then "00" +:+ pretty n
  else if n <? 1000 then "0" +:+ pretty n
  else pretty n.

(** [date.isoformat()] of a day number, e.g. [2024-03-01] *)
Definition isoformat_day (day_number : Z) : string :=
  let '(y, m, d) := civil_from_days day_number in
  pad4 y +:+ "-" +:+ pad2 m +:+ "-" +:+ pad2 d.

(** [t.date().isoformat()] *)
Definition date_isoformat (t : Z) : string := isoformat_day (date_of t).

(** An instant given by its calendar date (as a day number) and its time
    of day; used to write concrete instants. *)
Definition at_time (day_number h m s : Z) : Z :=
  days day_number + h * HOUR + m * MINUTE + s * SECOND.

End Clock.

(* ================================================================== *)
(** ** Exceptions and the state-and-exception monad *)

(** An exception, represented by its text [str(e)]. *)
Definition exn := string.

Inductive outcome (A : Type) : Type :=
| Ret (a : A)
| Raise (e : exn).
Arguments Ret {A} a.
Arguments Raise {A} e.

Definition M (St A : Type) : Type := St -> outcome A * St.

Definition ret {St A} (a : A) : M St A := fun s => (Ret a, s).

Definition bind {St A B} (m : M St A) (k : A -> M St B) : M St B :=
  fun s => match m s with
           | (Ret a, s') => k a s'
           | (Raise e, s') => (Raise e, s')
           end.

Definition raise {St A} (e : exn) : M St A := fun s => (Raise e, s).

(** [try: m  except Exception as e: h e] *)
Definition try_except {St A} (m : M St A) (h : exn -> M St A) : M St A :=
  fun s => match m s with
           | (Ret a, s') => (Ret a, s')
           | (Raise e, s') => h e s'
           end.

Definition gets {St A} (f : St -> A) : M St A := fun s => (Ret (f s), s).
Definition modify {St} (f : St -> St) : M St unit := fun s => (Ret tt, f s).
Definition lift_outcome {St A} (o : outcome A) : M St A := fun s => (o, s).

(** Runs [m] and hands its outcome, normal or raised, to the caller. *)
Definition attempt {St A} (m : M St A) : M St (outcome A) :=
  fun s => let '(o, s') := m s in (Ret o, s').

Declare Scope py_scope.
Delimit Scope py_scope with py.
Notation "x <- m ;; k" := (bind m (fun x => k))
  (at level 100, m at next level, right associativity) : py_scope.
Notation "m ;; k" := (bind m (fun _ => k))
  (at level 100, right associativity) : py_scope.
Local Open Scope py_scope.

(** [for x in l: body x]; a raise in the body leaves the loop. *)
Fixpoint for_each {St X} (l : list X) (body : X -> M St unit) : M St unit :=
  match l with
  | [] => ret tt
  | x :: l' => body x ;; for_each l' body
  end.

Definition exec {St A} (m : M St A) (s : St) : St := snd (m s).
Definition result {St A} (m : M St A) (s : St) : outcome A := fst (m s).

(* ================================================================== *)
(** ** JSON values and Python's [dict.get] *)

#[warnings="-register-all"]
Inductive json : Type :=
| JNull
| JBool (b : bool)
| JNum (n : Z)
| JStr (s : string)
| JArr (items : list json)
| JObj (fields : list (string * json)).

(** Lookup of a key in the fields of an object. *)
Fixpoint assoc (k : string) (fields : list (string * json)) : option json :=
  match fields with
  | [] => None
  | (k', v) :: rest => if bool_decide (k' = k) then Some v else assoc k rest
  end.

(** [d.get(k, dflt)] on a dict *)
Definition dict_get (fields : list (string * json)) (k : string) (dflt : json) : json :=
  match assoc k fields with
  | Some v => v
  | None => dflt
  end.

(** [type(v).__name__] for the value [json.loads] builds *)
Definition py_type_name (v : json) : string :=
  match v with
  | JNull => "NoneType"
  | JBool _ => "bool"
  | JNum _ => "int"
  | JStr _ => "str"
  | JArr _ => "list"
  | JObj _ => "dict"
  end.

(** [v.get(k, dflt)] on whatever [json.loads] returned: only a dict has a
    [get] method, anything else raises [AttributeError]. *)
Definition py_get (v : json) (k : string) (dflt : json) : outcome json :=
  match v with
  | JObj fields => Ret (dict_get fields k dflt)
  | _ => Raise ("'" +:+ py_type_name v +:+ "' object has no attribute 'get'")
  end.

Definition EMPTY_LIST : json := JArr [].
Definition EMPTY_DICT : json := JObj [].

(* ================================================================== *)
(** ** Documents, containers and the world the processor acts on *)

(** A document of the [FoodHistory] or [MedicalRecords] container.
    [analysis] holds the result keys [item.update] writes ([foodItems],
    [keyFindings], ...), most recent binding first. *)
Record item : Type := mkItem {
  doc_id : string;                 (* c.id *)
  userId : string;                 (* c.userId, the partition key *)
  timestamp : Z;                   (* c.timestamp *)
  status : string;                 (* c.status *)
  doc_type : string;               (* c.type *)
  imagePath : string;
  documentPath : string;
  documentType : string;
  processedAt : option Z;
  error : option string;
  analysis : list (string * json)
}.

(** Cosmos identifies a document by its partition key and its id. *)
Definition doc_key (it : item) : string * string := (userId it, doc_id it).

(** A document of the [Recommendations] container, as
    [generate_user_daily_insights] and [analyze_user_health_trends] build it. *)
Record insight : Type := mkInsight {
  rec_id : string;
  rec_userId : string;
  rec_type : string;
  rec_fields : list (string * json);
  generatedAt : Z;
  range_start : Z;
  range_end : Z;
  dataPoints : option Z
}.

Definition rec_key (r : insight) : string * string := (rec_userId r, rec_id r).

Record blob : Type := mkBlob {
  blob_name : string;
  last_modified : Z;
  blob_data : list Byte.byte
}.

Inductive container_name : Type := FoodHistory | MedicalRecords | Recommendations.

(** A write sent to a store, kept in the order the processor issued them. *)
Inductive call : Type :=
| UpsertItem (c : container_name) (key : string * string)
| DeleteItem (c : container_name) (key : string * string)
| DeleteBlob (container : string) (name : string)
| CompleteMessage (body : string)
| AbandonMessage (body : string).

Inductive log_entry : Type :=
| LogInfo (text : string)
| LogError (text : string).

Record world : Type := mkWorld {
  food_container : list item;
  medical_container : list item;
  recommendations_container : list insight;
  food_images : list blob;
  medical_documents : list blob;
  journal : list (call * bool);    (* writes attempted, oldest first; [false]: it raised *)
  log : list log_entry;            (* oldest first *)
  clock_reads : nat                (* number of [datetime.utcnow()] calls so far *)
}.

Definition set_food (f : list item -> list item) (w : world) : world :=
  mkWorld (f (food_container w)) (medical_container w) (recommendations_container w)
          (food_images w) (medical_documents w) (journal w) (log w) (clock_reads w).
Definition set_medical (f : list item -> list item) (w : world) : world :=
  mkWorld (food_container w) (f (medical_container w)) (recommendations_container w)
          (food_images w) (medical_documents w) (journal w) (log w) (clock_reads w).
Definition set_recommendations (f : list insight -> list insight) (w : world) : world :=
  mkWorld (food_container w) (medical_container w) (f (recommendations_container w))
          (food_images w) (medical_documents w) (journal w) (log w) (clock_reads w).
Definition set_food_images (f : list blob -> list blob) (w : world) : world :=
  mkWorld (food_container w) (medical_container w) (recommendations_container w)
          (f (food_images w)) (medical_documents w) (journal w) (log w) (clock_reads w).
Definition set_medical_documents (f : list blob -> list blob) (w : world) : world :=
  mkWorld (food_container w) (medical_container w) (recommendations_container w)
          (food_images w) (f (medical_documents w)) (journal w) (log w) (clock_reads w).
Definition record_call (c : call) (ok : bool) (w : world) : world :=
  mkWorld (food_container w) (medical_container w) (recommendations_container w)
          (food_images w) (medical_documents w) (journal w ++ [(c, ok)]) (log w) (clock_reads w).
Definition record_log (e : log_entry) (w : world) : world :=
  mkWorld (food_container w) (medical_container w) (recommendations_container w)
          (food_images w) (medical_documents w) (journal w) (log w ++ [e]) (clock_reads w).
Definition tick_clock (w : world) : world :=
  mkWorld (food_container w) (medical_container w) (recommendations_container w)
          (food_images w) (medical_documents w) (journal w) (log w) (S (clock_reads w)).

(** The two kinds of analysis documents and the container of each. *)
Inductive kind : Type := Food | Medical.

Definition container_of (k : kind) : container_name :=
  match k with Food => FoodHistory | Medical => MedicalRecords end.

Definition kind_name (k : kind) : string :=
  match k with Food => "food" | Medical => "medical" end.

Definition items_of (k : kind) (w : world) : list item :=
  match k with
  | Food => food_container w
  | Medical => medical_container w
  end.

Definition set_items (k : kind) (f : list item -> list item) (w : world) : world :=
  match k with
  | Food => set_food f w
  | Medical => set_medical f w
  end.

Definition blobs_of (container : string) (w : world) : list blob :=
  if bool_decide (container = "food-images") then food_images w
  else if bool_decide (container = "medical-documents") then medical_documents w
  else [].

Definition set_blobs (container : string) (f : list blob -> list blob) (w : world) : world :=
  if bool_decide (container = "food-images") then set_food_images f w
  else if bool_decide (container = "medical-documents") then set_medical_documents f w
  else w.

(* ------------------------------------------------------------------ *)
(** *** What a container does with a write *)

(** [upsert_item]: replace the document with the same key, else add it. *)
Fixpoint upsert_by {A K : Type} `{EqDecision K} (key : A -> K) (x : A) (c : list A) : list A :=
  match c with
  | [] => [x]
  | y :: c' => if bool_decide (key y = key x) then x :: c'
               else y :: upsert_by key x c'
  end.

Definition upsert_doc : item -> list item -> list item := upsert_by doc_key.
Definition upsert_rec : insight -> list insight -> list insight := upsert_by rec_key.

(** [delete_item(item=id, partition_key=userId)] *)
Definition delete_doc (k : string * string) (c : list item) : list item :=
  filter (fun x => doc_key x <> k) c.

Definition delete_named (name : string) (c : list blob) : list blob :=
  filter (fun b => blob_name b <> name) c.

(** [ORDER BY c.timestamp ASC] *)
Definition by_timestamp (a b : item) : Prop := timestamp a <= timestamp b.

#[global] Instance by_timestamp_dec a b : Decision (by_timestamp a b).
Proof. unfold by_timestamp. apply _. Defined.

Definition order_by_timestamp_asc (l : list item) : list item :=
  merge_sort by_timestamp l.

(** [ORDER BY c.timestamp DESC] *)
Definition order_by_timestamp_desc (l : list item) : list item :=
  reverse (order_by_timestamp_asc l).

(** [SELECT * FROM c WHERE c.status = 'pending' ORDER BY c.timestamp ASC] *)
Definition query_pending (c : list item) : list item :=
  order_by_timestamp_asc (filter (fun it => status it = "pending") c).

(** [SELECT DISTINCT c.userId FROM c WHERE c.timestamp >= @cutoff] *)
Definition query_active_users (cutoff : Z) (c : list item) : list string :=
  remove_dups (userId <$> filter (fun it => cutoff <= timestamp it) c).

(** [SELECT * FROM c WHERE c.userId = @userId AND c.timestamp >= @cutoff] *)
Definition query_user_since (user : string) (cutoff : Z) (c : list item) : list item :=
  filter (fun it => userId it = user /\ cutoff <= timestamp it) c.

(** [SELECT c.id, c.userId FROM c WHERE c.timestamp < @cutoff] *)
Definition query_older_than (cutoff : Z) (c : list item) : list item :=
  filter (fun it => timestamp it < cutoff) c.

(** [SELECT c.id, c.userId FROM c WHERE c.timestamp < @cutoff AND c.type != 'critical'] *)
Definition query_older_not_critical (cutoff : Z) (c : list item) : list item :=
  filter (fun it => timestamp it < cutoff /\ doc_type it <> "critical") c.

(* ------------------------------------------------------------------ *)
(** *** The external services *)

(** What the Vision service returns ([ImageAnalysisResult]).  Each part is
    absent or a result object of the SDK: the caption with its text, for
    each detected object the names of its tags ([ObjectsResult]), the names
    of the image tags ([TagsResult]), and the lines of each text block
    ([ReadResult]). *)
Record vision_result : Type := mkVision {
  caption : option string;
  objects : option (list (list string));
  tags : option (list string);
  read : option (list (list string))
}.

Inductive VisualFeatures : Type := OBJECTS | TAGS | CAPTION | READ.

Record Env : Type := mkEnv {
  (** the n-th reading of [datetime.utcnow()] *)
  utcnow_at : nat -> Z;
  (** an I/O error of [download_blob] on this container and blob, if any *)
  download_fault : string -> string -> option exn;
  (** [vision_client.analyze(image_data, visual_features)] *)
  vision_analyze : list Byte.byte -> list VisualFeatures -> outcome vision_result;
  (** [openai_client.chat.completions.create(...).choices[0].message.content]
      for a system and a user message *)
  chat_completion : string -> string -> outcome string;
  (** [json.loads] *)
  json_loads : string -> outcome json;
  (** [json.dumps(docs, indent=2)] *)
  json_dumps : list item -> string;
  (** [str(v)] of a decoded JSON value, as an f-string prints it *)
  py_str : json -> string;
  (** the exception, if any, raised by the n-th write sent to a store *)
  write_fault : nat -> option exn
}.

(* ================================================================== *)
(** ** The processor *)

(** Python's [repr] of a list of names, as the f-strings print it. *)
Definition repr_list (names : list string) : string :=
  "[" +:+ String.concat ", " ((fun s => "'" +:+ s +:+ "'") <$> names) +:+ "]".

(** [[obj.tags[0].name for obj in vision_result.objects] if
    vision_result.objects else []] (source line 199).  [ObjectsResult] is a
    mapping of the SDK: it is true whatever it holds, and iterating it
    yields its keys, which are strings, not the detected objects; so
    [obj.tags] raises [AttributeError] as soon as the result is there. *)
Definition object_names (objects : option (list (list string))) : outcome (list string) :=
  match objects with
  | None => Ret []
  | Some _ => Raise "'str' object has no attribute 'tags'"
  end.

(** [[tag.name for tag in vision_result.tags[:10]] if vision_result.tags
    else []] (source line 200).  [TagsResult] is such a mapping too:
    subscripting it with a slice looks the slice up as a key, which raises
    (a [TypeError] with this text before Python 3.12, a [KeyError] from
    3.12 on). *)
Definition tag_names (tags : option (list string)) : outcome (list string) :=
  match tags with
  | None => Ret []
  | Some _ => Raise "unhashable type: 'slice'"
  end.

(** The food prompt (source lines 194-209); the f-string evaluates the
    caption, the objects and the tags in this order. *)
Definition food_prompt (v : vision_result) : outcome string :=
  match object_names (objects v) with
  | Raise e => Raise e
  | Ret names =>
      match tag_names (tags v) with
      | Raise e => Raise e
      | Ret image_tags =>
          Ret ("Analyze this food image and provide detailed nutritional information: "
               +:+ "Caption: " +:+ default "N/A" (caption v)
               +:+ " Objects: " +:+ repr_list names
               +:+ " Tags: " +:+ repr_list image_tags
               +:+ " Format as JSON with keys: food_items, nutrition_info, health_assessment, recommendations")
      end
  end.

(** The text read from a document (source lines 266-270). *)
Definition extract_text (v : vision_result) : string :=
  match read v with
  | None => ""
  | Some blocks => String.concat "" ((fun line => line +:+ String (Ascii.ascii_of_nat 10) "") <$> concat blocks)
  end.

(** The medical prompt (source lines 273-288). *)
Definition medical_prompt (it : item) (extracted_text : string) : string :=
  "Analyze this medical document and provide comprehensive medical insights: "
  +:+ "Document Type: " +:+ documentType it
  +:+ " Extracted Text: " +:+ extracted_text
  +:+ " Format as JSON with keys: key_findings, metrics, risk_assessment, follow_up_actions, lifestyle_recommendations".

(** A [datetime]: naive, or aware of its time zone; either way the instant
    it denotes in UTC. *)
Inductive datetime : Type :=
| Naive (t : Z)
| Aware (t : Z).

(** [a < b] on datetimes: Python compares two naive or two aware datetimes
    and refuses to compare a naive with an aware one ([TypeError]). *)
Definition datetime_lt (a b : datetime) : outcome bool :=
  match a, b with
  | Naive x, Naive y | Aware x, Aware y => Ret (bool_decide (x < y))
  | _, _ => Raise "can't compare offset-naive and offset-aware datetimes"
  end.

(** The [blobs_to_delete] of source lines 641-644: the names of the blobs
    last modified before the cutoff.  [blob.last_modified] is aware: the
    SDK builds it in UTC. *)
Fixpoint older_blobs (cutoff_datetime : datetime) (blobs : list blob) : outcome (list string) :=
  match blobs with
  | [] => Ret []
  | b :: rest =>
      match datetime_lt (Aware (last_modified b)) cutoff_datetime with
      | Raise e => Raise e
      | Ret older =>
          match older_blobs cutoff_datetime rest with
          | Raise e => Raise e
          | Ret names => Ret (if older then blob_name b :: names else names)
          end
      end
  end.

(** What [cleanup_old_blobs] logs when that comparison raises. *)
Definition SWEEP_ERROR : log_entry :=
  LogError "Error cleaning up old blobs: can't compare offset-naive and offset-aware datetimes".

Definition FOOD_SYSTEM : string := "You are an expert nutritionist and health analyst.".
Definition MEDICAL_SYSTEM : string :=
  "You are a medical AI assistant. Provide analysis for informational purposes only.".
Definition INSIGHTS_SYSTEM : string :=
  "You are a comprehensive health AI analyst providing personalized insights.".
Definition TRENDS_SYSTEM : string :=
  "You are an expert health trend analyst providing longitudinal health assessments.".

(** [item.update({'status': 'completed', ..., 'processedAt': now})] *)
Definition update_completed (it : item) (results : list (string * json)) (now : Z) : item :=
  mkItem (doc_id it) (userId it) (timestamp it) "completed" (doc_type it)
         (imagePath it) (documentPath it) (documentType it)
         (Some now) (error it) (results ++ analysis it).

(** [item.update({'status': 'failed', 'error': str(e), 'processedAt': now})] *)
Definition update_failed (it : item) (e : exn) (now : Z) : item :=
  mkItem (doc_id it) (userId it) (timestamp it) "failed" (doc_type it)
         (imagePath it) (documentPath it) (documentType it)
         (Some now) (Some e) (analysis it).

Section Processor.

Variable env : Env.

Abbreviation Py := (M world).

(** [datetime.utcnow()] *)
Definition utcnow : Py Z :=
  fun w => (Ret (utcnow_at env (clock_reads w)), tick_clock w).

Definition logger_info (text : string) : Py unit := modify (record_log (LogInfo text)).
Definition logger_error (text : string) : Py unit := modify (record_log (LogError text)).

(** A write to a store: it is journalled, and either raises the fault the
    environment schedules for it or takes effect. *)
Definition store_write (c : call) (effect : world -> world) : Py unit :=
  fun w => match write_fault env (length (journal w)) with
           | Some e => (Raise e, record_call c false w)
           | None => (Ret tt, effect (record_call c true w))
           end.

(** [container.upsert_item(item)] on [FoodHistory] or [MedicalRecords] *)
Definition upsert_item (k : kind) (it : item) : Py unit :=
  store_write (UpsertItem (container_of k) (doc_key it)) (set_items k (upsert_doc it)).

(** [recommendations_container.upsert_item(record)] *)
Definition upsert_insight (r : insight) : Py unit :=
  store_write (UpsertItem Recommendations (rec_key r)) (set_recommendations (upsert_rec r)).

(** [container.delete_item(item=id, partition_key=userId)] *)
Definition delete_item (k : kind) (it : item) : Py unit :=
  store_write (DeleteItem (container_of k) (doc_key it)) (set_items k (delete_doc (doc_key it))).

(** [container_client.get_blob_client(name).delete_blob()] *)
Definition delete_blob (container name : string) : Py unit :=
  store_write (DeleteBlob container name) (set_blobs container (delete_named name)).

(** [blob_service_client.get_blob_client(container, blob).download_blob().readall()] *)
Definition download_blob (container name : string) : Py (list Byte.byte) :=
  fun w => match download_fault env container name with
           | Some e => (Raise e, w)
           | None =>
               match filter (fun b => blob_name b = name) (blobs_of container w) with
               | b :: _ => (Ret (blob_data b), w)
               | [] => (Raise "The specified blob does not exist.", w)
               end
           end.

(* ---------------------------------------------------------------- *)
(** *** Pending-item drainer *)

(** [process_food_analysis], source lines 179-231: from the download up to
    and including the first [item.update]; it returns the dict as
    updated. *)
Definition food_update (it : item) : Py item :=
  image_data <- download_blob "food-images" (imagePath it) ;;
  vision <- lift_outcome (vision_analyze env image_data [OBJECTS; TAGS; CAPTION]) ;;
  analysis_prompt <- lift_outcome (food_prompt vision) ;;
  content <- lift_outcome (chat_completion env FOOD_SYSTEM analysis_prompt) ;;
  analysis_result <- lift_outcome (json_loads env content) ;;
  food_items <- lift_outcome (py_get analysis_result "food_items" EMPTY_LIST) ;;
  nutrition_info <- lift_outcome (py_get analysis_result "nutrition_info" EMPTY_DICT) ;;
  health_assessment <- lift_outcome (py_get analysis_result "health_assessment" EMPTY_DICT) ;;
  recommendations <- lift_outcome (py_get analysis_result "recommendations" EMPTY_LIST) ;;
  now <- utcnow ;;
  ret (update_completed it
         [("foodItems", food_items); ("nutritionInfo", nutrition_info);
          ("healthAssessment", health_assessment); ("recommendations", recommendations)]
         now).

(** The [except] branch of [process_food_analysis] and of
    [process_medical_analysis] (source lines 238-247, 319-328), run on the
    dict as it is when the exception arrives. *)
Definition mark_failed (k : kind) (it : item) (e : exn) : Py unit :=
  logger_error ("Error processing " +:+ kind_name k +:+ " analysis " +:+ doc_id it +:+ ": " +:+ e) ;;
  now <- utcnow ;;
  upsert_item k (update_failed it e now).

(** [process_food_analysis].  The dict [item] is mutated in place, so the
    handler sees the original dict when the exception comes before
    [item.update], and the updated one when [upsert_item] raised. *)
Definition process_food_analysis (it : item) : Py unit :=
  r <- attempt (food_update it) ;;
  match r with
  | Raise e => mark_failed Food it e
  | Ret updated =>
      try_except
        (upsert_item Food updated ;;
         logger_info ("Processed food analysis for item " +:+ doc_id updated))
        (mark_failed Food updated)
  end.

(** [process_medical_analysis], source lines 252-312. *)
Definition medical_update (it : item) : Py item :=
  document_data <- download_blob "medical-documents" (documentPath it) ;;
  vision <- lift_outcome (vision_analyze env document_data [READ]) ;;
  let extracted_text := extract_text vision in
  content <- lift_outcome
               (chat_completion env MEDICAL_SYSTEM (medical_prompt it extracted_text)) ;;
  analysis_result <- lift_outcome (json_loads env content) ;;
  key_findings <- lift_outcome (py_get analysis_result "key_findings" EMPTY_LIST) ;;
  metrics <- lift_outcome (py_get analysis_result "metrics" EMPTY_DICT) ;;
  risk_assessment <- lift_outcome (py_get analysis_result "risk_assessment" EMPTY_DICT) ;;
  follow_up_actions <- lift_outcome (py_get analysis_result "follow_up_actions" EMPTY_LIST) ;;
  lifestyle <- lift_outcome (py_get analysis_result "lifestyle_recommendations" EMPTY_LIST) ;;
  now <- utcnow ;;
  ret (update_completed it
         [("extractedText", JStr extracted_text); ("keyFindings", key_findings);
          ("metrics", metrics); ("riskAssessment", risk_assessment);
          ("followUpActions", follow_up_actions);
          ("lifestyleRecommendations", lifestyle)]
         now).

Definition process_medical_analysis (it : item) : Py unit :=
  r <- attempt (medical_update it) ;;
  match r with
  | Raise e => mark_failed Medical it e
  | Ret updated =>
      try_except
        (upsert_item Medical updated ;;
         logger_info ("Processed medical analysis for item " +:+ doc_id updated))
        (mark_failed Medical updated)
  end.

(** The two functions above differ only in the analysis stage and in the
    container they write to; these select either by kind. *)
Definition analysis_update (k : kind) : item -> Py item :=
  match k with Food => food_update | Medical => medical_update end.

Definition process_analysis (k : kind) : item -> Py unit :=
  match k with Food => process_food_analysis | Medical => process_medical_analysis end.

(** One iteration of the [while self.running] loop of
    [process_pending_analyses], up to its [asyncio.sleep(60)]. *)
Definition process_pending_analyses_once : Py unit :=
  try_except
    (pending_food <- gets (fun w => query_pending (food_container w)) ;;
     pending_medical <- gets (fun w => query_pending (medical_container w)) ;;
     for_each pending_food process_food_analysis ;;
     for_each pending_medical process_medical_analysis)
    (fun e => logger_error ("Error in process_pending_analyses: " +:+ e)).

(* ---------------------------------------------------------------- *)
(** *** Daily insights *)

Definition insights_prompt (recent_food recent_medical : list item) : string :=
  "Generate comprehensive daily health insights for this user based on their recent activity: "
  +:+ "Recent Food History (last 7 days): " +:+ json_dumps env (take 10 recent_food)
  +:+ " Recent Medical Data (last 7 days): " +:+ json_dumps env (take 5 recent_medical)
  +:+ " Format as JSON with keys: nutritional_trends, health_status, daily_recommendations, long_term_goals, risk_factors".

(** The id of the daily record of a user, from the clock reading it is
    built at. *)
Definition daily_insight_id (user_id : string) (now : Z) : string :=
  user_id +:+ "-insights-" +:+ Clock.date_isoformat now.

Definition generate_user_daily_insights (user_id : string) : Py unit :=
  try_except
    (now <- utcnow ;;
     let recent_cutoff := now - Clock.days 7 in
     recent_food <- gets (fun w => order_by_timestamp_desc
                                     (query_user_since user_id recent_cutoff (food_container w))) ;;
     recent_medical <- gets (fun w => order_by_timestamp_desc
                                        (query_user_since user_id recent_cutoff (medical_container w))) ;;
     match recent_food, recent_medical with
     | [], [] => ret tt
     | _, _ =>
         content <- lift_outcome
                      (chat_completion env INSIGHTS_SYSTEM
                         (insights_prompt recent_food recent_medical)) ;;
         daily_insights <- lift_outcome (json_loads env content) ;;
         today <- utcnow ;;
         nutritional_trends <- lift_outcome (py_get daily_insights "nutritional_trends" EMPTY_DICT) ;;
         health_status <- lift_outcome (py_get daily_insights "health_status" EMPTY_DICT) ;;
         daily_recommendations <- lift_outcome (py_get daily_insights "daily_recommendations" EMPTY_LIST) ;;
         long_term_goals <- lift_outcome (py_get daily_insights "long_term_goals" EMPTY_LIST) ;;
         risk_factors <- lift_outcome (py_get daily_insights "risk_factors" EMPTY_LIST) ;;
         generated <- utcnow ;;
         range_end <- utcnow ;;
         upsert_insight
           (mkInsight (daily_insight_id user_id today) user_id "daily_insights"
              [("nutritionalTrends", nutritional_trends); ("healthStatus", health_status);
               ("dailyRecommendations", daily_recommendations);
               ("longTermGoals", long_term_goals); ("riskFactors", risk_factors)]
              generated recent_cutoff range_end None) ;;
         logger_info ("Generated daily insights for user " +:+ user_id)
     end)
    (fun e => logger_error ("Error generating daily insights for user " +:+ user_id +:+ ": " +:+ e)).

(** [current_time.hour == 6 and current_time.minute == 0] *)
Definition daily_due (t : Z) : bool :=
  bool_decide (Clock.hour t = 6) && bool_decide (Clock.minute t = 0).

(** The users with a document in either container since [cutoff]. *)
Definition active_users (cutoff : Z) (w : world) : list string :=
  remove_dups (query_active_users cutoff (food_container w)
               ++ query_active_users cutoff (medical_container w)).

(** The body of the [if] of [generate_daily_insights] (lines 338-370). *)
Definition daily_insights_run (current_time : Z) : Py unit :=
  logger_info "Starting daily insights generation" ;;
  users <- gets (active_users (current_time - Clock.days 30)) ;;
  for_each users generate_user_daily_insights ;;
  logger_info ("Daily insights generated for " +:+ pretty (length users) +:+ " users").

(** One iteration of the loop of [generate_daily_insights], up to its
    [asyncio.sleep(60)]. *)
Definition generate_daily_insights_once : Py unit :=
  try_except
    (current_time <- utcnow ;;
     if daily_due current_time then daily_insights_run current_time else ret tt)
    (fun e => logger_error ("Error in generate_daily_insights: " +:+ e)).

(* ---------------------------------------------------------------- *)
(** *** Weekly trend analysis *)

Definition trend_prompt (food_history medical_history : list item) : string :=
  "Analyze long-term health trends for this user over the last 90 days: "
  +:+ "Food History Trend: " +:+ json_dumps env food_history
  +:+ " Medical History Trend: " +:+ json_dumps env medical_history
  +:+ " Format as JSON with keys: nutritional_patterns, health_metrics_trend, behavioral_patterns, risk_trends, health_trajectory, interventions".

Definition trend_id (user_id : string) (now : Z) : string :=
  user_id +:+ "-trends-" +:+ Clock.date_isoformat now.

Definition analyze_user_health_trends (user_id : string) : Py unit :=
  try_except
    (now <- utcnow ;;
     let trend_cutoff := now - Clock.days 90 in
     food_history <- gets (fun w => order_by_timestamp_asc
                                      (query_user_since user_id trend_cutoff (food_container w))) ;;
     medical_history <- gets (fun w => order_by_timestamp_asc
                                         (query_user_since user_id trend_cutoff (medical_container w))) ;;
     if bool_decide (length food_history < 5)%nat then ret tt
     else
       content <- lift_outcome
                    (chat_completion env TRENDS_SYSTEM
                       (trend_prompt food_history medical_history)) ;;
       trend_analysis <- lift_outcome (json_loads env content) ;;
       today <- utcnow ;;
       nutritional_patterns <- lift_outcome (py_get trend_analysis "nutritional_patterns" EMPTY_DICT) ;;
       health_metrics_trend <- lift_outcome (py_get trend_analysis "health_metrics_trend" EMPTY_DICT) ;;
       behavioral_patterns <- lift_outcome (py_get trend_analysis "behavioral_patterns" EMPTY_DICT) ;;
       risk_trends <- lift_outcome (py_get trend_analysis "risk_trends" EMPTY_DICT) ;;
       health_trajectory <- lift_outcome (py_get trend_analysis "health_trajectory" EMPTY_DICT) ;;
       interventions <- lift_outcome (py_get trend_analysis "interventions" EMPTY_LIST) ;;
       generated <- utcnow ;;
       range_end <- utcnow ;;
       upsert_insight
         (mkInsight (trend_id user_id today) user_id "health_trends"
            [("nutritionalPatterns", nutritional_patterns);
             ("healthMetricsTrend", health_metrics_trend);
             ("behavioralPatterns", behavioral_patterns); ("riskTrends", risk_trends);
             ("healthTrajectory", health_trajectory); ("interventions", interventions)]
            generated trend_cutoff range_end
            (Some (Z.of_nat (length food_history + length medical_history)))) ;;
       logger_info ("Generated health trend analysis for user " +:+ user_id))
    (fun e => logger_error ("Error analyzing health trends for user " +:+ user_id +:+ ": " +:+ e)).

(** [current_time.weekday() == 6 and current_time.hour == 8] *)
Definition weekly_due (t : Z) : bool :=
  bool_decide (Clock.weekday t = 6) && bool_decide (Clock.hour t = 8).

(** The body of the [if] of [health_trend_analysis] (lines 472-492). *)
Definition trend_run (current_time : Z) : Py unit :=
  logger_info "Starting weekly health trend analysis" ;;
  users <- gets (active_users (current_time - Clock.days 30)) ;;
  for_each users analyze_user_health_trends ;;
  logger_info ("Health trend analysis completed for " +:+ pretty (length users) +:+ " users").

(** One iteration of the loop of [health_trend_analysis], up to its
    [asyncio.sleep(3600)]. *)
Definition health_trend_analysis_once : Py unit :=
  try_except
    (current_time <- utcnow ;;
     if weekly_due current_time then trend_run current_time else ret tt)
    (fun e => logger_error ("Error in health_trend_analysis: " +:+ e)).

(* ---------------------------------------------------------------- *)
(** *** Monthly cleanup *)

(** The sweep of one blob container (the body of the [for container_name]
    loop, lines 639-651): the comparison of the first blob listed raises
    (see [datetime_lt]), before any name is collected. *)
Definition sweep_container (cutoff_datetime : datetime) (container : string) : Py unit :=
  blobs <- gets (blobs_of container) ;;
  blobs_to_delete <- lift_outcome (older_blobs cutoff_datetime blobs) ;;
  for_each blobs_to_delete (delete_blob container) ;;
  logger_info ("Deleted " +:+ pretty (length blobs_to_delete)
               +:+ " old blobs from " +:+ container).

(** [cutoff_date] is the [isoformat()] of a [datetime.utcnow()] shifted by
    a [timedelta]: it carries no offset, [.replace('Z', '+00:00')] leaves it
    as it is and [datetime.fromisoformat] yields a naive datetime. *)
Definition cleanup_old_blobs (cutoff_date : Z) : Py unit :=
  try_except
    (let cutoff_datetime := Naive cutoff_date in
     for_each ["food-images"; "medical-documents"] (sweep_container cutoff_datetime))
    (fun e => logger_error ("Error cleaning up old blobs: " +:+ e)).

(** [current_time.day == 1 and current_time.hour == 2] *)
Definition cleanup_due (t : Z) : bool :=
  bool_decide (Clock.day t = 1) && bool_decide (Clock.hour t = 2).

(** The body of the [if] of [cleanup_old_data] (lines 596-625). *)
Definition cleanup_run (current_time : Z) : Py unit :=
  logger_info "Starting monthly data cleanup" ;;
  let cleanup_cutoff := current_time - Clock.days 730 in
  old_food_items <- gets (fun w => query_older_than cleanup_cutoff (food_container w)) ;;
  for_each old_food_items (delete_item Food) ;;
  let old_medical_cutoff := current_time - Clock.days 1095 in
  old_medical_items <- gets (fun w => query_older_not_critical old_medical_cutoff
                                        (medical_container w)) ;;
  for_each old_medical_items (delete_item Medical) ;;
  cleanup_old_blobs cleanup_cutoff ;;
  logger_info ("Cleanup completed: removed " +:+ pretty (length old_food_items)
               +:+ " food items and " +:+ pretty (length old_medical_items)
               +:+ " medical items").

(** One iteration of the loop of [cleanup_old_data], up to its
    [asyncio.sleep(3600)]. *)
Definition cleanup_old_data_once : Py unit :=
  try_except
    (current_time <- utcnow ;;
     if cleanup_due current_time then cleanup_run current_time else ret tt)
    (fun e => logger_error ("Error in cleanup_old_data: " +:+ e)).

(* ---------------------------------------------------------------- *)
(** *** Service Bus consumer *)

(** The three handlers are empty in the source ([pass]): they return at
    once and never raise. *)
Definition process_urgent_health_alert (user_id message_data : json) : Py unit := ret tt.
Definition process_daily_reminder (user_id message_data : json) : Py unit := ret tt.
Definition process_analysis_request (user_id message_data : json) : Py unit := ret tt.

(** [message_type == name] *)
Definition is_type (message_type : json) (name : string) : bool :=
  match message_type with
  | JStr s => bool_decide (s = name)
  | _ => false
  end.

Definition handle_notification_message (message_data : json) : Py unit :=
  try_except
    (message_type <- lift_outcome (py_get message_data "type" JNull) ;;
     user_id <- lift_outcome (py_get message_data "userId" JNull) ;;
     (if is_type message_type "urgent_health_alert"
      then process_urgent_health_alert user_id message_data
      else if is_type message_type "daily_reminder"
      then process_daily_reminder user_id message_data
      else if is_type message_type "analysis_request"
      then process_analysis_request user_id message_data
      else ret tt) ;;
     logger_info ("Processed notification message type: " +:+ py_str env message_type
                  +:+ " for user: " +:+ py_str env user_id))
    (fun e => logger_error ("Error handling notification message: " +:+ e)).

(** [receiver.complete_message(msg)], [receiver.abandon_message(msg)] *)
Definition complete_message (msg : string) : Py unit :=
  store_write (CompleteMessage msg) (fun w => w).
Definition abandon_message (msg : string) : Py unit :=
  store_write (AbandonMessage msg) (fun w => w).

(** The body of [for msg in receiver] (lines 665-672); [msg] is [str(msg)]. *)
Definition process_message (msg : string) : Py unit :=
  try_except
    (message_data <- lift_outcome (json_loads env msg) ;;
     handle_notification_message message_data ;;
     complete_message msg)
    (fun e =>
       logger_error ("Error processing Service Bus message: " +:+ e) ;;
       abandon_message msg).

(** One iteration of the loop of [process_service_bus_messages] (a client
    being configured) over the messages the receiver yields, up to its
    [asyncio.sleep]. *)
Definition process_service_bus_messages_once (received : list string) : Py unit :=
  try_except
    (for_each received process_message)
    (fun e => logger_error ("Error in process_service_bus_messages: " +:+ e)).

End Processor.

(* ================================================================== *)
(** ** Periodic jobs: when a job loop runs its job *)

(** A job loop holds no state besides [self.running]: each iteration takes
    one clock reading and runs the job exactly when the reading satisfies
    the trigger.  The runs of a loop whose iterations read [readings] are
    therefore the readings that satisfy the trigger. *)
Definition job_runs (due : Z -> bool) (readings : list Z) : list Z :=
  filter (fun t => due t = true) readings.

(** Consecutive readings are at least [gap] apart: what [asyncio.sleep]
    between two iterations gives when the wall clock is not set back. *)
Definition spaced (gap : Z) (readings : list Z) : Prop :=
  Sorted (fun a b => a + gap <= b) readings.

#[global] Instance spaced_dec gap readings : Decision (spaced gap readings).
Proof. unfold spaced. apply _. Defined.

(** Sample readings: around 06:00 on 2024-02-29, around 08:00 on Sunday
    2024-03-03, around 02:00 on 2024-03-01. *)
Definition sample_daily : list Z :=
  [Clock.at_time 19782 5 59 30; Clock.at_time 19782 6 0 30; Clock.at_time 19782 6 1 30].
Definition sample_weekly : list Z :=
  [Clock.at_time 19785 7 30 0; Clock.at_time 19785 8 30 0; Clock.at_time 19785 9 30 0].
Definition sample_monthly : list Z :=
  [Clock.at_time 19783 1 30 0; Clock.at_time 19783 2 30 0; Clock.at_time 19783 3 30 0].

(* ================================================================== *)
(** ** Life cycle of a document *)

(** [b] is [a] after its one terminal transition: [a] was pending, [b] is
    completed or failed, carries a [processedAt], and is the same document. *)
Definition terminal_of (a b : item) : Prop :=
  status a = "pending" /\
  (status b = "completed" \/ status b = "failed") /\
  is_Some (processedAt b) /\
  doc_key b = doc_key a.

(** What may happen to a stored document between two observations: nothing,
    or its terminal transition. *)
Definition item_step (a b : item) : Prop := b = a \/ terminal_of a b.

(** Every document of the later container [c'] is a document of the earlier
    container [c], untouched or after its terminal transition. *)
Definition container_step (c c' : list item) : Prop :=
  forall b, b ∈ c' -> exists a, a ∈ c /\ doc_key a = doc_key b /\ item_step a b.

(** No two documents of a container share a key. *)
Definition unique_keys (w : world) : Prop :=
  NoDup (doc_key <$> food_container w) /\ NoDup (doc_key <$> medical_container w).

#[global] Instance unique_keys_dec w : Decision (unique_keys w).
Proof. unfold unique_keys. apply _. Defined.

(** The loops of the processor; [Consumer] carries the messages its
    receiver yields in that iteration. *)
Inductive loop : Type :=
| Drainer
| DailyInsights
| TrendAnalysis
| DataCleanup
| Consumer (received : list string).

(** One iteration of a loop. *)
Definition iteration (env : Env) (l : loop) : M world unit :=
  match l with
  | Drainer => process_pending_analyses_once env
  | DailyInsights => generate_daily_insights_once env
  | TrendAnalysis => health_trend_analysis_once env
  | DataCleanup => cleanup_old_data_once env
  | Consumer received => process_service_bus_messages_once env received
  end.

(** A schedule: iterations of the loops in the order they run, each with
    the behaviour of the external services during it. *)
Fixpoint run (schedule : list (Env * loop)) (w : world) : world :=
  match schedule with
  | [] => w
  | (env, l) :: rest => run rest (exec (iteration env l) w)
  end.

(* ================================================================== *)
(** ** Invariants of programs of the monad *)

(** [m] keeps a property of the state, whatever it returns or raises. *)
Definition preserves {St A} (I : St -> Prop) (m : M St A) : Prop :=
  forall s, I s -> I (exec m s).

(** Properties of the world that do not look at the number of clock
    readings, at the log, at the journal. *)
Class TickInsensitive (I : world -> Prop) : Prop :=
  tick_insensitive : forall w, I w -> I (tick_clock w).
Class LogInsensitive (I : world -> Prop) : Prop :=
  log_insensitive : forall e w, I w -> I (record_log e w).
Class CallInsensitive (I : world -> Prop) : Prop :=
  call_insensitive : forall c ok w, I w -> I (record_call c ok w).

(** The documents of both containers evolve from [w0] by [container_step]
    and keep their keys unique. *)
Definition evolved_from (w0 w : world) : Prop :=
  unique_keys w /\
  container_step (food_container w0) (food_container w) /\
  container_step (medical_container w0) (medical_container w).

(** Every value [m] can return satisfies [P]. *)
Definition returns {St A} (m : M St A) (P : A -> Prop) : Prop :=
  forall s a, result m s = Ret a -> P a.

(* ================================================================== *)
(** ** Sample data *)

(** 2024-02-29 10:00:00 UTC *)
Definition sample_now : Z := Clock.at_time 19782 10 0 0.

(** [json.loads] on the few texts the samples use. *)
Definition sample_json_loads (s : string) : outcome json :=
  if bool_decide (s = "{}") then Ret (JObj [])
  else if bool_decide (s = "[1]") then Ret (JArr [JNum 1])
  else Raise "Expecting value: line 1 column 1 (char 0)".

Definition sample_py_str (v : json) : string :=
  match v with
  | JNull => "None"
  | JBool true => "True"
  | JBool false => "False"
  | JNum n => pretty n
  | JStr s => s
  | JArr _ => "[...]"
  | JObj _ => "{...}"
  end.

(** Services that all answer: the clock advances one second per reading,
    Vision reports a caption, an object, tags and a line of text, the model
    answers with the empty object, no write fails. *)
Definition sample_env : Env :=
  mkEnv (fun n => sample_now + Z.of_nat n * Clock.SECOND)
        (fun _ _ => None)
        (fun _ _ => Ret (mkVision (Some "an apple on a plate") (Some [["apple"]])
                                  (Some ["fruit"; "food"])
                                  (Some [["Glucose 5.4 mmol/L"]])))
        (fun _ _ => Ret "{}")
        sample_json_loads
        (fun _ => "[]")
        sample_py_str
        (fun _ => None).

(** The same services, but the model's completion call raises. *)
Definition failing_model_env : Env :=
  mkEnv (utcnow_at sample_env) (download_fault sample_env) (vision_analyze sample_env)
        (fun _ _ => Raise "Request timed out.")
        sample_json_loads (json_dumps sample_env) sample_py_str (write_fault sample_env).

(** The same services, but the n-th write to a store raises. *)
Definition faulty_write_env (n : nat) : Env :=
  mkEnv (utcnow_at sample_env) (download_fault sample_env) (vision_analyze sample_env)
        (chat_completion sample_env) sample_json_loads (json_dumps sample_env) sample_py_str
        (fun i => if bool_decide (i = n) then Some "Service Unavailable" else None).

Definition sample_item (id user : string) (ts : Z) (st ty path : string) : item :=
  mkItem id user ts st ty path path "lab_report" None None [].

Definition food_done_old : item :=
  sample_item "u1-1" "u1" (sample_now - Clock.days 731) "completed" "food_analysis" "u1/old.jpg".
Definition food_done_recent : item :=
  sample_item "u1-2" "u1" (sample_now - Clock.days 729) "completed" "food_analysis" "u1/b.jpg".
Definition food_pending : item :=
  sample_item "u1-3" "u1" (sample_now - Clock.HOUR) "pending" "food_analysis" "u1/a.jpg".
Definition food_pending_no_blob : item :=
  sample_item "u2-1" "u2" (sample_now - 2 * Clock.HOUR) "pending" "food_analysis" "u2/gone.jpg".

Definition medical_pending : item :=
  sample_item "u1-doc-1" "u1" (sample_now - 3 * Clock.HOUR) "pending" "medical_document" "u1/r.pdf".
Definition medical_critical : item :=
  sample_item "u3-doc-1" "u3" (sample_now - Clock.days 2000) "completed" "critical" "u3/c.pdf".
Definition medical_old : item :=
  sample_item "u3-doc-2" "u3" (sample_now - Clock.days 1100) "completed" "medical_document" "u3/o.pdf".

Definition sample_world : world :=
  mkWorld [food_done_old; food_done_recent; food_pending; food_pending_no_blob]
          [medical_pending; medical_critical; medical_old]
          []
          [mkBlob "u1/a.jpg" (sample_now - Clock.HOUR) [];
           mkBlob "u1/old.jpg" (sample_now - Clock.days 731) []]
          [mkBlob "u1/r.pdf" (sample_now - 3 * Clock.HOUR) []]
          [] [] 0.

(* ================================================================== *)
(** ** The drainer, observed *)

#[global] Instance container_name_eq_dec : EqDecision container_name.
Proof. solve_decision. Defined.
#[global] Instance call_eq_dec : EqDecision call.
Proof. solve_decision. Defined.

(** The documents an iteration of the drainer handles, in the order it
    takes them: the two [for] loops of lines 162-167. *)
Definition drain_order (w : world) : list (kind * item) :=
  ((pair Food <$> query_pending (food_container w))
   ++ (pair Medical <$> query_pending (medical_container w)))%list.

(** The journal entry of an accepted [upsert_item] of a document. *)
Definition upsert_ok (ki : kind * item) : call * bool :=
  (UpsertItem (container_of ki.1) (doc_key ki.2), true).

(** No write to a store raises. *)
Definition no_write_fault (env : Env) : Prop := forall n, write_fault env n = None.

(** The document stored under a key. *)
Definition stored (k : kind) (key : string * string) (w : world) : option item :=
  head (filter (fun x => doc_key x = key) (items_of k w)).

(** How many times a journal shows an upsert of a key into a container. *)
Definition upserts_of (k : kind) (key : string * string) (j : list (call * bool)) : nat :=
  length (filter (fun c => c.1 = UpsertItem (container_of k) key) j).

(** [w'] has the stores and the journal of [w]; the log and the number of
    clock readings may differ. *)
Definition same_stores (w w' : world) : Prop :=
  food_container w' = food_container w /\
  medical_container w' = medical_container w /\
  recommendations_container w' = recommendations_container w /\
  food_images w' = food_images w /\
  medical_documents w' = medical_documents w /\
  journal w' = journal w.

(** The document [process_food_analysis] / [process_medical_analysis] ends
    up writing for [it] when the store accepts the write: the completed
    dict, or the failed one when the analysis stage raised. *)
Definition settled (env : Env) (k : kind) (it : item) (w : world) : item :=
  match analysis_update env k it w with
  | (Ret updated, _) => updated
  | (Raise e, w1) => update_failed it e (utcnow_at env (clock_reads w1))
  end.

(** [w'] has the blobs of [w]. *)
Definition same_blobs (w w' : world) : Prop :=
  food_images w' = food_images w /\ medical_documents w' = medical_documents w.

(** The analysis stage of [it] raises [e], with the blobs as they are in [w]. *)
Definition analysis_fails (env : Env) (k : kind) (it : item) (e : exn) (w : world) : Prop :=
  forall w0, same_blobs w w0 -> result (analysis_update env k it) w0 = Raise e.

#[global] Instance kind_eq_dec : EqDecision kind.
Proof. solve_decision. Defined.

(** The document stored under [key] is [doc], and the journal shows [n]
    upserts of that key. *)
Definition settled_at (k : kind) (key : string * string) (doc : item) (n : nat)
    (w : world) : Prop :=
  stored k key w = Some doc /\ upserts_of k key (journal w) = n.

(* ================================================================== *)
(** ** The daily record of a user *)

(** The key of the daily record of [user] for the date with this day number:
    the partition key and the id built at source line 442. *)
Definition daily_key (user : string) (day_number : Z) : string * string :=
  (user, user +:+ "-insights-" +:+ Clock.isoformat_day day_number).

(** The records stored under a key. *)
Definition records_with (key : string * string) (c : list insight) : list insight :=
  filter (fun r => rec_key r = key) c.

(** Runs of one job, one after the other, each with the behaviour of the
    services during it. *)
Fixpoint rerun (job : Env -> M world unit) (envs : list Env) (w : world) : world :=
  match envs with
  | [] => w
  | env :: rest => rerun job rest (exec (job env) w)
  end.

(** The writes journalled after the first [n0]. *)
Definition sent_since (n0 : nat) (w : world) : list (call * bool) := drop n0 (journal w).

(** Since the journal had [n0] entries, only upserts of [key] into
    [Recommendations] were sent; the keys of that container are unique; and
    the key is present once it was there before ([had]) or an upsert of it
    was accepted. *)
Definition one_record_inv (n0 : nat) (key : string * string) (had : Prop) (w : world) : Prop :=
  (n0 <= length (journal w))%nat /\
  NoDup (rec_key <$> recommendations_container w) /\
  (forall c, c ∈ sent_since n0 w -> c.1 = UpsertItem Recommendations key) /\
  ((UpsertItem Recommendations key, true) ∈ sent_since n0 w \/ had ->
   key ∈ rec_key <$> recommendations_container w).

(** The services of [sample_env] with the clock standing still. *)
Definition frozen_env : Env :=
  mkEnv (fun _ => sample_now) (download_fault sample_env) (vision_analyze sample_env)
        (chat_completion sample_env) sample_json_loads (json_dumps sample_env) sample_py_str
        (write_fault sample_env).

(* ================================================================== *)
(** ** The model's answer *)

(** What the code gets out of a completion call followed by [json.loads]
    and the first [.get]: the fields of the JSON object the model answered
    with, or the exception raised on the way (the call failed, the answer is
    not JSON, or it is JSON but not an object). *)
Definition inference (env : Env) (system prompt : string) : outcome (list (string * json)) :=
  match chat_completion env system prompt with
  | Raise e => Raise e
  | Ret content =>
      match json_loads env content with
      | Raise e => Raise e
      | Ret (JObj fields) => Ret fields
      | Ret v => Raise ("'" +:+ py_type_name v +:+ "' object has no attribute 'get'")
      end
  end.

(** A world in which user [u1] has five food documents in the last five
    days. *)
Definition trend_world : world :=
  mkWorld [sample_item "u1-a" "u1" (sample_now - Clock.days 1) "completed" "food_analysis" "a";
           sample_item "u1-b" "u1" (sample_now - Clock.days 2) "completed" "food_analysis" "b";
           sample_item "u1-c" "u1" (sample_now - Clock.days 3) "completed" "food_analysis" "c";
           sample_item "u1-d" "u1" (sample_now - Clock.days 4) "completed" "food_analysis" "d";
           sample_item "u1-e" "u1" (sample_now - Clock.days 5) "completed" "food_analysis" "e"]
          [] [] [] [] [] [] 0.

(* ================================================================== *)
(** ** Normal and exceptional exits *)

(** From a state satisfying [P], [m] ends in a state satisfying [Q] when it
    returns and in one satisfying [E] when it raises. *)
Definition triple {St A} (P : St -> Prop) (m : M St A) (Q E : St -> Prop) : Prop :=
  forall s, P s ->
    match m s with
    | (Ret _, s') => Q s'
    | (Raise _, s') => E s'
    end.

(** The log entries written after the first [l0]. *)
Definition logged_since (l0 : nat) (w : world) : list log_entry := drop l0 (log w).

Definition accepted (c : call * bool) : Prop := c.2 = true.

(** Since the journal had [n0] entries and the log [l0]: every write sent
    was accepted. *)
Definition all_accepted (n0 l0 : nat) (w : world) : Prop :=
  (n0 <= length (journal w))%nat /\ (l0 <= length (log w))%nat /\
  Forall accepted (sent_since n0 w).

(** ... the last write sent was refused, the ones before it accepted. *)
Definition last_refused (n0 l0 : nat) (w : world) : Prop :=
  (n0 <= length (journal w))%nat /\ (l0 <= length (log w))%nat /\
  exists pre c, sent_since n0 w = (pre ++ [(c, false)])%list /\ Forall accepted pre.

(** ... and an error was logged. *)
Definition refused_and_logged (n0 l0 : nat) (w : world) : Prop :=
  last_refused n0 l0 w /\ exists text, LogError text ∈ logged_since l0 w.

Definition run_over (n0 l0 : nat) (w : world) : Prop :=
  all_accepted n0 l0 w \/ refused_and_logged n0 l0 w.

(** 2024-03-01 02:30:00 UTC, when the monthly cleanup is due. *)
Definition cleanup_now : Z := Clock.at_time 19783 2 30 0.

(** Two food documents, one medical document and three blobs, all past
    their retention. *)
Definition cleanup_world : world :=
  mkWorld [sample_item "u1-1" "u1" (cleanup_now - Clock.days 800) "completed" "food_analysis" "u1/old.jpg";
           sample_item "u1-2" "u1" (cleanup_now - Clock.days 900) "completed" "food_analysis" "u1/older.jpg"]
          [sample_item "u3-doc-2" "u3" (cleanup_now - Clock.days 1100) "completed" "medical_document" "u3/o.pdf"]
          []
          [mkBlob "u1/old.jpg" (cleanup_now - Clock.days 800) [];
           mkBlob "u1/older.jpg" (cleanup_now - Clock.days 900) []]
          [mkBlob "u3/o.pdf" (cleanup_now - Clock.days 1100) []]
          [] [] 0.

(** The clock stands at [cleanup_now]; the write number [faulty] raises. *)
Definition cleanup_env (faulty : nat) : Env :=
  mkEnv (fun _ => cleanup_now) (download_fault sample_env) (vision_analyze sample_env)
        (chat_completion sample_env) sample_json_loads (json_dumps sample_env) sample_py_str
        (fun i => if bool_decide (i = faulty) then Some "Service Unavailable" else None).

(* ================================================================== *)
(** ** Result keys and their defaults *)

(** The result keys [process_food_analysis] writes (lines 226-229), from the
    fields of the model's answer. *)
Definition food_results (fields : list (string * json)) : list (string * json) :=
  [("foodItems", dict_get fields "food_items" EMPTY_LIST);
   ("nutritionInfo", dict_get fields "nutrition_info" EMPTY_DICT);
   ("healthAssessment", dict_get fields "health_assessment" EMPTY_DICT);
   ("recommendations", dict_get fields "recommendations" EMPTY_LIST)].

(** The result keys [process_medical_analysis] writes (lines 305-310). *)
Definition medical_results (extracted_text : string) (fields : list (string * json))
    : list (string * json) :=
  [("extractedText", JStr extracted_text);
   ("keyFindings", dict_get fields "key_findings" EMPTY_LIST);
   ("metrics", dict_get fields "metrics" EMPTY_DICT);
   ("riskAssessment", dict_get fields "risk_assessment" EMPTY_DICT);
   ("followUpActions", dict_get fields "follow_up_actions" EMPTY_LIST);
   ("lifestyleRecommendations", dict_get fields "lifestyle_recommendations" EMPTY_LIST)].

(** The keys of a daily insight record (lines 445-449). *)
Definition insight_results (fields : list (string * json)) : list (string * json) :=
  [("nutritionalTrends", dict_get fields "nutritional_trends" EMPTY_DICT);
   ("healthStatus", dict_get fields "health_status" EMPTY_DICT);
   ("dailyRecommendations", dict_get fields "daily_recommendations" EMPTY_LIST);
   ("longTermGoals", dict_get fields "long_term_goals" EMPTY_LIST);
   ("riskFactors", dict_get fields "risk_factors" EMPTY_LIST)].

(** For each result key of a food document, a medical document and a
    daily record: the key of the model's answer it is read from and the
    default of its [.get] (source lines 226-229, 306-310, 445-449). *)
Definition food_keys : list (string * string * json) :=
  [("foodItems", "food_items", JArr []);
   ("nutritionInfo", "nutrition_info", JObj []);
   ("healthAssessment", "health_assessment", JObj []);
   ("recommendations", "recommendations", JArr [])].

Definition medical_keys : list (string * string * json) :=
  [("keyFindings", "key_findings", JArr []);
   ("metrics", "metrics", JObj []);
   ("riskAssessment", "risk_assessment", JObj []);
   ("followUpActions", "follow_up_actions", JArr []);
   ("lifestyleRecommendations", "lifestyle_recommendations", JArr [])].

Definition insight_keys : list (string * string * json) :=
  [("nutritionalTrends", "nutritional_trends", JObj []);
   ("healthStatus", "health_status", JObj []);
   ("dailyRecommendations", "daily_recommendations", JArr []);
   ("longTermGoals", "long_term_goals", JArr []);
   ("riskFactors", "risk_factors", JArr [])].

(** Under each result key, [written] holds the value the answer [fields]
    has under the answer key, or the default when the answer lacks it. *)
Definition holds_defaults (keys : list (string * string * json))
    (fields written : list (string * json)) : Prop :=
  forall result_key answer_key dflt,
    (result_key, answer_key, dflt) ∈ keys ->
    assoc result_key written =
    Some (match assoc answer_key fields with Some v => v | None => dflt end).

(** The fields of the model's answer about a food document, or the
    exception met on the way to them (download, Vision, prompt, model call,
    decoding). *)
Definition food_answer (env : Env) (it : item) (w : world) : outcome (list (string * json)) :=
  match download_blob env "food-images" (imagePath it) w with
  | (Raise e, _) => Raise e
  | (Ret image_data, _) =>
      match vision_analyze env image_data [OBJECTS; TAGS; CAPTION] with
      | Raise e => Raise e
      | Ret vision =>
          match food_prompt vision with
          | Raise e => Raise e
          | Ret analysis_prompt => inference env FOOD_SYSTEM analysis_prompt
          end
      end
  end.

(** The text read from a medical document and the fields of the model's
    answer about it, or the exception met on the way. *)
Definition medical_answer (env : Env) (it : item) (w : world)
    : outcome (string * list (string * json)) :=
  match download_blob env "medical-documents" (documentPath it) w with
  | (Raise e, _) => Raise e
  | (Ret document_data, _) =>
      match vision_analyze env document_data [READ] with
      | Raise e => Raise e
      | Ret vision =>
          match inference env MEDICAL_SYSTEM (medical_prompt it (extract_text vision)) with
          | Raise e => Raise e
          | Ret fields => Ret (extract_text vision, fields)
          end
      end
  end.

(** The documents of the last 7 days of a user, as
    [generate_user_daily_insights] queries them at a clock reading. *)
Definition recent_docs (user : string) (now : Z) (c : list item) : list item :=
  order_by_timestamp_desc (query_user_since user (now - Clock.days 7) c).

(** [n] rounds of a [while self.running] loop whose body is [once]; the
    [asyncio.sleep] that ends a round changes nothing in the world. *)
Fixpoint rounds (n : nat) (once : M world unit) : M world unit :=
  match n with
  | O => ret tt
  | S n' => bind once (fun _ => rounds n' once)
  end.

Definition empty_world : world := mkWorld [] [] [] [] [] [] [] 0.

(** The services of [sample_env] on a wall clock that reads 06:00:40 and,
    one round later, 06:00:50 of the same day: it was set back by 50 s
    during the sleep. *)
Definition set_back_env : Env :=
  mkEnv (fun n => Clock.at_time 19782 6 0 (40 + 10 * Z.of_nat n))
        (download_fault sample_env) (vision_analyze sample_env)
        (chat_completion sample_env) sample_json_loads (json_dumps sample_env) sample_py_str
        (write_fault sample_env).

(* ================================================================== *)
(** ** More on the drainer *)

(** [b] is the document [a] as far as the fields the drainer never writes
    go: key, timestamp, type, paths. *)
Definition same_identity (a b : item) : Prop :=
  doc_key b = doc_key a /\ timestamp b = timestamp a /\ doc_type b = doc_type a /\
  imagePath b = imagePath a /\ documentPath b = documentPath a /\
  documentType b = documentType a.

(** No document of either container is pending. *)
Definition no_pending (w : world) : Prop :=
  forall k it, it ∈ items_of k w -> status it <> "pending".

(** The store refuses every write. *)
Definition every_write_refused (env : Env) : Prop :=
  forall n, is_Some (write_fault env n).

Definition refused (c : call * bool) : Prop := c.2 = false.

(** The services of [sample_env] with a store that refuses every write. *)
Definition outage_env : Env :=
  mkEnv (utcnow_at sample_env) (download_fault sample_env) (vision_analyze sample_env)
        (chat_completion sample_env) sample_json_loads (json_dumps sample_env) sample_py_str
        (fun _ => Some "Service Unavailable").

(** The documents are those of [w0], in the same places, with the same
    identity; recommendations and blobs are those of [w0]. *)
Definition kept (w0 w : world) : Prop :=
  Forall2 same_identity (food_container w0) (food_container w) /\
  Forall2 same_identity (medical_container w0) (medical_container w) /\
  recommendations_container w = recommendations_container w0 /\
  food_images w = food_images w0 /\
  medical_documents w = medical_documents w0.

(** The stores are those of [w0], and the [j] writes sent since the journal
    of [w0] were all refused. *)
Definition refused_so_far (w0 : world) (j : nat) (w : world) : Prop :=
  food_container w = food_container w0 /\
  medical_container w = medical_container w0 /\
  recommendations_container w = recommendations_container w0 /\
  food_images w = food_images w0 /\
  medical_documents w = medical_documents w0 /\
  (length (journal w0) <= length (journal w))%nat /\
  length (sent_since (length (journal w0)) w) = j /\
  Forall refused (sent_since (length (journal w0)) w).

(** The same services, but Vision answers with a caption only: no
    objects, no tags, no text. *)
Definition caption_only_env : Env :=
  mkEnv (utcnow_at sample_env) (download_fault sample_env)
        (fun _ _ => Ret (mkVision (Some "a plate") None None None))
        (chat_completion sample_env) sample_json_loads (json_dumps sample_env) sample_py_str
        (write_fault sample_env).

(** The same services, but the Vision call raises an exception that
    carries no message ([str(e)] is empty). *)
Definition silent_failure_env : Env :=
  mkEnv (utcnow_at sample_env) (download_fault sample_env)
        (fun _ _ => Raise "")
        (chat_completion sample_env) sample_json_loads (json_dumps sample_env) sample_py_str
        (write_fault sample_env).

(* ================================================================== *)
(** ** What a loop writes to *)

(** The writes a loop sends: the drainer upserts analysis documents, the
    two insight jobs upsert recommendations, the cleanup deletes documents
    and blobs, the consumer settles the messages it received. *)
Definition loop_call (l : loop) (c : call) : Prop :=
  match l with
  | Drainer =>
      exists key, c = UpsertItem FoodHistory key \/ c = UpsertItem MedicalRecords key
  | DailyInsights | TrendAnalysis =>
      exists key, c = UpsertItem Recommendations key
  | DataCleanup =>
      (exists key, c = DeleteItem FoodHistory key \/ c = DeleteItem MedicalRecords key) \/
      (exists name, c = DeleteBlob "food-images" name \/ c = DeleteBlob "medical-documents" name)
  | Consumer received =>
      exists msg, msg ∈ received /\ (c = CompleteMessage msg \/ c = AbandonMessage msg)
  end.

(** Since the journal had [n0] entries, only calls in [allowed] were sent. *)
Definition sends_only (allowed : call -> Prop) (n0 : nat) (w : world) : Prop :=
  (n0 <= length (journal w))%nat /\
  Forall (fun c => allowed c.1) (sent_since n0 w).

(** The analysis documents, the recommendations, the blobs are those of
    [w0]. *)
Definition items_untouched (w0 w : world) : Prop :=
  food_container w = food_container w0 /\ medical_container w = medical_container w0.
Definition recommendations_untouched (w0 w : world) : Prop :=
  recommendations_container w = recommendations_container w0.
Definition blobs_untouched (w0 w : world) : Prop :=
  food_images w = food_images w0 /\ medical_documents w = medical_documents w0.

(** How the consumer settles a message when the receiver accepts the call:
    completed when its body decodes as JSON, abandoned otherwise. *)
Definition settlement (env : Env) (msg : string) : call :=
  match json_loads env msg with
  | Ret _ => CompleteMessage msg
  | Raise _ => AbandonMessage msg
  end.

(* ================================================================== *)
(** ** What the cleanup may remove *)

(** The documents and blobs a cleanup run at [now] has no business
    deleting (source lines 599, 610, 640-645). *)
Definition retained_food (now : Z) (it : item) : Prop :=
  now - Clock.days 730 <= timestamp it.
Definition retained_medical (now : Z) (it : item) : Prop :=
  now - Clock.days 1095 <= timestamp it \/ doc_type it = "critical".
Definition retained_blob (now : Z) (b : blob) : Prop :=
  now - Clock.days 730 <= last_modified b.

(** No two blobs of a container share a name. *)
Definition unique_blob_names (w : world) : Prop :=
  NoDup (blob_name <$> food_images w) /\ NoDup (blob_name <$> medical_documents w).

#[global] Instance unique_blob_names_dec w : Decision (unique_blob_names w).
Proof. unfold unique_blob_names. apply _. Defined.

(** [c] is [c0] with some elements removed, none of them one to [keep]. *)
Definition culled {A} (keep : A -> Prop) (c0 c : list A) : Prop :=
  c `sublist_of` c0 /\ forall x, x ∈ c0 -> keep x -> x ∈ c.

Definition only_expired_removed (now : Z) (w0 w : world) : Prop :=
  culled (retained_food now) (food_container w0) (food_container w) /\
  culled (retained_medical now) (medical_container w0) (medical_container w) /\
  culled (retained_blob now) (food_images w0) (food_images w) /\
  culled (retained_blob now) (medical_documents w0) (medical_documents w).

(* ================================================================== *)
(** ** The records a periodic job writes *)

(** The journal is [j]. *)
Definition journal_is (j : list (call * bool)) (w : world) : Prop := journal w = j.

(** The journal is [j], or [j] followed by one upsert, accepted or not, of
    the record of [user] whose id [ident] builds from the user and a clock
    reading. *)
Definition one_record_sent (ident : string -> Z -> string) (user : string)
    (j : list (call * bool)) (w : world) : Prop :=
  journal w = j \/
  exists t ok, journal w = (j ++ [(UpsertItem Recommendations (user, ident user t), ok)])%list.

(** The writes [sent] are upserts into [Recommendations], one for each user
    of [served] and in that order, each of the record of that user. *)
Definition serves (ident : string -> Z -> string) (served : list string)
    (sent : list (call * bool)) : Prop :=
  Forall2 (fun c user => exists t, c.1 = UpsertItem Recommendations (user, ident user t))
          sent served.

(* ================================================================== *)
(** * Properties *)

(* ------------------------------------------------------------------ *)
(** ** Periodic jobs *)

Section Iterations.

Variable env : Env.

(** An iteration of each loop reads the clock once and consults nothing
    else to decide whether the job runs. *)
Lemma generate_daily_insights_once_unfold w :
  generate_daily_insights_once env w =
  let t := utcnow_at env (clock_reads w) in
  if daily_due t
  then try_except (daily_insights_run env t)
         (fun e => logger_error ("Error in generate_daily_insights: " +:+ e)) (tick_clock w)
  else (Ret tt, tick_clock w).
Proof.
  unfold generate_daily_insights_once, try_except, bind, utcnow. simpl.
  destruct (daily_due _); reflexivity.
Qed.

Lemma health_trend_analysis_once_unfold w :
  health_trend_analysis_once env w =
  let t := utcnow_at env (clock_reads w) in
  if weekly_due t
  then try_except (trend_run env t)
         (fun e => logger_error ("Error in health_trend_analysis: " +:+ e)) (tick_clock w)
  else (Ret tt, tick_clock w).
Proof.
  unfold health_trend_analysis_once, try_except, bind, utcnow. simpl.
  destruct (weekly_due _); reflexivity.
Qed.

Lemma cleanup_old_data_once_unfold w :
  cleanup_old_data_once env w =
  let t := utcnow_at env (clock_reads w) in
  if cleanup_due t
  then try_except (cleanup_run env t)
         (fun e => logger_error ("Error in cleanup_old_data: " +:+ e)) (tick_clock w)
  else (Ret tt, tick_clock w).
Proof.
  unfold cleanup_old_data_once, try_except, bind, utcnow. simpl.
  destruct (cleanup_due _); reflexivity.
Qed.

End Iterations.

Lemma hour_window t h :
  Clock.hour t = h ->
  Clock.date_of t * Clock.DAY + h * Clock.HOUR <= t
    < Clock.date_of t * Clock.DAY + (h + 1) * Clock.HOUR.
Proof.
  unfold Clock.hour, Clock.date_of, Clock.DAY, Clock.HOUR, Clock.MINUTE, Clock.SECOND.
  intros <-. simpl. Z.div_mod_to_equations; lia.
Qed.

Lemma minute_window t h m :
  Clock.hour t = h -> Clock.minute t = m ->
  Clock.date_of t * Clock.DAY + h * Clock.HOUR + m * Clock.MINUTE <= t
    < Clock.date_of t * Clock.DAY + h * Clock.HOUR + (m + 1) * Clock.MINUTE.
Proof.
  unfold Clock.hour, Clock.minute, Clock.date_of, Clock.DAY, Clock.HOUR,
    Clock.MINUTE, Clock.SECOND.
  intros <- <-. simpl. Z.div_mod_to_equations; lia.
Qed.

Lemma daily_due_spec t :
  daily_due t = true <-> Clock.hour t = 6 /\ Clock.minute t = 0.
Proof.
  unfold daily_due. rewrite andb_true_iff, !bool_decide_eq_true. tauto.
Qed.

Lemma weekly_due_spec t :
  weekly_due t = true <-> Clock.weekday t = 6 /\ Clock.hour t = 8.
Proof.
  unfold weekly_due. rewrite andb_true_iff, !bool_decide_eq_true. tauto.
Qed.

Lemma cleanup_due_spec t :
  cleanup_due t = true <-> Clock.day t = 1 /\ Clock.hour t = 2.
Proof.
  unfold cleanup_due. rewrite andb_true_iff, !bool_decide_eq_true. tauto.
Qed.

(** Two readings in the 06:00 minute, a minute or more apart, are on
    different dates. *)
Lemma daily_due_apart a b :
  daily_due a = true -> daily_due b = true -> a + Clock.seconds 60 <= b ->
  Clock.date_of a <> Clock.date_of b.
Proof.
  rewrite !daily_due_spec. intros [Ha Ha'] [Hb Hb'] Hab Heq.
  pose proof (minute_window a 6 0 Ha Ha'). pose proof (minute_window b 6 0 Hb Hb').
  rewrite Heq in *.
  unfold Clock.seconds, Clock.DAY, Clock.HOUR, Clock.MINUTE, Clock.SECOND in *. lia.
Qed.

Lemma weekly_due_apart a b :
  weekly_due a = true -> weekly_due b = true -> a + Clock.seconds 3600 <= b ->
  Clock.week_of a <> Clock.week_of b.
Proof.
  rewrite !weekly_due_spec. intros [Ha Ha'] [Hb Hb'] Hab Heq.
  pose proof (hour_window a 8 Ha'). pose proof (hour_window b 8 Hb').
  assert (Clock.date_of a = Clock.date_of b) as Hd.
  { unfold Clock.weekday, Clock.week_of in *.
    revert Ha Hb Heq. generalize (Clock.date_of a) (Clock.date_of b). intros x y.
    intros. Z.div_mod_to_equations. lia. }
  rewrite Hd in *.
  unfold Clock.seconds, Clock.DAY, Clock.HOUR, Clock.MINUTE, Clock.SECOND in *. lia.
Qed.

Lemma cleanup_due_apart a b :
  cleanup_due a = true -> cleanup_due b = true -> a + Clock.seconds 3600 <= b ->
  Clock.date_of a <> Clock.date_of b.
Proof.
  rewrite !cleanup_due_spec. intros [_ Ha] [_ Hb] Hab Heq.
  pose proof (hour_window a 2 Ha). pose proof (hour_window b 2 Hb).
  rewrite Heq in *.
  unfold Clock.seconds, Clock.DAY, Clock.HOUR, Clock.MINUTE, Clock.SECOND in *. lia.
Qed.

(** Runs of a loop whose readings are [gap] apart fall in pairwise different
    periods, when two due readings [gap] apart never share a period. *)
Lemma job_runs_NoDup (due : Z -> bool) (period : Z -> Z) (gap : Z) readings :
  0 <= gap ->
  (forall a b, due a = true -> due b = true -> a + gap <= b -> period a <> period b) ->
  spaced gap readings ->
  NoDup (period <$> job_runs due readings).
Proof.
  intros Hgap Hapart Hsp.
  assert (StronglySorted (fun a b => a + gap <= b) readings) as Hss.
  { apply Sorted_StronglySorted; [|exact Hsp]. intros x y z ??. lia. }
  clear Hsp. unfold job_runs.
  induction Hss as [|t rest Hss IH Hall]; [constructor|].
  rewrite filter_cons. destruct (decide (due t = true)) as [Ht|Ht]; [|exact IH].
  rewrite fmap_cons. constructor; [|exact IH].
  rewrite list_elem_of_fmap. intros (b & Heq & Hb).
  apply list_elem_of_filter in Hb as [Hdue Hin].
  rewrite Forall_forall in Hall.
  apply (Hapart t b Ht Hdue); auto.
Qed.




(* ------------------------------------------------------------------ *)
(** ** Reasoning about programs of the monad *)

Section Preserves.

Context {St : Type} (I : St -> Prop).

Lemma preserves_ret {A} (a : A) : preserves I (ret a).
Proof. intros s Hs. exact Hs. Qed.

Lemma preserves_raise {A} e : preserves I (@raise St A e).
Proof. intros s Hs. exact Hs. Qed.

Lemma preserves_lift_outcome {A} (o : outcome A) : preserves I (lift_outcome o).
Proof. intros s Hs. exact Hs. Qed.

Lemma preserves_gets {A} (f : St -> A) : preserves I (gets f).
Proof. intros s Hs. exact Hs. Qed.

Lemma preserves_modify (f : St -> St) :
  (forall s, I s -> I (f s)) -> preserves I (modify f).
Proof. intros Hf s Hs. apply Hf, Hs. Qed.

Lemma preserves_bind {A B} (m : M St A) (k : A -> M St B) :
  preserves I m -> (forall a, preserves I (k a)) -> preserves I (bind m k).
Proof.
  intros Hm Hk s Hs. specialize (Hm s Hs). unfold exec, bind in *.
  destruct (m s) as [[a|e] s']; simpl in *; [apply Hk, Hm | exact Hm].
Qed.

Lemma preserves_try_except {A} (m : M St A) (h : exn -> M St A) :
  preserves I m -> (forall e, preserves I (h e)) -> preserves I (try_except m h).
Proof.
  intros Hm Hh s Hs. specialize (Hm s Hs). unfold exec, try_except in *.
  destruct (m s) as [[a|e] s']; simpl in *; [exact Hm | apply Hh, Hm].
Qed.

Lemma preserves_attempt {A} (m : M St A) : preserves I m -> preserves I (attempt m).
Proof.
  intros Hm s Hs. specialize (Hm s Hs). unfold exec, attempt in *.
  destruct (m s) as [o s']; exact Hm.
Qed.

Lemma preserves_for_each {X} (l : list X) (body : X -> M St unit) :
  (forall x, x ∈ l -> preserves I (body x)) -> preserves I (for_each l body).
Proof.
  induction l as [|x l IH]; intros Hb; simpl.
  - apply preserves_ret.
  - apply preserves_bind.
    + apply Hb. left.
    + intros _. apply IH. intros y Hy. apply Hb. right. exact Hy.
Qed.

Lemma exec_try_except {A} (m : M St A) (h : exn -> M St A) s :
  I (exec m s) -> (forall e, preserves I (h e)) -> I (exec (try_except m h) s).
Proof.
  intros Hm Hh. unfold exec, try_except in *.
  destruct (m s) as [[a|e] s']; simpl in *; [exact Hm | apply Hh, Hm].
Qed.

(** What follows a [gets] runs on the snapshot it took. *)
Lemma exec_gets_bind {A B} (f : St -> A) (k : A -> M St B) s :
  exec (bind (gets f) k) s = exec (k (f s)) s.
Proof. reflexivity. Qed.

End Preserves.

Section Primitives.

Variable env : Env.
Variable I : world -> Prop.

Lemma preserves_utcnow `{!TickInsensitive I} : preserves I (utcnow env).
Proof. intros w Hw. apply tick_insensitive, Hw. Qed.

Lemma preserves_logger_info `{!LogInsensitive I} text : preserves I (logger_info text).
Proof. apply preserves_modify. intros w. apply log_insensitive. Qed.

Lemma preserves_logger_error `{!LogInsensitive I} text : preserves I (logger_error text).
Proof. apply preserves_modify. intros w. apply log_insensitive. Qed.

Lemma preserves_download_blob container name : preserves I (download_blob env container name).
Proof.
  intros w Hw. unfold exec, download_blob.
  destruct (download_fault env container name); [exact Hw|].
  destruct (filter _ _); exact Hw.
Qed.

(** A write keeps [I] when the refused write and the accepted write do. *)
Lemma preserves_store_write_outcomes c effect :
  (forall w, I w -> I (record_call c false w)) ->
  (forall w, I w -> I (effect (record_call c true w))) ->
  preserves I (store_write env c effect).
Proof.
  intros Hc He w Hw. unfold exec, store_write.
  destruct (write_fault env _); simpl; auto.
Qed.

(** What follows a clock reading runs on one of the readings of [env]. *)
Lemma preserves_utcnow_bind `{!TickInsensitive I} {B} (k : Z -> M world B) :
  (forall n, preserves I (k (utcnow_at env n))) -> preserves I (bind (utcnow env) k).
Proof.
  intros Hk w Hw. unfold exec, bind, utcnow.
  apply (Hk (clock_reads w) (tick_clock w)), tick_insensitive, Hw.
Qed.

(** A write keeps [I] when journalling it does and its effect does. *)
Lemma preserves_store_write c effect :
  (forall ok w, I w -> I (record_call c ok w)) ->
  (forall w, I w -> I (effect w)) ->
  preserves I (store_write env c effect).
Proof.
  intros Hc He w Hw. unfold exec, store_write.
  destruct (write_fault env _); simpl.
  - apply Hc, Hw.
  - apply He, Hc, Hw.
Qed.

End Primitives.

(* ------------------------------------------------------------------ *)
(** ** Containers *)

Section Upsert.

Context {A K : Type} `{EqDecision K} (key : A -> K).

Lemma elem_of_upsert_by x c b : b ∈ upsert_by key x c -> b = x \/ b ∈ c.
Proof.
  induction c as [|y c IH]; cbn [upsert_by].
  - rewrite list_elem_of_singleton. auto.
  - case_bool_decide.
    + rewrite !elem_of_cons. tauto.
    + rewrite !elem_of_cons. intros [->|H']; [auto|]. destruct (IH H'); auto.
Qed.

Lemma upsert_by_keys x c :
  key <$> upsert_by key x c =
  if decide (key x ∈ key <$> c) then key <$> c
  else ((key <$> c) ++ [key x])%list.
Proof.
  induction c as [|y c IH].
  - destruct (decide (key x ∈ key <$> [])) as [Hin|_]; [|reflexivity].
    apply elem_of_nil in Hin. done.
  - cbn [upsert_by]. rewrite !fmap_cons.
    destruct (decide (key x ∈ key y :: (key <$> c))) as [Hin'|Hin'];
      case_bool_decide as Hk.
    + rewrite fmap_cons, Hk. reflexivity.
    + rewrite fmap_cons, IH. rewrite decide_True; [reflexivity|].
      apply elem_of_cons in Hin' as [Heq|?]; [congruence|done].
    + exfalso. apply Hin'. rewrite Hk. left.
    + rewrite fmap_cons, IH. rewrite decide_False; [reflexivity|].
      intros Hin. apply Hin'. right. exact Hin.
Qed.

Lemma upsert_by_NoDup x c :
  NoDup (key <$> c) -> NoDup (key <$> upsert_by key x c).
Proof.
  intros Hc. rewrite upsert_by_keys. case_decide as Hin; [exact Hc|].
  apply NoDup_app. split; [exact Hc|]. split.
  - intros k Hk Hk'. apply list_elem_of_singleton in Hk'. subst. done.
  - apply NoDup_singleton.
Qed.

Lemma upsert_by_key_elem x c : key x ∈ key <$> upsert_by key x c.
Proof.
  rewrite upsert_by_keys. case_decide as Hin; [exact Hin|].
  apply elem_of_app. right. left.
Qed.

Lemma upsert_by_keys_mono x c k : k ∈ key <$> c -> k ∈ key <$> upsert_by key x c.
Proof.
  intros Hk. rewrite upsert_by_keys. case_decide; [exact Hk|].
  apply elem_of_app. left. exact Hk.
Qed.

Lemma head_filter_upsert_by x c k :
  head (filter (fun y => key y = k) (upsert_by key x c)) =
  if decide (key x = k) then Some x
  else head (filter (fun y => key y = k) c).
Proof.
  induction c as [|y c IH].
  - cbn [upsert_by]. rewrite filter_cons, filter_nil.
    destruct (decide (key x = k)); reflexivity.
  - cbn [upsert_by]. case_bool_decide as Hk.
    + rewrite !filter_cons.
      destruct (decide (key x = k)) as [Hx|Hx].
      * reflexivity.
      * rewrite decide_False by congruence. reflexivity.
    + rewrite !filter_cons.
      destruct (decide (key y = k)) as [Hy|Hy].
      * rewrite decide_False by congruence. reflexivity.
      * exact IH.
Qed.

End Upsert.

Lemma elem_of_upsert_doc x c b : b ∈ upsert_doc x c -> b = x \/ b ∈ c.
Proof. apply elem_of_upsert_by. Qed.

Lemma upsert_doc_NoDup x c :
  NoDup (doc_key <$> c) -> NoDup (doc_key <$> upsert_doc x c).
Proof. apply upsert_by_NoDup. Qed.

Lemma head_filter_upsert_doc x c key :
  head (filter (fun y => doc_key y = key) (upsert_doc x c)) =
  if decide (doc_key x = key) then Some x
  else head (filter (fun y => doc_key y = key) c).
Proof. apply head_filter_upsert_by. Qed.

Lemma delete_doc_NoDup k c :
  NoDup (doc_key <$> c) -> NoDup (doc_key <$> delete_doc k c).
Proof.
  intros Hc. eapply sublist_NoDup; [exact Hc|].
  apply fmap_sublist. unfold delete_doc. apply sublist_filter.
Qed.

(* ------------------------------------------------------------------ *)
(** ** What a program can return *)

Section Returns.

Context {St : Type}.

Lemma returns_ret {A} (a : A) (P : A -> Prop) : P a -> returns (@ret St A a) P.
Proof. intros Ha s a' [= <-]. exact Ha. Qed.

Lemma returns_bind {A B} (m : M St A) (k : A -> M St B) (P : B -> Prop) :
  (forall a, returns (k a) P) -> returns (bind m k) P.
Proof.
  intros Hk s b. unfold result, bind. destruct (m s) as [[a|e] s'] eqn:Hm; simpl.
  - apply Hk.
  - discriminate.
Qed.

(** The outcome of an attempted program may be used by what follows. *)
Lemma preserves_attempt_bind {A B} (I : St -> Prop) (m : M St A)
    (k : outcome A -> M St B) (P : A -> Prop) :
  preserves I m -> returns m P ->
  (forall a, P a -> preserves I (k (Ret a))) ->
  (forall e, preserves I (k (Raise e))) ->
  preserves I (bind (attempt m) k).
Proof.
  intros Hm HP Hret Hraise s Hs. specialize (Hm s Hs). specialize (HP s).
  unfold exec, result, bind, attempt in *.
  destruct (m s) as [[a|e] s']; simpl in *.
  - apply Hret; [apply HP; reflexivity | exact Hm].
  - apply Hraise, Hm.
Qed.

End Returns.

(* ------------------------------------------------------------------ *)
(** ** The drainer keeps documents on their life cycle *)

Lemma item_step_refl a : item_step a a.
Proof. left. reflexivity. Qed.

Lemma terminal_not_pending a b : terminal_of a b -> status b <> "pending".
Proof. intros (_ & [Hb|Hb] & _); rewrite Hb; discriminate. Qed.

Lemma item_step_trans a b c : item_step a b -> item_step b c -> item_step a c.
Proof.
  intros [->|Hab] [->|Hbc]; [left; reflexivity | right; exact Hbc | right; exact Hab |].
  exfalso. apply (terminal_not_pending a b Hab). apply Hbc.
Qed.

Lemma container_step_refl c : container_step c c.
Proof. intros b Hb. exists b. auto using item_step_refl. Qed.

Lemma container_step_trans c1 c2 c3 :
  container_step c1 c2 -> container_step c2 c3 -> container_step c1 c3.
Proof.
  intros H12 H23 x Hx. destruct (H23 x Hx) as (b & Hb & Hkb & Hbx).
  destruct (H12 b Hb) as (a & Ha & Hka & Hab).
  exists a. split; [exact Ha|]. split; [congruence|].
  eapply item_step_trans; eassumption.
Qed.

Lemma container_step_sublist c c' : c' ⊆ c -> container_step c c'.
Proof. intros Hsub b Hb. exists b. auto using item_step_refl. Qed.

Lemma evolved_from_refl w : unique_keys w -> evolved_from w w.
Proof. intros Hu. split; [exact Hu|]. split; apply container_step_refl. Qed.

Lemma evolved_from_trans w1 w2 w3 :
  evolved_from w1 w2 -> evolved_from w2 w3 -> evolved_from w1 w3.
Proof.
  intros (_ & Hf & Hm) (Hu & Hf' & Hm'). split; [exact Hu|].
  split; eapply container_step_trans; eassumption.
Qed.

#[global] Instance evolved_from_tick w0 : TickInsensitive (evolved_from w0).
Proof. intros w H. exact H. Qed.
#[global] Instance evolved_from_log w0 : LogInsensitive (evolved_from w0).
Proof. intros e w H. exact H. Qed.
#[global] Instance evolved_from_call w0 : CallInsensitive (evolved_from w0).
Proof. intros c ok w H. exact H. Qed.

Lemma update_completed_terminal it rs t :
  status it = "pending" -> terminal_of it (update_completed it rs t).
Proof. intros Hp. repeat split; [exact Hp | left; reflexivity | eexists; reflexivity]. Qed.

Lemma update_failed_terminal it x e t :
  status it = "pending" -> doc_key x = doc_key it -> terminal_of it (update_failed x e t).
Proof.
  intros Hp Hk. repeat split; [exact Hp | right; reflexivity | eexists; reflexivity |].
  exact Hk.
Qed.

Section Drainer.

Variable env : Env.

Lemma analysis_update_preserves (I : world -> Prop) `{!TickInsensitive I} k it :
  preserves I (analysis_update env k it).
Proof.
  destruct k; cbn [analysis_update]; unfold food_update, medical_update;
    repeat first
      [ apply preserves_ret | apply preserves_lift_outcome | apply preserves_utcnow; assumption
      | apply preserves_download_blob
      | apply preserves_bind; [|intros ?] ].
Qed.

Lemma analysis_update_returns k it :
  returns (analysis_update env k it)
          (fun it' => exists rs t, it' = update_completed it rs t).
Proof.
  destruct k; cbn [analysis_update]; unfold food_update, medical_update;
    repeat (apply returns_bind; intros ?); apply returns_ret; eauto.
Qed.

Lemma upsert_item_evolved k it x w0 :
  it ∈ items_of k w0 -> terminal_of it x ->
  preserves (evolved_from w0) (upsert_item env k x).
Proof.
  intros Hin Hterm. apply preserves_store_write; [intros ok w H; exact H|].
  intros w ((Huf & Hum) & Hf & Hm).
  assert (forall c0 c, it ∈ c0 -> container_step c0 c ->
                       container_step c0 (upsert_doc x c)) as Hstep.
  { intros c0 c Hit Hc b Hb. apply elem_of_upsert_doc in Hb as [->|Hb]; [|auto].
    exists it. split; [exact Hit|]. split; [symmetry; apply Hterm|]. right. exact Hterm. }
  destruct k; simpl in *.
  - split; [split; [apply upsert_doc_NoDup, Huf | exact Hum]|].
    split; [apply Hstep; assumption | exact Hm].
  - split; [split; [exact Huf | apply upsert_doc_NoDup, Hum]|].
    split; [exact Hf | apply Hstep; assumption].
Qed.

Lemma mark_failed_evolved k it x e w0 :
  it ∈ items_of k w0 -> status it = "pending" -> doc_key x = doc_key it ->
  preserves (evolved_from w0) (mark_failed env k x e).
Proof.
  intros Hin Hp Hk. unfold mark_failed.
  apply preserves_bind; [apply preserves_logger_error; apply _|]. intros _.
  apply preserves_bind; [apply preserves_utcnow; apply _|]. intros t.
  eapply upsert_item_evolved; [exact Hin|]. apply update_failed_terminal; assumption.
Qed.

(** Processing a pending document of the initial container. *)
Lemma process_analysis_evolved k it w0 :
  it ∈ items_of k w0 -> status it = "pending" ->
  preserves (evolved_from w0) (process_analysis env k it).
Proof.
  intros Hin Hp.
  assert (preserves (evolved_from w0)
            (r <- attempt (analysis_update env k it) ;;
             match r with
             | Raise e => mark_failed env k it e
             | Ret updated =>
                 try_except
                   (upsert_item env k updated ;;
                    logger_info ("Processed " +:+ kind_name k +:+ " analysis for item "
                                 +:+ doc_id updated))
                   (mark_failed env k updated)
             end)) as H.
  { eapply preserves_attempt_bind.
    - apply analysis_update_preserves. apply _.
    - apply analysis_update_returns.
    - intros x (rs & t & ->). apply preserves_try_except.
      + apply preserves_bind.
        * eapply upsert_item_evolved; [exact Hin|]. apply update_completed_terminal, Hp.
        * intros _. apply preserves_logger_info. apply _.
      + intros e. eapply mark_failed_evolved; [exact Hin | exact Hp | reflexivity].
    - intros e. eapply mark_failed_evolved; [exact Hin | exact Hp | reflexivity]. }
  destruct k; exact H.
Qed.

Lemma query_pending_elem it c :
  it ∈ query_pending c <-> it ∈ c /\ status it = "pending".
Proof.
  unfold query_pending, order_by_timestamp_asc.
  rewrite merge_sort_Permutation, list_elem_of_filter. tauto.
Qed.

Lemma process_pending_analyses_once_evolved w :
  unique_keys w -> evolved_from w (exec (process_pending_analyses_once env) w).
Proof.
  intros Hu. unfold process_pending_analyses_once.
  apply exec_try_except; [|intros e; apply preserves_logger_error; apply _].
  rewrite !exec_gets_bind.
  apply preserves_bind; [| |apply evolved_from_refl, Hu].
  - apply preserves_for_each. intros it Hit. apply query_pending_elem in Hit as [Hin Hp].
    apply (process_analysis_evolved Food); assumption.
  - intros _. apply preserves_for_each. intros it Hit.
    apply query_pending_elem in Hit as [Hin Hp].
    apply (process_analysis_evolved Medical); assumption.
Qed.

End Drainer.

(* ------------------------------------------------------------------ *)
(** ** The other loops never rewrite a document *)

Section OtherLoops.

Variable env : Env.
Variable w0 : world.

Lemma upsert_insight_evolved r : preserves (evolved_from w0) (upsert_insight env r).
Proof. apply preserves_store_write; [intros ok w H; exact H|]. intros w H. exact H. Qed.

Lemma delete_item_evolved k it : preserves (evolved_from w0) (delete_item env k it).
Proof.
  apply preserves_store_write; [intros ok w H; exact H|].
  intros w ((Huf & Hum) & Hf & Hm).
  assert (forall c0 c key, container_step c0 c -> container_step c0 (delete_doc key c)) as Hd.
  { intros c0 c key Hc b Hb. apply Hc. unfold delete_doc in Hb.
    apply list_elem_of_filter in Hb. tauto. }
  destruct k; simpl in *.
  - split; [split; [apply delete_doc_NoDup, Huf | exact Hum]|].
    split; [apply Hd, Hf | exact Hm].
  - split; [split; [exact Huf | apply delete_doc_NoDup, Hum]|].
    split; [exact Hf | apply Hd, Hm].
Qed.

Lemma delete_blob_evolved container name :
  preserves (evolved_from w0) (delete_blob env container name).
Proof.
  apply preserves_store_write; [intros ok w H; exact H|]. intros w H. unfold set_blobs.
  repeat case_bool_decide; exact H.
Qed.

Lemma complete_message_evolved msg : preserves (evolved_from w0) (complete_message env msg).
Proof. apply preserves_store_write; [intros ok w H; exact H|]. intros w H. exact H. Qed.

Lemma abandon_message_evolved msg : preserves (evolved_from w0) (abandon_message env msg).
Proof. apply preserves_store_write; [intros ok w H; exact H|]. intros w H. exact H. Qed.

End OtherLoops.

(** Decomposes a goal [preserves (evolved_from _) program] along the
    structure of the program. *)
Ltac preserves_evolved :=
  repeat first
    [ apply preserves_ret | apply preserves_raise | apply preserves_lift_outcome
    | apply preserves_gets
    | apply preserves_utcnow; apply _
    | apply preserves_logger_info; apply _
    | apply preserves_logger_error; apply _
    | apply preserves_download_blob
    | apply upsert_insight_evolved | apply delete_item_evolved
    | apply delete_blob_evolved | apply complete_message_evolved
    | apply abandon_message_evolved
    | apply preserves_bind; [|intros ?]
    | apply preserves_try_except; [|intros ?]
    | apply preserves_for_each; intros ? _
    | match goal with
      | |- preserves _ (if ?b then _ else _) => destruct b
      | |- preserves _ (match ?x with _ => _ end) => destruct x
      end ].

Section Schedules.

Lemma generate_daily_insights_once_evolved env w0 :
  preserves (evolved_from w0) (generate_daily_insights_once env).
Proof.
  unfold generate_daily_insights_once, daily_insights_run, generate_user_daily_insights.
  preserves_evolved.
Qed.

Lemma health_trend_analysis_once_evolved env w0 :
  preserves (evolved_from w0) (health_trend_analysis_once env).
Proof.
  unfold health_trend_analysis_once, trend_run, analyze_user_health_trends.
  preserves_evolved.
Qed.

Lemma cleanup_old_data_once_evolved env w0 :
  preserves (evolved_from w0) (cleanup_old_data_once env).
Proof.
  unfold cleanup_old_data_once, cleanup_run, cleanup_old_blobs, sweep_container.
  preserves_evolved.
Qed.

Lemma process_service_bus_messages_once_evolved env w0 received :
  preserves (evolved_from w0) (process_service_bus_messages_once env received).
Proof.
  unfold process_service_bus_messages_once, process_message, handle_notification_message,
    process_urgent_health_alert, process_daily_reminder, process_analysis_request.
  preserves_evolved.
Qed.

Lemma iteration_evolved env l w :
  unique_keys w -> evolved_from w (exec (iteration env l) w).
Proof.
  intros Hu. destruct l; cbn [iteration].
  - apply process_pending_analyses_once_evolved, Hu.
  - apply generate_daily_insights_once_evolved, evolved_from_refl, Hu.
  - apply health_trend_analysis_once_evolved, evolved_from_refl, Hu.
  - apply cleanup_old_data_once_evolved, evolved_from_refl, Hu.
  - apply process_service_bus_messages_once_evolved, evolved_from_refl, Hu.
Qed.

Lemma run_evolved schedule w : unique_keys w -> evolved_from w (run schedule w).
Proof.
  revert w. induction schedule as [|[env l] rest IH]; intros w Hu; simpl.
  - apply evolved_from_refl, Hu.
  - pose proof (iteration_evolved env l w Hu) as H1.
    eapply evolved_from_trans; [exact H1|]. apply IH, H1.
Qed.

End Schedules.

(** C3.  Over any schedule of iterations of the loops (drainer, cleanup and
    the others), starting from containers with unique keys: every document
    found in a container afterwards was in it before, under the same key,
    and either is untouched or was pending before and is now completed or
    failed with its [processedAt] set.  A completed or failed document is
    therefore never rewritten, and [processedAt] is written only by the
    terminal transition. *)
Theorem status_only_moves_forward (schedule : list (Env * loop)) (w : world) :
  unique_keys w ->
  let w' := run schedule w in
  unique_keys w' /\
  forall k b, b ∈ items_of k w' ->
    exists a, a ∈ items_of k w /\ doc_key a = doc_key b /\
      (b = a \/
       (status a = "pending" /\ (status b = "completed" \/ status b = "failed") /\
        is_Some (processedAt b))).
Proof.
  intros Hu w'. destruct (run_evolved schedule w Hu) as (Hu' & Hf & Hm).
  split; [exact Hu'|]. intros k b Hb.
  assert (container_step (items_of k w) (items_of k w')) as Hstep by (destruct k; assumption).
  destruct (Hstep b Hb) as (a & Ha & Hk & [->|(Hp & Hs & Hpa & _)]).
  - exists a. auto.
  - exists a. split; [exact Ha|]. split; [exact Hk|]. right. auto.
Qed.

(** C3, at a sample schedule. *)
Lemma status_only_moves_forward_witness :
  unique_keys (run [(sample_env, Drainer); (faulty_write_env 0, DataCleanup)] sample_world).
Proof.
  apply (status_only_moves_forward
           [(sample_env, Drainer); (faulty_write_env 0, DataCleanup)] sample_world).
  apply (bool_decide_unpack _). vm_compute. exact I.
Defined.

(* ------------------------------------------------------------------ *)
(** ** The drainer when the store accepts every write *)

#[global] Instance same_stores_tick w0 : TickInsensitive (same_stores w0).
Proof. intros w H. exact H. Qed.
#[global] Instance same_stores_log w0 : LogInsensitive (same_stores w0).
Proof. intros e w H. exact H. Qed.

Lemma same_stores_refl w : same_stores w w.
Proof. repeat split. Qed.


Section NoFault.

Variable env : Env.

Lemma analysis_update_same_stores k it w :
  same_stores w (exec (analysis_update env k it) w).
Proof. apply analysis_update_preserves; [apply _ | apply same_stores_refl]. Qed.

Lemma analysis_update_key k it w x :
  result (analysis_update env k it) w = Ret x -> doc_key x = doc_key it.
Proof. intros H. apply analysis_update_returns in H as (rs & t & ->). reflexivity. Qed.

Hypothesis Hnf : no_write_fault env.

Lemma store_write_no_fault c effect w :
  store_write env c effect w = (Ret tt, effect (record_call c true w)).
Proof. unfold store_write. rewrite Hnf. reflexivity. Qed.

Lemma process_analysis_no_fault_eq k it w :
  process_analysis env k it w =
  match analysis_update env k it w with
  | (Ret x, w1) =>
      (Ret tt,
       record_log (LogInfo ("Processed " +:+ kind_name k +:+ " analysis for item " +:+ doc_id x))
         (set_items k (upsert_doc x)
            (record_call (UpsertItem (container_of k) (doc_key x)) true w1)))
  | (Raise e, w1) =>
      (Ret tt,
       set_items k (upsert_doc (update_failed it e (utcnow_at env (clock_reads w1))))
         (record_call (UpsertItem (container_of k) (doc_key it)) true
            (tick_clock
               (record_log (LogError ("Error processing " +:+ kind_name k +:+ " analysis "
                                      +:+ doc_id it +:+ ": " +:+ e)) w1))))
  end.
Proof.
  destruct k; cbn [process_analysis analysis_update];
    unfold process_food_analysis, process_medical_analysis, attempt;
    unfold bind at 1.
  - destruct (food_update env it w) as [[x|e] w1];
      unfold try_except, mark_failed, bind, upsert_item, logger_info, logger_error,
        modify, utcnow; rewrite store_write_no_fault; reflexivity.
  - destruct (medical_update env it w) as [[x|e] w1];
      unfold try_except, mark_failed, bind, upsert_item, logger_info, logger_error,
        modify, utcnow; rewrite store_write_no_fault; reflexivity.
Qed.

(** With every write accepted, processing a document never raises, sends
    exactly one upsert, and stores [settled]. *)
Lemma process_analysis_no_fault k it w :
  let w' := exec (process_analysis env k it) w in
  result (process_analysis env k it) w = Ret tt /\
  journal w' = (journal w ++ [upsert_ok (k, it)])%list /\
  items_of k w' = upsert_doc (settled env k it w) (items_of k w) /\
  (forall k', k' <> k -> items_of k' w' = items_of k' w) /\
  recommendations_container w' = recommendations_container w /\
  food_images w' = food_images w /\
  medical_documents w' = medical_documents w.
Proof.
  intros w'. subst w'.
  pose proof (analysis_update_same_stores k it w) as Hs.
  pose proof (analysis_update_key k it w) as Hk.
  unfold settled, upsert_ok, exec, result in *. rewrite process_analysis_no_fault_eq.
  cbn [fst snd].
  destruct (analysis_update env k it w) as [[x|e] w1]; cbn [fst snd] in *;
    destruct Hs as (Hf & Hm & Hr & Hfi & Hmd & Hj); rewrite <- Hj.
  - rewrite (Hk x eq_refl).
    destruct k; cbn; rewrite ?Hf, ?Hm; split_and!; try reflexivity; try assumption;
      intros [] ?; try done; cbn; assumption.
  - destruct k; cbn; rewrite ?Hf, ?Hm; split_and!; try reflexivity; try assumption;
      intros [] ?; try done; cbn; assumption.
Qed.

Lemma exec_bind_ret {St A B} (m : M St A) (k : A -> M St B) s a :
  result m s = Ret a -> exec (bind m k) s = exec (k a) (exec m s).
Proof. unfold result, exec, bind. destruct (m s) as [[a'|e] s']; simpl; congruence. Qed.

Lemma result_bind_ret {St A B} (m : M St A) (k : A -> M St B) s a :
  result m s = Ret a -> result (bind m k) s = result (k a) (exec m s).
Proof. unfold result, exec, bind. destruct (m s) as [[a'|e] s']; simpl; congruence. Qed.

Lemma exec_try_except_ret {St A} (m : M St A) (h : exn -> M St A) s a :
  result m s = Ret a -> exec (try_except m h) s = exec m s.
Proof. unfold result, exec, try_except. destruct (m s) as [[a'|e] s']; simpl; congruence. Qed.

(** A loop over documents of one kind: it completes, journals one accepted
    upsert per document in the order of the list, and leaves the other
    stores alone. *)
Lemma for_each_process_no_fault k l w :
  let w' := exec (for_each l (process_analysis env k)) w in
  result (for_each l (process_analysis env k)) w = Ret tt /\
  journal w' = (journal w ++ (upsert_ok <$> (pair k <$> l)))%list /\
  (forall k', k' <> k -> items_of k' w' = items_of k' w) /\
  recommendations_container w' = recommendations_container w /\
  food_images w' = food_images w /\
  medical_documents w' = medical_documents w.
Proof.
  revert w. induction l as [|it l IH]; intros w; cbn zeta.
  - cbn. rewrite app_nil_r. split_and!; done.
  - destruct (process_analysis_no_fault k it w) as (Hr & Hj & _ & Ho & Hrec & Hfi & Hmd).
    destruct (IH (exec (process_analysis env k it) w)) as (Hr' & Hj' & Ho' & Hrec' & Hfi' & Hmd').
    cbn [for_each]. rewrite (result_bind_ret _ _ _ _ Hr), (exec_bind_ret _ _ _ _ Hr).
    split_and!; [exact Hr' | | | congruence | congruence | congruence].
    + rewrite Hj', Hj, !fmap_cons, <- app_assoc. reflexivity.
    + intros k' Hk'. rewrite (Ho' k' Hk'). apply Ho, Hk'.
Qed.

(** An iteration of the drainer journals the accepted upserts of
    [drain_order], in that order. *)
Lemma process_pending_analyses_once_journal w :
  journal (exec (process_pending_analyses_once env) w) =
  (journal w ++ (upsert_ok <$> drain_order w))%list.
Proof.
  unfold process_pending_analyses_once, drain_order.
  set (pf := query_pending (food_container w)).
  set (pm := query_pending (medical_container w)).
  destruct (for_each_process_no_fault Food pf w) as (Hr & Hj & _).
  destruct (for_each_process_no_fault Medical pm
              (exec (for_each pf (process_analysis env Food)) w)) as (Hr' & Hj' & _).
  assert (result (pending_food <- gets (fun w => query_pending (food_container w)) ;;
                  pending_medical <- gets (fun w => query_pending (medical_container w)) ;;
                  for_each pending_food (process_food_analysis env) ;;
                  for_each pending_medical (process_medical_analysis env)) w = Ret tt
          /\ journal (exec (pending_food <- gets (fun w => query_pending (food_container w)) ;;
                  pending_medical <- gets (fun w => query_pending (medical_container w)) ;;
                  for_each pending_food (process_food_analysis env) ;;
                  for_each pending_medical (process_medical_analysis env)) w)
             = (journal w ++ (upsert_ok <$> ((pair Food <$> pf) ++ (pair Medical <$> pm))))%list)
    as [Hres Hjournal].
  { change (result (for_each pf (process_analysis env Food) ;;
                    for_each pm (process_analysis env Medical)) w = Ret tt /\
            journal (exec (for_each pf (process_analysis env Food) ;;
                           for_each pm (process_analysis env Medical)) w) =
            (journal w ++ (upsert_ok <$> ((pair Food <$> pf) ++ (pair Medical <$> pm))))%list).
    rewrite (result_bind_ret _ _ _ _ Hr), (exec_bind_ret _ _ _ _ Hr).
    split; [exact Hr'|]. rewrite Hj', Hj, fmap_app, <- app_assoc. reflexivity. }
  rewrite (exec_try_except_ret _ _ _ _ Hres). exact Hjournal.
Qed.

End NoFault.

#[global] Instance by_timestamp_total : Total by_timestamp.
Proof. intros a b. unfold by_timestamp. lia. Qed.

Lemma query_pending_sorted c : Sorted by_timestamp (query_pending c).
Proof. unfold query_pending, order_by_timestamp_asc. apply Sorted_merge_sort. apply _. Qed.

Lemma drain_order_elem k it w :
  (k, it) ∈ drain_order w <-> it ∈ items_of k w /\ status it = "pending".
Proof.
  unfold drain_order. rewrite elem_of_app, !list_elem_of_fmap.
  split.
  - intros [(x & [= -> ->] & Hx)|(x & [= -> ->] & Hx)];
      apply query_pending_elem in Hx; exact Hx.
  - intros H. apply query_pending_elem in H. destruct k; [left|right]; eauto.
Qed.

(** C2 (as amended).  An iteration of the drainer takes the pending food
    documents first, oldest first, and then the pending medical documents,
    oldest first: the two kinds are not merged by timestamp.  With every
    write accepted, the journal shows one upsert per pending document in
    that order. *)
Theorem drain_food_then_medical (env : Env) (w : world) :
  no_write_fault env ->
  journal (exec (process_pending_analyses_once env) w) =
    (journal w ++ (upsert_ok <$> drain_order w))%list /\
  drain_order w =
    ((pair Food <$> query_pending (food_container w))
     ++ (pair Medical <$> query_pending (medical_container w)))%list /\
  Sorted by_timestamp (query_pending (food_container w)) /\
  Sorted by_timestamp (query_pending (medical_container w)) /\
  (forall k it, (k, it) ∈ drain_order w <-> it ∈ items_of k w /\ status it = "pending").
Proof.
  intros Hnf. split_and!.
  - apply process_pending_analyses_once_journal, Hnf.
  - reflexivity.
  - apply query_pending_sorted.
  - apply query_pending_sorted.
  - intros k it. apply drain_order_elem.
Qed.

Lemma drain_food_then_medical_witness :
  journal (exec (process_pending_analyses_once sample_env) sample_world) =
  (journal sample_world ++ (upsert_ok <$> drain_order sample_world))%list.
Proof.
  apply (drain_food_then_medical sample_env sample_world). intros n. reflexivity.
Defined.

(** C2 as stated fails: the drainer handles the two pending food documents
    (created 2 h and 1 h ago) before the pending medical document created
    3 h ago, so the documents are not taken in order of timestamp. *)
Lemma drain_not_oldest_first :
  journal (exec (process_pending_analyses_once sample_env) sample_world) =
    upsert_ok <$> [(Food, food_pending_no_blob); (Food, food_pending);
                   (Medical, medical_pending)] /\
  timestamp medical_pending < timestamp food_pending_no_blob /\
  ~ Sorted Z.le ((fun ki => timestamp ki.2) <$> drain_order sample_world).
Proof.
  split_and!.
  - vm_compute. reflexivity.
  - vm_compute. reflexivity.
  - apply (bool_decide_eq_false_1 _). vm_compute. reflexivity.
Qed.

(* ------------------------------------------------------------------ *)
(** ** A failed document is not taken up again *)

Lemma head_filter_Some {A} (P : A -> Prop) `{!forall x, Decision (P x)} l x :
  head (filter P l) = Some x -> x ∈ l /\ P x.
Proof.
  intros Hh. apply head_Some_elem_of in Hh. apply list_elem_of_filter in Hh. tauto.
Qed.

Lemma head_filter_None {A} (P : A -> Prop) `{!forall x, Decision (P x)} l :
  (forall x, x ∈ l -> ~ P x) -> head (filter P l) = None.
Proof.
  intros Hall. destruct (filter P l) as [|x l'] eqn:Hf; [reflexivity|].
  assert (x ∈ filter P l) as Hx by (rewrite Hf; left).
  apply list_elem_of_filter in Hx as [HP Hx]. destruct (Hall x Hx HP).
Qed.

Lemma unique_key_elem (c : list item) x y :
  NoDup (doc_key <$> c) -> x ∈ c -> y ∈ c -> doc_key x = doc_key y -> x = y.
Proof.
  induction c as [|z c IH]; intros Hnd Hx Hy Hk.
  - apply elem_of_nil in Hx. done.
  - rewrite fmap_cons in Hnd. apply NoDup_cons in Hnd as [Hz Hnd].
    apply elem_of_cons in Hx as [->|Hx]; apply elem_of_cons in Hy as [->|Hy].
    + reflexivity.
    + exfalso. apply Hz. rewrite Hk. apply list_elem_of_fmap. eauto.
    + exfalso. apply Hz. rewrite <- Hk. apply list_elem_of_fmap. eauto.
    + apply IH; assumption.
Qed.

Lemma same_blobs_refl w : same_blobs w w.
Proof. split; reflexivity. Qed.

Lemma same_blobs_trans w1 w2 w3 : same_blobs w1 w2 -> same_blobs w2 w3 -> same_blobs w1 w3.
Proof. intros [H1 H2] [H3 H4]. split; congruence. Qed.

Lemma query_pending_NoDup c :
  NoDup (doc_key <$> c) -> NoDup (doc_key <$> query_pending c).
Proof.
  intros Hc. unfold query_pending, order_by_timestamp_asc.
  rewrite merge_sort_Permutation.
  eapply sublist_NoDup; [exact Hc|]. apply fmap_sublist, sublist_filter.
Qed.

Section FirstDrain.

Variable env : Env.
Hypothesis Hnf : no_write_fault env.

Lemma settled_key k it w : doc_key (settled env k it w) = doc_key it.
Proof.
  unfold settled. pose proof (analysis_update_key env k it w) as Hk. unfold result in Hk.
  destruct (analysis_update env k it w) as [[x|e] w1]; [apply Hk; reflexivity | reflexivity].
Qed.

Lemma settled_fails k it e w w0 :
  analysis_fails env k it e w -> same_blobs w w0 ->
  exists t, settled env k it w0 = update_failed it e t.
Proof.
  intros Hf Hb. specialize (Hf w0 Hb). unfold settled, result in *.
  destruct (analysis_update env k it w0) as [[x|e'] w1]; simpl in Hf; [discriminate|].
  injection Hf as ->. eauto.
Qed.

(** After a loop over documents with pairwise different keys, a key the
    loop did not handle is stored as before, and a key it handled holds what
    processing that document settled on. *)
Lemma for_each_process_stored k l w key :
  NoDup (doc_key <$> l) ->
  let w' := exec (for_each l (process_analysis env k)) w in
  (key ∉ doc_key <$> l -> stored k key w' = stored k key w) /\
  (forall it, it ∈ l -> doc_key it = key ->
     exists w0, same_blobs w w0 /\ stored k key w' = Some (settled env k it w0)).
Proof.
  revert w. induction l as [|x l IH]; intros w Hnd; cbn zeta.
  - split; [reflexivity|]. intros it Hit. apply elem_of_nil in Hit. done.
  - rewrite fmap_cons in Hnd. apply NoDup_cons in Hnd as [Hx Hnd].
    destruct (process_analysis_no_fault env Hnf k x w) as (Hr & _ & Hi & _ & _ & Hfi & Hmd).
    set (wa := exec (process_analysis env k x) w) in *.
    destruct (IH wa Hnd) as [IH1 IH2].
    cbn [for_each]. rewrite (exec_bind_ret _ _ _ _ Hr). fold wa.
    assert (forall key', stored k key' wa =
              if decide (doc_key x = key') then Some (settled env k x w)
              else stored k key' w) as Hwa.
    { intros key'. unfold stored. rewrite Hi, head_filter_upsert_doc, settled_key.
      reflexivity. }
    split.
    + intros Hnot. rewrite fmap_cons, not_elem_of_cons in Hnot. destruct Hnot as [Hne Hnot].
      rewrite (IH1 Hnot), Hwa. rewrite decide_False by congruence. reflexivity.
    + intros it Hit Hk. apply elem_of_cons in Hit as [->|Hit].
      * exists w. split; [apply same_blobs_refl|].
        rewrite IH1 by (rewrite <- Hk; exact Hx).
        rewrite Hwa, decide_True by exact Hk. reflexivity.
      * destruct (IH2 it Hit Hk) as (w0 & Hb & Hs). exists w0. split; [|exact Hs].
        eapply same_blobs_trans; [|exact Hb]. split; assumption.
Qed.

(** With every write accepted, an iteration of the drainer is its two
    loops, run to the end. *)
Lemma process_pending_analyses_once_no_fault w :
  exec (process_pending_analyses_once env) w =
  exec (for_each (query_pending (medical_container w)) (process_analysis env Medical))
       (exec (for_each (query_pending (food_container w)) (process_analysis env Food)) w).
Proof.
  set (pf := query_pending (food_container w)).
  set (pm := query_pending (medical_container w)).
  destruct (for_each_process_no_fault env Hnf Food pf w) as (Hr & _).
  destruct (for_each_process_no_fault env Hnf Medical pm
              (exec (for_each pf (process_analysis env Food)) w)) as (Hr' & _).
  unfold process_pending_analyses_once.
  assert (forall h, exec (try_except
                     (for_each pf (process_analysis env Food) ;;
                      for_each pm (process_analysis env Medical)) h) w =
                    exec (for_each pm (process_analysis env Medical))
                         (exec (for_each pf (process_analysis env Food)) w)) as H.
  { intros h. rewrite (exec_try_except_ret _ _ _ tt).
    - rewrite (exec_bind_ret _ _ _ _ Hr). reflexivity.
    - rewrite (result_bind_ret _ _ _ _ Hr). exact Hr'. }
  apply H.
Qed.

Lemma first_drain_stored k it e w :
  unique_keys w -> it ∈ items_of k w -> status it = "pending" ->
  analysis_fails env k it e w ->
  exists t, stored k (doc_key it) (exec (process_pending_analyses_once env) w)
            = Some (update_failed it e t).
Proof.
  intros [Huf Hum] Hin Hp Hfail. rewrite process_pending_analyses_once_no_fault.
  set (pf := query_pending (food_container w)).
  set (pm := query_pending (medical_container w)).
  set (wf := exec (for_each pf (process_analysis env Food)) w).
  destruct (for_each_process_no_fault env Hnf Food pf w) as (_ & _ & Hof & _ & Hfi & Hmd).
  destruct (for_each_process_no_fault env Hnf Medical pm wf) as (_ & _ & Hom & _).
  fold wf in Hof, Hfi, Hmd.
  destruct k; cbn [items_of] in Hin.
  - assert (it ∈ pf) as Hit by (apply query_pending_elem; auto).
    destruct (for_each_process_stored Food pf w (doc_key it)
                (query_pending_NoDup _ Huf)) as [_ H2].
    destruct (H2 it Hit eq_refl) as (w0 & Hb & Hs). fold wf in Hs.
    destruct (settled_fails Food it e w w0 Hfail Hb) as (t & Ht).
    exists t. unfold stored in *. rewrite (Hom Food) by done. rewrite Hs, Ht. reflexivity.
  - assert (it ∈ pm) as Hit by (apply query_pending_elem; auto).
    destruct (for_each_process_stored Medical pm wf (doc_key it)
                (query_pending_NoDup _ Hum)) as [_ H2].
    destruct (H2 it Hit eq_refl) as (w0 & Hb & Hs).
    assert (same_blobs w w0) as Hb'.
    { eapply same_blobs_trans; [|exact Hb]. split; assumption. }
    destruct (settled_fails Medical it e w w0 Hfail Hb') as (t & Ht).
    exists t. rewrite Hs, Ht. reflexivity.
Qed.

End FirstDrain.

Lemma upserts_of_app k key j1 j2 :
  upserts_of k key (j1 ++ j2) = (upserts_of k key j1 + upserts_of k key j2)%nat.
Proof. unfold upserts_of. rewrite filter_app, length_app. reflexivity. Qed.

Lemma upserts_of_kind k k' key l :
  upserts_of k key (upsert_ok <$> (pair k' <$> l)) =
  if decide (k' = k) then length (filter (fun x => doc_key x = key) l) else 0%nat.
Proof.
  unfold upserts_of. induction l as [|x l IH].
  - destruct (decide (k' = k)); reflexivity.
  - rewrite !fmap_cons, filter_cons. unfold upsert_ok at 1. cbn [fst snd].
    destruct (decide (UpsertItem (container_of k') (doc_key x)
                      = UpsertItem (container_of k) key)) as [Heq|Hne].
    + injection Heq as Hc Hx. assert (k' = k) as -> by (destruct k, k'; done).
      cbn [length]. rewrite IH, !decide_True by reflexivity.
      rewrite filter_cons, decide_True by exact Hx. reflexivity.
    + rewrite IH. destruct (decide (k' = k)) as [->|Hk]; [|reflexivity].
      rewrite filter_cons, decide_False; [reflexivity|]. congruence.
Qed.

Lemma filter_none {A} (P : A -> Prop) `{!forall x, Decision (P x)} l :
  (forall x, x ∈ l -> ~ P x) -> filter P l = [].
Proof.
  induction l as [|x l IH]; intros Hall; [reflexivity|].
  rewrite filter_cons, decide_False by (apply Hall; left).
  apply IH. intros y Hy. apply Hall. right. exact Hy.
Qed.

Lemma count_unique_key (l : list item) it :
  NoDup (doc_key <$> l) -> it ∈ l ->
  length (filter (fun x => doc_key x = doc_key it) l) = 1%nat.
Proof.
  induction l as [|x l IH]; intros Hnd Hin.
  - apply elem_of_nil in Hin. done.
  - rewrite fmap_cons in Hnd. apply NoDup_cons in Hnd as [Hx Hnd]. rewrite filter_cons.
    apply elem_of_cons in Hin as [->|Hin].
    + rewrite decide_True by reflexivity. rewrite filter_none; [reflexivity|].
      intros y Hy Hk. apply Hx. rewrite <- Hk. apply list_elem_of_fmap. eauto.
    + rewrite decide_False; [apply IH; assumption|].
      intros Hk. apply Hx. rewrite Hk. apply list_elem_of_fmap. eauto.
Qed.

Lemma first_drain_upserts env k it w :
  no_write_fault env -> unique_keys w -> it ∈ items_of k w -> status it = "pending" ->
  upserts_of k (doc_key it) (journal (exec (process_pending_analyses_once env) w)) =
  S (upserts_of k (doc_key it) (journal w)).
Proof.
  intros Hnf [Huf Hum] Hin Hp.
  rewrite (process_pending_analyses_once_journal env Hnf), upserts_of_app.
  unfold drain_order. rewrite fmap_app, upserts_of_app, !upserts_of_kind.
  destruct k; cbn [items_of] in Hin.
  - rewrite decide_True by reflexivity. rewrite decide_False by done.
    rewrite count_unique_key; [lia | apply query_pending_NoDup, Huf |].
    apply query_pending_elem. auto.
  - rewrite decide_False by done. rewrite decide_True by reflexivity.
    rewrite count_unique_key; [lia | apply query_pending_NoDup, Hum |].
    apply query_pending_elem. auto.
Qed.

(* The next iteration, whatever the services do. *)

Section NextDrain.

Variable env : Env.
Variable k : kind.
Variable key : string * string.
Variable doc : item.
Variable n : nat.

Abbreviation settled_here := (settled_at k key doc n).

#[local] Instance settled_at_tick : TickInsensitive settled_here.
Proof. intros w H. exact H. Qed.
#[local] Instance settled_at_log : LogInsensitive settled_here.
Proof. intros e w H. exact H. Qed.

Lemma upsert_item_elsewhere k' x :
  k' <> k \/ doc_key x <> key -> preserves settled_here (upsert_item env k' x).
Proof.
  intros Hne. apply preserves_store_write.
  - intros ok w [Hs Hu]. split; [exact Hs|]. unfold upserts_of in *. cbn [journal record_call].
    rewrite filter_app, length_app, filter_cons, filter_nil. rewrite decide_False; [cbn; lia|].
    cbn [fst]. intros [= Hc Hk]. destruct Hne as [Hne|Hne]; [|done].
    apply Hne. destruct k, k'; done.
  - intros w [Hs Hu]. split; [|destruct k'; exact Hu].
    unfold stored in *. destruct k, k'; cbn [items_of set_items set_food set_medical
      food_container medical_container] in *; try exact Hs;
      rewrite head_filter_upsert_doc, decide_False; try exact Hs;
      destruct Hne as [Hne|Hne]; done.
Qed.

Lemma process_analysis_elsewhere k' it :
  k' <> k \/ doc_key it <> key -> preserves settled_here (process_analysis env k' it).
Proof.
  intros Hne.
  assert (forall x e, doc_key x = doc_key it -> preserves settled_here (mark_failed env k' x e))
    as Hmark.
  { intros x e Hx. unfold mark_failed.
    apply preserves_bind; [apply preserves_logger_error; apply _|]. intros _.
    apply preserves_bind; [apply preserves_utcnow; apply _|]. intros t.
    apply upsert_item_elsewhere. cbn. rewrite <- Hx in Hne. exact Hne. }
  assert (preserves settled_here
            (r <- attempt (analysis_update env k' it) ;;
             match r with
             | Raise e => mark_failed env k' it e
             | Ret updated =>
                 try_except
                   (upsert_item env k' updated ;;
                    logger_info ("Processed " +:+ kind_name k' +:+ " analysis for item "
                                 +:+ doc_id updated))
                   (mark_failed env k' updated)
             end)) as H.
  { eapply preserves_attempt_bind.
    - apply analysis_update_preserves. apply _.
    - apply analysis_update_returns.
    - intros x (rs & t & ->). apply preserves_try_except.
      + apply preserves_bind; [apply upsert_item_elsewhere; exact Hne|].
        intros _. apply preserves_logger_info. apply _.
      + intros e. apply Hmark. reflexivity.
    - intros e. apply Hmark. reflexivity. }
  destruct k'; exact H.
Qed.

Lemma next_drain_settled w :
  unique_keys w -> status doc <> "pending" -> settled_here w ->
  settled_here (exec (process_pending_analyses_once env) w).
Proof.
  intros [Huf Hum] Hdoc Hw. unfold process_pending_analyses_once.
  apply exec_try_except; [|intros e; apply preserves_logger_error; apply _].
  rewrite !exec_gets_bind.
  assert (forall k' it, it ∈ query_pending (items_of k' w) ->
                        k' <> k \/ doc_key it <> key) as Hother.
  { intros k' it Hit. apply query_pending_elem in Hit as [Hin Hp].
    destruct (decide (k' = k)) as [->|Hk]; [right|left; exact Hk].
    intros Hkey. destruct Hw as [Hs _]. unfold stored in Hs.
    apply head_filter_Some in Hs as [Hd Hdk].
    assert (it = doc) as ->.
    { eapply unique_key_elem; [|exact Hin|exact Hd|congruence].
      destruct k; assumption. }
    done. }
  apply preserves_bind; [| |exact Hw].
  - apply preserves_for_each. intros it Hit.
    apply (process_analysis_elsewhere Food), (Hother Food), Hit.
  - intros _. apply preserves_for_each. intros it Hit.
    apply (process_analysis_elsewhere Medical), (Hother Medical), Hit.
Qed.

End NextDrain.




(* ------------------------------------------------------------------ *)
(** ** Re-running the daily insights of a user *)

Section KeyCount.

Context {A K : Type} `{EqDecision K} (key : A -> K).

Lemma count_key_le (c : list A) k :
  NoDup (key <$> c) -> (length (filter (fun r => key r = k) c) <= 1)%nat.
Proof.
  induction c as [|x c IH]; intros Hnd; [cbn; lia|].
  rewrite fmap_cons in Hnd. apply NoDup_cons in Hnd as [Hx Hnd]. rewrite filter_cons.
  destruct (decide (key x = k)) as [<-|Hk]; [|apply IH, Hnd].
  rewrite filter_none; [cbn; lia|].
  intros y Hy Hky. apply Hx. rewrite <- Hky. apply list_elem_of_fmap. eauto.
Qed.

Lemma count_key_eq (c : list A) k :
  NoDup (key <$> c) -> k ∈ key <$> c ->
  length (filter (fun r => key r = k) c) = 1%nat.
Proof.
  intros Hnd Hk. pose proof (count_key_le c k Hnd) as Hle.
  apply list_elem_of_fmap in Hk as (x & -> & Hx).
  assert (x ∈ filter (fun r => key r = key x) c) as Hin
    by (apply list_elem_of_filter; auto).
  destruct (filter _ c); [apply elem_of_nil in Hin; done | cbn in *; lia].
Qed.

End KeyCount.

Section DailyRecord.

Variable n0 : nat.
Variable user : string.
Variable d : Z.
Variable had : Prop.

Abbreviation inv := (one_record_inv n0 (daily_key user d) had).

#[local] Instance one_record_inv_tick : TickInsensitive inv.
Proof. intros w H. exact H. Qed.
#[local] Instance one_record_inv_log : LogInsensitive inv.
Proof. intros e w H. exact H. Qed.

Lemma upsert_insight_inv env r :
  rec_key r = daily_key user d -> preserves inv (upsert_insight env r).
Proof.
  intros Hr. unfold upsert_insight. rewrite Hr.
  apply preserves_store_write_outcomes; intros w (Hn & Hnd & Hsent & Hkey);
    unfold one_record_inv, sent_since in *;
    cbn [journal recommendations_container record_call set_recommendations];
    rewrite length_app, drop_app_le by exact Hn; cbn [length].
  - split_and!; [lia | exact Hnd | |].
    + intros c Hc. apply elem_of_app in Hc as [Hc|Hc]; [auto|].
      apply list_elem_of_singleton in Hc. subst c. reflexivity.
    + intros [Hacc|Hhad]; [|auto]. apply Hkey. left.
      apply elem_of_app in Hacc as [Hacc|Hacc]; [exact Hacc|].
      apply list_elem_of_singleton in Hacc. discriminate.
  - split_and!; [lia | apply upsert_by_NoDup, Hnd | |].
    + intros c Hc. apply elem_of_app in Hc as [Hc|Hc]; [auto|].
      apply list_elem_of_singleton in Hc. subst c. reflexivity.
    + intros _. rewrite <- Hr. apply upsert_by_key_elem.
Qed.

Lemma generate_user_daily_insights_inv env :
  (forall n, Clock.date_of (utcnow_at env n) = d) ->
  preserves inv (generate_user_daily_insights env user).
Proof.
  intros Hd. unfold generate_user_daily_insights.
  repeat first
    [ apply preserves_ret | apply preserves_lift_outcome | apply preserves_gets
    | apply preserves_logger_info; apply _
    | apply preserves_logger_error; apply _
    | apply preserves_utcnow_bind; [apply _ | intros ?]
    | apply preserves_bind; [|intros ?]
    | apply preserves_try_except; [|intros ?]
    | match goal with
      | |- preserves _ (match ?x with _ => _ end) => destruct x
      end ].
  all: apply upsert_insight_inv; unfold rec_key, daily_key, daily_insight_id,
         Clock.date_isoformat; cbn [rec_userId rec_id]; rewrite Hd; reflexivity.
Qed.

Lemma rerun_inv envs w :
  (forall env n, env ∈ envs -> Clock.date_of (utcnow_at env n) = d) ->
  inv w -> inv (rerun (fun env => generate_user_daily_insights env user) envs w).
Proof.
  revert w. induction envs as [|env rest IH]; intros w Hd Hw; cbn [rerun]; [exact Hw|].
  apply IH.
  - intros env' n Hin. apply Hd. right. exact Hin.
  - apply generate_user_daily_insights_inv; [|exact Hw].
    intros n. apply Hd. left.
Qed.

End DailyRecord.



(* ------------------------------------------------------------------ *)
(** ** Retention cleanup *)

Lemma filter_iff_elem {A} (P Q : A -> Prop) `{!forall x, Decision (P x)}
    `{!forall x, Decision (Q x)} (l : list A) :
  (forall x, x ∈ l -> P x <-> Q x) -> filter P l = filter Q l.
Proof.
  induction l as [|x l IH]; intros Hpq; [reflexivity|].
  rewrite !filter_cons, IH by (intros y Hy; apply Hpq; right; exact Hy).
  specialize (Hpq x (list_elem_of_here _ _)).
  destruct (decide (P x)), (decide (Q x)); try reflexivity; exfalso; tauto.
Qed.

(** Deleting by key the documents a predicate selects from a container with
    unique keys leaves the documents the predicate rejects. *)
Lemma delete_selected (P : item -> Prop) `{!forall x, Decision (P x)} (c : list item) :
  NoDup (doc_key <$> c) ->
  filter (fun x => doc_key x ∉ doc_key <$> filter P c) c = filter (fun x => ~ P x) c.
Proof.
  intros Hnd. apply filter_iff_elem. intros x Hx. split.
  - intros Hnot HP. apply Hnot, list_elem_of_fmap. exists x. split; [reflexivity|].
    apply list_elem_of_filter. auto.
  - intros HnP Hin. apply list_elem_of_fmap in Hin as (y & Hk & Hy).
    apply list_elem_of_filter in Hy as [HPy Hy].
    assert (x = y) as -> by (eapply unique_key_elem; eassumption). done.
Qed.

Section Cleanup.

Variable env : Env.
Hypothesis Hnf : no_write_fault env.

(** With every delete accepted, a loop of deletions completes and removes
    from the container the documents with the keys of the list; the other
    stores are as before. *)
Lemma for_each_delete_no_fault k l w :
  let w' := exec (for_each l (delete_item env k)) w in
  result (for_each l (delete_item env k)) w = Ret tt /\
  items_of k w' = filter (fun x => doc_key x ∉ doc_key <$> l) (items_of k w) /\
  (forall k', k' <> k -> items_of k' w' = items_of k' w).
Proof.
  revert w. induction l as [|it l IH]; intros w; cbn zeta.
  - cbn [for_each]. split_and!; [reflexivity | | done].
    change (exec (ret tt) w) with w. rewrite fmap_nil.
    induction (items_of k w) as [|x c IHc]; [reflexivity|].
    rewrite filter_cons, decide_True by apply not_elem_of_nil. f_equal. exact IHc.
  - assert (delete_item env k it w =
            (Ret tt, set_items k (delete_doc (doc_key it))
                       (record_call (DeleteItem (container_of k) (doc_key it)) true w))) as Hd.
    { unfold delete_item. apply store_write_no_fault, Hnf. }
    set (wa := set_items k (delete_doc (doc_key it))
                 (record_call (DeleteItem (container_of k) (doc_key it)) true w)) in *.
    assert (result (delete_item env k it) w = Ret tt) as Hr by (unfold result; rewrite Hd; done).
    assert (exec (delete_item env k it) w = wa) as He by (unfold exec; rewrite Hd; done).
    destruct (IH wa) as (Hr' & Hi' & Ho').
    cbn [for_each]. rewrite (result_bind_ret _ _ _ _ Hr), (exec_bind_ret _ _ _ _ Hr), He.
    split_and!; [exact Hr' | |].
    + rewrite Hi'. assert (items_of k wa = delete_doc (doc_key it) (items_of k w)) as ->
        by (destruct k; reflexivity).
      unfold delete_doc. rewrite list_filter_filter. apply list_filter_iff.
      intros x. rewrite fmap_cons, not_elem_of_cons. tauto.
    + intros k' Hk'. rewrite (Ho' k' Hk'). destruct k, k'; done.
Qed.

(** The blob sweep leaves the documents alone, whatever happens in it. *)
Lemma cleanup_tail_items F Mc cutoff text :
  preserves (fun x => food_container x = F /\ medical_container x = Mc)
            (cleanup_old_blobs env cutoff ;; logger_info text).
Proof.
  unfold cleanup_old_blobs, sweep_container, delete_blob.
  repeat first
    [ apply preserves_ret | apply preserves_gets
    | apply preserves_modify; intros ? ?; assumption
    | apply preserves_store_write;
      [ intros ? ? ?; assumption
      | intros ? ?; unfold set_blobs; repeat case_bool_decide; assumption ]
    | apply preserves_bind; [|intros ?]
    | apply preserves_try_except; [|intros ?]
    | apply preserves_for_each; intros ? _ ].
Qed.

Lemma cleanup_run_items now w :
  unique_keys w ->
  let w' := exec (cleanup_run env now) w in
  food_container w' =
    filter (fun it => ~ timestamp it < now - Clock.days 730) (food_container w) /\
  medical_container w' =
    filter (fun it => ~ (timestamp it < now - Clock.days 1095 /\ doc_type it <> "critical"))
           (medical_container w).
Proof.
  intros [Huf Hum]. cbn zeta. unfold cleanup_run.
  rewrite (exec_bind_ret _ _ _ tt) by reflexivity.
  set (w0 := exec (logger_info "Starting monthly data cleanup") w).
  rewrite exec_gets_bind.
  set (old_food := query_older_than (now - Clock.days 730) (food_container w0)).
  destruct (for_each_delete_no_fault Food old_food w0) as (Hr & Hi & Ho).
  rewrite (exec_bind_ret _ _ _ tt Hr).
  set (w1 := exec (for_each old_food (delete_item env Food)) w0) in *.
  rewrite exec_gets_bind.
  set (old_medical := query_older_not_critical (now - Clock.days 1095) (medical_container w1)).
  destruct (for_each_delete_no_fault Medical old_medical w1) as (Hr' & Hi' & Ho').
  rewrite (exec_bind_ret _ _ _ tt Hr').
  set (w2 := exec (for_each old_medical (delete_item env Medical)) w1) in *.
  assert (items_of Medical w1 = medical_container w) as Hm1 by (apply (Ho Medical); done).
  assert (food_container w2 =
            filter (fun it => ~ timestamp it < now - Clock.days 730) (food_container w)) as Hf2.
  { change (food_container w2) with (items_of Food w2). rewrite (Ho' Food) by done.
    rewrite Hi. apply (delete_selected _ _ Huf). }
  assert (medical_container w2 =
            filter (fun it => ~ (timestamp it < now - Clock.days 1095
                                 /\ doc_type it <> "critical")) (medical_container w)) as Hm2.
  { change (medical_container w2) with (items_of Medical w2). rewrite Hi'.
    subst old_medical. change (medical_container w1) with (items_of Medical w1).
    rewrite Hm1. apply (delete_selected _ _ Hum). }
  rewrite <- Hf2, <- Hm2. apply cleanup_tail_items. auto.
Qed.

End Cleanup.

(** C6.  With unique keys and every delete accepted, a cleanup run at
    [now] leaves in [FoodHistory] exactly the documents whose timestamp is
    not before [now - 730 days], and in [MedicalRecords] exactly those whose
    timestamp is not before [now - 1095 days] or whose type is [critical]:
    older food documents are deleted, older medical documents are deleted
    unless critical, and a critical document stays whatever its age. *)
Theorem cleanup_retention (env : Env) (now : Z) (w : world) :
  unique_keys w -> no_write_fault env ->
  let w' := exec (cleanup_run env now) w in
  (forall it, it ∈ food_container w' <->
              it ∈ food_container w /\ now - Clock.days 730 <= timestamp it) /\
  (forall it, it ∈ medical_container w' <->
              it ∈ medical_container w /\
              (now - Clock.days 1095 <= timestamp it \/ doc_type it = "critical")).
Proof.
  intros Hu Hnf w'. destruct (cleanup_run_items env Hnf now w Hu) as [Hf Hm].
  fold w' in Hf, Hm. rewrite Hf, Hm. split; intros it; rewrite list_elem_of_filter.
  - split; intros [H1 H2]; split; try assumption; lia.
  - split.
    + intros [H1 H2]. split; [exact H2|].
      destruct (decide (doc_type it = "critical")); [auto|]. left.
      destruct (decide (now - Clock.days 1095 <= timestamp it)); [assumption|].
      exfalso. apply H1. split; [lia | assumption].
    + intros [H1 H2]. split; [|exact H1].
      intros [Hlt Hne]. destruct H2; [lia | done].
Qed.

Lemma cleanup_retention_witness :
  let w' := exec (cleanup_run sample_env sample_now) sample_world in
  doc_id <$> food_container w' = ["u1-2"; "u1-3"; "u2-1"] /\
  doc_id <$> medical_container w' = ["u1-doc-1"; "u3-doc-1"] /\
  (medical_critical ∈ medical_container w' <->
   medical_critical ∈ medical_container sample_world /\
   (sample_now - Clock.days 1095 <= timestamp medical_critical
    \/ doc_type medical_critical = "critical")).
Proof.
  split; [vm_compute; reflexivity|]. split; [vm_compute; reflexivity|].
  apply (cleanup_retention sample_env sample_now sample_world).
  - apply (bool_decide_unpack _). vm_compute. exact I.
  - intros n. reflexivity.
Defined.

(* ------------------------------------------------------------------ *)
(** ** Weekly trends of a user *)

(** C7 (as amended).  With fewer than five food documents of the user in
    the last 90 days the trend analysis returns at once: it sends no write
    and logs nothing.  With five or more, it sends exactly one upsert of the
    user's trend record when the model answers with a JSON object, and none
    when the call or the decoding of its answer raises: the exception is
    logged and no record is written. *)
Theorem trend_record_needs_data_and_model (env : Env) (user : string) (w : world) :
  let now := utcnow_at env (clock_reads w) in
  let cutoff := now - Clock.days 90 in
  let food_history :=
    order_by_timestamp_asc (query_user_since user cutoff (food_container w)) in
  let medical_history :=
    order_by_timestamp_asc (query_user_since user cutoff (medical_container w)) in
  let w' := exec (analyze_user_health_trends env user) w in
  if bool_decide (length food_history < 5)%nat then
    journal w' = journal w /\
    recommendations_container w' = recommendations_container w /\
    log w' = log w
  else
    match inference env TRENDS_SYSTEM (trend_prompt env food_history medical_history) with
    | Ret fields =>
        exists t ok,
          journal w' =
          (journal w ++ [(UpsertItem Recommendations (user, trend_id user t), ok)])%list
    | Raise e =>
        journal w' = journal w /\
        recommendations_container w' = recommendations_container w /\
        log w' = (log w ++ [LogError ("Error analyzing health trends for user "
                                      +:+ user +:+ ": " +:+ e)])%list
    end.
Proof.
  cbn zeta. unfold exec, inference.
  remember (analyze_user_health_trends env user w) as r eqn:Hr. revert Hr.
  unfold analyze_user_health_trends, try_except.
  unfold bind at 1. unfold utcnow at 1. unfold bind at 1. unfold gets at 1.
  unfold bind at 1. unfold gets at 1.
  cbn [food_container medical_container tick_clock].
  destruct (bool_decide _).
  { intros ->. cbn. auto. }
  unfold bind at 1. unfold lift_outcome at 1.
  destruct (chat_completion env TRENDS_SYSTEM _) as [content|e].
  2:{ intros ->. cbn. auto. }
  unfold bind at 1. unfold lift_outcome at 1.
  destruct (json_loads env content) as [v|e].
  2:{ intros ->. cbn. auto. }
  unfold bind at 1. unfold utcnow at 1.
  destruct v as [| | | | |fields]; try (intros ->; cbn; auto; fail).
  cbn -[String.app trend_id].
  unfold bind, upsert_insight, store_write, logger_info, logger_error, modify.
  cbn -[String.app trend_id].
  destruct (write_fault env (length (journal w))); intros ->; cbn -[String.app trend_id];
    eauto.
Qed.

(** C7, at a user with five food documents whose model call answers. *)
Lemma trend_record_needs_data_and_model_witness :
  exists t ok,
    journal (exec (analyze_user_health_trends sample_env "u1") trend_world) =
    [(UpsertItem Recommendations ("u1", trend_id "u1" t), ok)].
Proof. exact (trend_record_needs_data_and_model sample_env "u1" trend_world). Defined.

(** C7 as stated fails: a user with five food documents in the window gets
    no trend record when the model call raises; the exception is logged and
    nothing is upserted. *)
Lemma trend_not_upserted_when_model_fails :
  let w' := exec (analyze_user_health_trends failing_model_env "u1") trend_world in
  length (query_user_since "u1" (sample_now - Clock.days 90) (food_container trend_world))
    = 5%nat /\
  journal w' = [] /\
  recommendations_container w' = [] /\
  log w' = [LogError "Error analyzing health trends for user u1: Request timed out."].
Proof. vm_compute. auto. Qed.

(* ------------------------------------------------------------------ *)
(** ** A refused delete ends the cleanup run *)

Section Triples.

Context {St : Type}.

Lemma triple_weaken {A} (P P' Q Q' E E' : St -> Prop) (m : M St A) :
  triple P' m Q' E' ->
  (forall s, P s -> P' s) -> (forall s, Q' s -> Q s) -> (forall s, E' s -> E s) ->
  triple P m Q E.
Proof.
  intros Hm HP HQ HE s Hs. specialize (Hm s (HP s Hs)).
  destruct (m s) as [[a|e] s']; auto.
Qed.

Lemma triple_ret {A} (P E : St -> Prop) (a : A) : triple P (ret a) P E.
Proof. intros s Hs. exact Hs. Qed.

Lemma triple_gets {A} (P E : St -> Prop) (f : St -> A) : triple P (gets f) P E.
Proof. intros s Hs. exact Hs. Qed.

Lemma triple_modify (P Q E : St -> Prop) (f : St -> St) :
  (forall s, P s -> Q (f s)) -> triple P (modify f) Q E.
Proof. intros Hf s Hs. apply Hf, Hs. Qed.

Lemma triple_bind {A B} (P R Q E : St -> Prop) (m : M St A) (k : A -> M St B) :
  triple P m R E -> (forall a, triple R (k a) Q E) -> triple P (bind m k) Q E.
Proof.
  intros Hm Hk s Hs. specialize (Hm s Hs). unfold bind.
  destruct (m s) as [[a|e] s']; [apply Hk, Hm | exact Hm].
Qed.

Lemma triple_try_except {A} (P R Q E : St -> Prop) (m : M St A) (h : exn -> M St A) :
  triple P m Q R -> (forall e, triple R (h e) Q E) -> triple P (try_except m h) Q E.
Proof.
  intros Hm Hh s Hs. specialize (Hm s Hs). unfold try_except.
  destruct (m s) as [[a|e] s']; [exact Hm | apply Hh, Hm].
Qed.

Lemma triple_for_each {X} (P E : St -> Prop) (l : list X) (body : X -> M St unit) :
  (forall x, triple P (body x) P E) -> triple P (for_each l body) P E.
Proof.
  intros Hb. induction l as [|x l IH]; cbn [for_each].
  - apply triple_ret.
  - eapply triple_bind; [apply Hb | intros _; exact IH].
Qed.

End Triples.

Section CleanupStops.

Variable env : Env.
Variables n0 l0 : nat.

Abbreviation fine := (all_accepted n0 l0).
Abbreviation broken := (last_refused n0 l0).
Abbreviation over := (run_over n0 l0).

Lemma fine_log e w : fine w -> fine (record_log e w).
Proof.
  intros (Hn & Hl & Hall). split_and!; [exact Hn | | exact Hall].
  cbn [log record_log]. rewrite length_app. lia.
Qed.

Lemma over_log e w : over w -> over (record_log e w).
Proof.
  intros [Hf|[(Hn & Hl & Hlast) (text & Htext)]]; [left; apply fine_log, Hf|].
  right. split.
  - split_and!; [exact Hn | | exact Hlast]. cbn [log record_log]. rewrite length_app. lia.
  - exists text. unfold logged_since in *. cbn [log record_log].
    rewrite drop_app_le by exact Hl. apply elem_of_app. left. exact Htext.
Qed.

Lemma broken_log_error text w : broken w -> over (record_log (LogError text) w).
Proof.
  intros (Hn & Hl & Hlast). right. split.
  - split_and!; [exact Hn | | exact Hlast]. cbn [log record_log]. rewrite length_app. lia.
  - exists text. unfold logged_since. cbn [log record_log].
    rewrite drop_app_le by exact Hl. apply elem_of_app. right. left.
Qed.

(** A write from a run without refusal: accepted, the run goes on without
    refusal; refused, it raises and is the last write so far. *)
Lemma triple_store_write c effect :
  (forall w, journal (effect w) = journal w /\ log (effect w) = log w) ->
  triple fine (store_write env c effect) fine broken.
Proof.
  intros Heff w (Hn & Hl & Hall). unfold store_write.
  destruct (write_fault env (length (journal w))) as [e|].
  - split_and!; [cbn; rewrite length_app; lia | exact Hl |].
    exists (sent_since n0 w), c. split; [|exact Hall].
    unfold sent_since. cbn [journal record_call]. apply drop_app_le, Hn.
  - destruct (Heff (record_call c true w)) as [Hj Hlg].
    unfold all_accepted, sent_since. rewrite Hj, Hlg. cbn [journal log record_call].
    split_and!; [rewrite length_app; lia | exact Hl |].
    rewrite drop_app_le by exact Hn. apply Forall_app. split; [exact Hall|].
    apply Forall_singleton. reflexivity.
Qed.

Lemma triple_delete_item k it : triple fine (delete_item env k it) fine broken.
Proof. apply triple_store_write. intros w. destruct k; split; reflexivity. Qed.

Lemma triple_delete_blob container name :
  triple fine (delete_blob env container name) fine broken.
Proof.
  apply triple_store_write. intros w. unfold set_blobs.
  repeat case_bool_decide; split; reflexivity.
Qed.

Lemma triple_logger_info_fine text E : triple fine (logger_info text) fine E.
Proof. apply triple_modify. intros w. apply fine_log. Qed.

Lemma triple_logger_info_over text E : triple over (logger_info text) over E.
Proof. apply triple_modify. intros w. apply over_log. Qed.

Lemma triple_logger_error_broken text E : triple broken (logger_error text) over E.
Proof. apply triple_modify. intros w. apply broken_log_error. Qed.

Lemma triple_cleanup_old_blobs cutoff : triple fine (cleanup_old_blobs env cutoff) over broken.
Proof.
  unfold cleanup_old_blobs. cbn zeta.
  apply (triple_try_except fine (fun s => fine s \/ broken s)).
  - apply triple_weaken with (P' := fine) (Q' := fine) (E' := fun s => fine s \/ broken s);
      [|intros s Hs; exact Hs|intros s Hs; left; exact Hs|intros s Hs; exact Hs].
    apply triple_for_each. intros container. unfold sweep_container.
    eapply triple_bind; [apply triple_gets|]. intros blobs.
    apply (triple_bind fine fine).
    { intros s Hs. unfold lift_outcome. destruct (older_blobs _ _); [exact Hs | left; exact Hs]. }
    intros blobs_to_delete.
    apply (triple_bind fine fine).
    { apply triple_weaken with (P' := fine) (Q' := fine) (E' := broken);
        [|intros s Hs; exact Hs|intros s Hs; exact Hs|intros s Hs; right; exact Hs].
      apply triple_for_each. intros name. apply triple_delete_blob. }
    intros _. apply triple_logger_info_fine.
  - intros e. apply triple_modify. intros s [Hs|Hs].
    + left. apply fine_log, Hs.
    + apply broken_log_error, Hs.
Qed.

Lemma triple_cleanup_run now : triple fine (cleanup_run env now) over broken.
Proof.
  unfold cleanup_run.
  eapply triple_bind; [apply triple_logger_info_fine|]. intros _.
  eapply triple_bind; [apply triple_gets|]. intros old_food_items.
  eapply triple_bind; [apply triple_for_each; intros it; apply triple_delete_item|].
  intros _.
  eapply triple_bind; [apply triple_gets|]. intros old_medical_items.
  eapply triple_bind; [apply triple_for_each; intros it; apply triple_delete_item|].
  intros _.
  eapply triple_bind; [apply triple_cleanup_old_blobs|]. intros _.
  apply triple_logger_info_over.
Qed.

Lemma triple_cleanup_old_data_once : triple fine (cleanup_old_data_once env) over over.
Proof.
  unfold cleanup_old_data_once. eapply triple_try_except.
  - eapply triple_bind with (R := fine).
    + intros w (Hn & Hl & Hall). exact (conj Hn (conj Hl Hall)).
    + intros current_time. destruct (cleanup_due current_time).
      * apply triple_cleanup_run.
      * apply triple_weaken with (P' := fine) (Q' := fine) (E' := broken);
          [apply triple_ret|intros s Hs; exact Hs|intros s Hs; left; exact Hs
          |intros s Hs; exact Hs].
  - intros e. apply triple_logger_error_broken.
Qed.

End CleanupStops.

(** C8 (as amended).  In an iteration of the cleanup loop, a delete of a
    document or of a blob that raises is the last write of that iteration:
    the deletes sent before it were accepted, none is sent after it, and the
    error is logged (by the loop for a document, by [cleanup_old_blobs] for a
    blob).  The documents and blobs still to delete are left for a later
    run. *)
Theorem cleanup_stops_at_refused_delete (env : Env) (w : world) :
  let w' := exec (cleanup_old_data_once env) w in
  let sent := sent_since (length (journal w)) w' in
  Forall accepted sent \/
  (exists pre c, sent = (pre ++ [(c, false)])%list /\ Forall accepted pre) /\
  (exists text, LogError text ∈ logged_since (length (log w)) w').
Proof.
  cbn zeta.
  pose proof (triple_cleanup_old_data_once env (length (journal w)) (length (log w)) w) as H.
  unfold exec.
  destruct (cleanup_old_data_once env w) as [[[]|e] w'];
    (destruct H as [(_ & _ & Hf)|[(_ & _ & Hlast) Hlog]];
     [ split_and!; [lia | lia |]; unfold sent_since; rewrite drop_all; constructor
     | left; exact Hf
     | right; split; assumption ]).
Qed.

(** C8 as stated fails.  With two food documents, a medical document and
    three blobs past retention: when the first delete of a document raises,
    no other delete is attempted and everything is still there; when the
    second one raises (after one accepted delete), the medical document and
    the blobs are not attempted either. *)
Lemma cleanup_aborts_after_refused_delete :
  let w1 := exec (cleanup_old_data_once (cleanup_env 0)) cleanup_world in
  let w2 := exec (cleanup_old_data_once (cleanup_env 1)) cleanup_world in
  (journal w1 = [(DeleteItem FoodHistory ("u1", "u1-1"), false)] /\
   doc_id <$> food_container w1 = ["u1-1"; "u1-2"] /\
   doc_id <$> medical_container w1 = ["u3-doc-2"] /\
   blob_name <$> food_images w1 = ["u1/old.jpg"; "u1/older.jpg"] /\
   blob_name <$> medical_documents w1 = ["u3/o.pdf"] /\
   log w1 = [LogInfo "Starting monthly data cleanup";
             LogError "Error in cleanup_old_data: Service Unavailable"]) /\
  (journal w2 = [(DeleteItem FoodHistory ("u1", "u1-1"), true);
                 (DeleteItem FoodHistory ("u1", "u1-2"), false)] /\
   doc_id <$> food_container w2 = ["u1-2"] /\
   doc_id <$> medical_container w2 = ["u3-doc-2"] /\
   blob_name <$> food_images w2 = ["u1/old.jpg"; "u1/older.jpg"] /\
   blob_name <$> medical_documents w2 = ["u3/o.pdf"] /\
   log w2 = [LogInfo "Starting monthly data cleanup";
             LogError "Error in cleanup_old_data: Service Unavailable"]).
Proof. vm_compute. split_and!; reflexivity. Qed.

(* ------------------------------------------------------------------ *)
(** ** Settling a Service Bus message *)

(** [handle_notification_message] never raises and sends no write: all it
    leaves is one log entry, an error entry when the dispatch failed. *)
Lemma handle_notification_message_total env data w :
  exists entry, handle_notification_message env data w = (Ret tt, record_log entry w).
Proof.
  unfold handle_notification_message, try_except, bind, lift_outcome,
    process_urgent_health_alert, process_daily_reminder, process_analysis_request,
    logger_info, logger_error, modify, ret.
  destruct data; cbn [py_get]; try (eexists; reflexivity).
  repeat destruct (is_type _ _); eexists; reflexivity.
Qed.

(** C9 (as amended).  The consumer completes a message whenever its body
    decodes as JSON, whatever happens in the dispatch
    ([handle_notification_message] catches and logs its own errors), and
    abandons it when decoding the body raises; it also abandons it when the
    completion call itself raises.  No other write is sent for the
    message. *)
Theorem message_completed_iff_decoded (env : Env) (msg : string) (w : world) :
  let sent := sent_since (length (journal w)) (exec (process_message env msg) w) in
  match json_loads env msg with
  | Ret _ =>
      sent = [(CompleteMessage msg, true)] \/
      exists ok, sent = [(CompleteMessage msg, false); (AbandonMessage msg, ok)]
  | Raise _ => exists ok, sent = [(AbandonMessage msg, ok)]
  end.
Proof.
  cbn zeta. unfold exec, process_message, try_except, bind, lift_outcome.
  destruct (json_loads env msg) as [data|e]; cbn beta iota.
  - destruct (handle_notification_message_total env data w) as (entry & ->).
    unfold complete_message, abandon_message, logger_error, modify, store_write, sent_since.
    cbn [journal record_log].
    destruct (write_fault env (length (journal w))) as [e|]; cbn [journal record_log record_call snd].
    + right. rewrite length_app. cbn [length].
      destruct (write_fault env (length (journal w) + 1)) as [e'|];
        cbn [journal record_log record_call snd]; rewrite <- app_assoc, drop_app_length;
        eexists; reflexivity.
    + left. rewrite drop_app_length. reflexivity.
  - unfold logger_error, modify, abandon_message, store_write, sent_since.
    cbn [journal record_log].
    destruct (write_fault env (length (journal w))) as [e'|];
      cbn [journal record_log record_call snd]; rewrite drop_app_length;
      eexists; reflexivity.
Qed.

(** C9 as stated fails.  A message whose body is the JSON array [[1]]
    makes the dispatch fail ([.get] on a list raises, which
    [handle_notification_message] logs), and the message is nevertheless
    completed, not abandoned; a message whose body is not JSON is abandoned
    although no handler ran. *)
Lemma message_completed_despite_dispatch_error :
  let w1 := exec (process_message sample_env "[1]") sample_world in
  let w2 := exec (process_message sample_env "oops") sample_world in
  (journal w1 = [(CompleteMessage "[1]", true)] /\
   log w1 = [LogError
               "Error handling notification message: 'list' object has no attribute 'get'"]) /\
  (journal w2 = [(AbandonMessage "oops", true)] /\
   log w2 = [LogError
               "Error processing Service Bus message: Expecting value: line 1 column 1 (char 0)"]).
Proof. vm_compute. split_and!; reflexivity. Qed.

(* ------------------------------------------------------------------ *)
(** ** Answers with missing keys *)

Lemma dict_get_absent fields k d : assoc k fields = None -> dict_get fields k d = d.
Proof. unfold dict_get. intros ->. reflexivity. Qed.

Section Answers.

Variable env : Env.

Lemma download_blob_world container name w : (download_blob env container name w).2 = w.
Proof.
  unfold download_blob. destruct (download_fault env container name); [reflexivity|].
  destruct (filter _ _); reflexivity.
Qed.

Lemma food_update_answer it w fields :
  food_answer env it w = Ret fields ->
  food_update env it w =
  (Ret (update_completed it (food_results fields) (utcnow_at env (clock_reads w))),
   tick_clock w).
Proof.
  unfold food_answer, food_update, inference. unfold bind at 1.
  pose proof (download_blob_world "food-images" (imagePath it) w) as Hw.
  destruct (download_blob env "food-images" (imagePath it) w) as [[data|e] w1];
    [|discriminate]. cbn [snd] in Hw. subst w1.
  unfold bind at 1. unfold lift_outcome at 1.
  destruct (vision_analyze env data _) as [vision|e]; [|discriminate].
  unfold bind at 1. unfold lift_outcome at 1.
  destruct (food_prompt vision) as [prompt|e]; [|discriminate].
  unfold bind at 1. unfold lift_outcome at 1.
  destruct (chat_completion env FOOD_SYSTEM prompt) as [content|e]; [|discriminate].
  unfold bind at 1. unfold lift_outcome at 1.
  destruct (json_loads env content) as [v|e]; [|discriminate].
  destruct v; try discriminate. intros [= ->]. reflexivity.
Qed.

Lemma medical_update_answer it w text fields :
  medical_answer env it w = Ret (text, fields) ->
  medical_update env it w =
  (Ret (update_completed it (medical_results text fields) (utcnow_at env (clock_reads w))),
   tick_clock w).
Proof.
  unfold medical_answer, medical_update, inference. unfold bind at 1.
  pose proof (download_blob_world "medical-documents" (documentPath it) w) as Hw.
  destruct (download_blob env "medical-documents" (documentPath it) w) as [[data|e] w1];
    [|discriminate]. cbn [snd] in Hw. subst w1.
  unfold bind at 1. unfold lift_outcome at 1.
  destruct (vision_analyze env data _) as [vision|e]; [|discriminate].
  cbn zeta. unfold bind at 1. unfold lift_outcome at 1.
  destruct (chat_completion env MEDICAL_SYSTEM _) as [content|e]; [|discriminate].
  unfold bind at 1. unfold lift_outcome at 1.
  destruct (json_loads env content) as [v|e]; [|discriminate].
  destruct v; try discriminate. intros [= <- <-]. reflexivity.
Qed.

(** When the analysis stage returns and the upsert is accepted, the
    returned dict is what is stored. *)
Lemma process_analysis_stores k it w updated :
  analysis_update env k it w = (Ret updated, tick_clock w) ->
  doc_key updated = doc_key it ->
  write_fault env (length (journal w)) = None ->
  stored k (doc_key it) (exec (process_analysis env k it) w) = Some updated.
Proof.
  intros Hup Hkey Hok.
  assert (exec (process_analysis env k it) w =
          record_log (LogInfo ("Processed " +:+ kind_name k +:+ " analysis for item "
                               +:+ doc_id updated))
            (set_items k (upsert_doc updated)
               (record_call (UpsertItem (container_of k) (doc_key updated)) true
                  (tick_clock w)))) as ->.
  { unfold exec. destruct k; cbn [process_analysis analysis_update] in *;
      unfold process_food_analysis, process_medical_analysis, attempt;
      unfold bind at 1; rewrite Hup;
      unfold try_except, bind, upsert_item, store_write, logger_info, modify;
      cbn [journal tick_clock]; rewrite Hok; reflexivity. }
  unfold stored. destruct k; cbn [items_of set_items set_food set_medical record_log
    food_container medical_container];
    rewrite head_filter_upsert_doc, decide_True by exact Hkey; reflexivity.
Qed.

End Answers.

Lemma generate_user_daily_insights_stores env user w fields :
  let now := utcnow_at env (clock_reads w) in
  let recent_food := recent_docs user now (food_container w) in
  let recent_medical := recent_docs user now (medical_container w) in
  recent_food <> [] \/ recent_medical <> [] ->
  inference env INSIGHTS_SYSTEM (insights_prompt env recent_food recent_medical) = Ret fields ->
  write_fault env (length (journal w)) = None ->
  recommendations_container (exec (generate_user_daily_insights env user) w) =
  upsert_rec
    (mkInsight (daily_insight_id user (utcnow_at env (S (clock_reads w)))) user
       "daily_insights" (insight_results fields)
       (utcnow_at env (S (S (clock_reads w)))) (now - Clock.days 7)
       (utcnow_at env (S (S (S (clock_reads w))))) None)
    (recommendations_container w).
Proof.
  cbn zeta. unfold recent_docs, inference, exec. intros Hdata Hans Hok.
  remember (generate_user_daily_insights env user w) as r eqn:Hr. revert Hr.
  unfold generate_user_daily_insights, try_except.
  unfold bind at 1. unfold utcnow at 1. unfold bind at 1. unfold gets at 1.
  unfold bind at 1. unfold gets at 1.
  cbn [food_container medical_container tick_clock].
  set (rf := order_by_timestamp_desc _) in *. clearbody rf.
  set (rm := order_by_timestamp_desc _) in *. clearbody rm.
  assert (forall (A : Type) (a b : A),
            match rf, rm with [], [] => a | _, _ => b end = b) as Hmatch.
  { intros A a b. destruct rf; [destruct rm; [|reflexivity]|reflexivity].
    destruct Hdata; done. }
  rewrite Hmatch. clear Hmatch.
  unfold bind at 1. unfold lift_outcome at 1.
  destruct (chat_completion env INSIGHTS_SYSTEM _) as [content|e]; [|discriminate].
  unfold bind at 1. unfold lift_outcome at 1.
  destruct (json_loads env content) as [v|e]; [|discriminate].
  destruct v; try discriminate. injection Hans as ->.
  unfold bind, utcnow, lift_outcome, upsert_insight, store_write, logger_info, modify.
  cbn -[String.app daily_insight_id upsert_rec]. rewrite Hok. intros ->. reflexivity.
Qed.

Lemma holds_defaults_food fields rest :
  holds_defaults food_keys fields (food_results fields ++ rest).
Proof.
  intros rk ak d Hin. unfold food_keys in Hin. rewrite !elem_of_cons in Hin.
  destruct Hin as [[= -> -> ->]|[[= -> -> ->]|[[= -> -> ->]|[[= -> -> ->]|Hin]]]];
    [reflexivity..|]. apply elem_of_nil in Hin. done.
Qed.

Lemma holds_defaults_medical text fields rest :
  holds_defaults medical_keys fields (medical_results text fields ++ rest).
Proof.
  intros rk ak d Hin. unfold medical_keys in Hin. rewrite !elem_of_cons in Hin.
  destruct Hin
    as [[= -> -> ->]|[[= -> -> ->]|[[= -> -> ->]|[[= -> -> ->]|[[= -> -> ->]|Hin]]]]];
    [reflexivity..|]. apply elem_of_nil in Hin. done.
Qed.

Lemma holds_defaults_insight fields :
  holds_defaults insight_keys fields (insight_results fields).
Proof.
  intros rk ak d Hin. unfold insight_keys in Hin. rewrite !elem_of_cons in Hin.
  destruct Hin
    as [[= -> -> ->]|[[= -> -> ->]|[[= -> -> ->]|[[= -> -> ->]|[[= -> -> ->]|Hin]]]]];
    [reflexivity..|]. apply elem_of_nil in Hin. done.
Qed.

Lemma elem_of_upsert_by_self {A K} `{EqDecision K} (key : A -> K) x c :
  x ∈ upsert_by key x c.
Proof.
  induction c as [|y c IH]; cbn [upsert_by]; [left|].
  case_decide; [left | right; exact IH].
Qed.



(* ------------------------------------------------------------------ *)
(** ** The drainer: what an iteration leaves behind *)

Lemma query_pending_nil c :
  (forall it, it ∈ c -> status it <> "pending") -> query_pending c = [].
Proof.
  intros H. unfold query_pending. rewrite filter_none; [reflexivity|]. exact H.
Qed.

(** X1.  An iteration of the drainer that finds no pending document does
    nothing at all: no write, no log entry, no clock reading. *)
Theorem idle_drain_is_noop (env : Env) (w : world) :
  no_pending w -> process_pending_analyses_once env w = (Ret tt, w).
Proof.
  intros Hnp. unfold process_pending_analyses_once, try_except, bind, gets.
  rewrite (query_pending_nil (food_container w)) by apply (Hnp Food).
  rewrite (query_pending_nil (medical_container w)) by apply (Hnp Medical).
  reflexivity.
Qed.

Lemma idle_drain_is_noop_witness :
  process_pending_analyses_once failing_model_env trend_world = (Ret tt, trend_world).
Proof.
  apply idle_drain_is_noop. intros k it Hit.
  destruct k; cbn in Hit; rewrite ?elem_of_cons in Hit;
    [|apply elem_of_nil in Hit; done].
  destruct Hit as [->|[->|[->|[->|[->|Hit]]]]]; try discriminate.
  apply elem_of_nil in Hit. done.
Defined.

Section CleanDrain.

Variable env : Env.
Hypothesis Hnf : no_write_fault env.

Lemma settled_not_pending k it w : status (settled env k it w) <> "pending".
Proof.
  unfold settled. pose proof (analysis_update_returns env k it w) as Hr.
  unfold result in Hr.
  destruct (analysis_update env k it w) as [[x|e] w1]; [|discriminate].
  destruct (Hr x eq_refl) as (rs & t & ->). discriminate.
Qed.

(** With every write accepted, each pending document of the snapshot is
    stored, after the iteration, as what its processing settled on. *)
Lemma drain_stored k it w :
  unique_keys w -> it ∈ items_of k w -> status it = "pending" ->
  exists w0, stored k (doc_key it) (exec (process_pending_analyses_once env) w)
             = Some (settled env k it w0).
Proof.
  intros [Huf Hum] Hin Hp. rewrite (process_pending_analyses_once_no_fault env Hnf).
  set (pf := query_pending (food_container w)).
  set (pm := query_pending (medical_container w)).
  set (wf := exec (for_each pf (process_analysis env Food)) w).
  destruct (for_each_process_no_fault env Hnf Medical pm wf) as (_ & _ & Hom & _).
  destruct k; cbn [items_of] in Hin.
  - assert (it ∈ pf) as Hit by (apply query_pending_elem; auto).
    destruct (for_each_process_stored env Hnf Food pf w (doc_key it)
                (query_pending_NoDup _ Huf)) as [_ H2].
    destruct (H2 it Hit eq_refl) as (w0 & _ & Hs). fold wf in Hs.
    exists w0. unfold stored in *. rewrite (Hom Food) by done. exact Hs.
  - assert (it ∈ pm) as Hit by (apply query_pending_elem; auto).
    destruct (for_each_process_stored env Hnf Medical pm wf (doc_key it)
                (query_pending_NoDup _ Hum)) as [_ H2].
    destruct (H2 it Hit eq_refl) as (w0 & _ & Hs). exists w0. exact Hs.
Qed.

End CleanDrain.

(** X2.  With unique keys and every write accepted, an iteration of the
    drainer leaves no pending document in either container: each one found
    pending was brought to completed or failed. *)
Theorem drain_leaves_no_pending (env : Env) (w : world) :
  unique_keys w -> no_write_fault env ->
  no_pending (exec (process_pending_analyses_once env) w).
Proof.
  intros Hu Hnf k b Hb Hpend.
  destruct (process_pending_analyses_once_evolved env w Hu) as (Hu' & Hf & Hm).
  set (w' := exec (process_pending_analyses_once env) w) in *.
  assert (container_step (items_of k w) (items_of k w')) as Hstep by (destruct k; assumption).
  destruct (Hstep b Hb) as (a & Ha & Hk & [->|Hterm]).
  - destruct (drain_stored env Hnf k a w Hu Ha Hpend) as (w0 & Hs). fold w' in Hs.
    unfold stored in Hs. apply head_filter_Some in Hs as [Hin Hkey].
    assert (settled env k a w0 = a) as Heq.
    { eapply unique_key_elem; [|exact Hin|exact Hb|exact Hkey].
      destruct Hu' as [? ?]. destruct k; assumption. }
    apply (settled_not_pending env k a w0). rewrite Heq. exact Hpend.
  - apply (terminal_not_pending a b Hterm Hpend).
Qed.

Lemma drain_leaves_no_pending_witness :
  no_pending (exec (process_pending_analyses_once sample_env) sample_world).
Proof.
  apply drain_leaves_no_pending.
  - apply (bool_decide_unpack _). vm_compute. exact I.
  - intros n. reflexivity.
Defined.

(* What the drainer never does *)

Lemma same_identity_refl a : same_identity a a.
Proof. repeat split. Qed.

Lemma Forall2_same_identity_refl c : Forall2 same_identity c c.
Proof. induction c; constructor; auto using same_identity_refl. Qed.

Lemma Forall2_same_identity_keys c0 c :
  Forall2 same_identity c0 c -> doc_key <$> c = doc_key <$> c0.
Proof.
  induction 1 as [|a b c0 c Hab _ IH]; [reflexivity|].
  rewrite !fmap_cons, IH. f_equal. apply Hab.
Qed.

(** Upserting a document that is, identity-wise, a document of a container
    with unique keys replaces that document in place. *)
Lemma upsert_doc_same_identity c0 c it x :
  NoDup (doc_key <$> c0) -> it ∈ c0 -> same_identity it x ->
  Forall2 same_identity c0 c -> Forall2 same_identity c0 (upsert_doc x c).
Proof.
  intros Hnd Hit Hx HF.
  assert (forall a, a ∈ c0 -> doc_key a = doc_key x -> same_identity a x) as Hsame.
  { intros a Ha Hk. assert (a = it) as ->; [|exact Hx].
    eapply unique_key_elem; [exact Hnd|exact Ha|exact Hit|]. rewrite Hk. apply Hx. }
  assert (doc_key x ∈ doc_key <$> c0) as Hkey.
  { destruct Hx as [-> _]. apply list_elem_of_fmap. eauto. }
  clear Hnd Hit Hx. unfold upsert_doc.
  induction HF as [|a b c0 c Hab HF IH]; [apply elem_of_nil in Hkey; done|].
  cbn [upsert_by]. case_bool_decide as Hk.
  - constructor; [|exact HF]. apply Hsame; [left|]. destruct Hab as [Hab _]. congruence.
  - constructor; [exact Hab|]. apply IH.
    + intros a' Ha'. apply Hsame. right. exact Ha'.
    + rewrite fmap_cons in Hkey. apply elem_of_cons in Hkey as [Heq|Hin]; [|exact Hin].
      destruct Hab as [Hab _]. congruence.
Qed.

Section DrainKeeps.

Variable env : Env.
Variable w0 : world.
Hypothesis Hu : unique_keys w0.

Abbreviation kept_here := (kept w0).

#[local] Instance kept_tick : TickInsensitive kept_here.
Proof. intros w H. exact H. Qed.
#[local] Instance kept_log : LogInsensitive kept_here.
Proof. intros e w H. exact H. Qed.

Lemma upsert_item_kept k it x :
  it ∈ items_of k w0 -> same_identity it x -> preserves kept_here (upsert_item env k x).
Proof.
  intros Hit Hx. apply preserves_store_write; [intros ok w H; exact H|].
  intros w (Hf & Hm & Hr & Hfi & Hmd). destruct Hu as [Huf Hum].
  destruct k; cbn [items_of] in Hit; (split_and!; try assumption);
    cbn [set_items set_food set_medical food_container medical_container];
    eapply upsert_doc_same_identity; eassumption.
Qed.

Lemma process_analysis_kept k it :
  it ∈ items_of k w0 -> preserves kept_here (process_analysis env k it).
Proof.
  intros Hit.
  assert (forall x e, same_identity it x -> preserves kept_here (mark_failed env k x e)) as Hmark.
  { intros x e Hx. unfold mark_failed.
    apply preserves_bind; [apply preserves_logger_error; apply _|]. intros _.
    apply preserves_bind; [apply preserves_utcnow; apply _|]. intros t.
    apply (upsert_item_kept k it); [exact Hit|]. exact Hx. }
  assert (preserves kept_here
            (r <- attempt (analysis_update env k it) ;;
             match r with
             | Raise e => mark_failed env k it e
             | Ret updated =>
                 try_except
                   (upsert_item env k updated ;;
                    logger_info ("Processed " +:+ kind_name k +:+ " analysis for item "
                                 +:+ doc_id updated))
                   (mark_failed env k updated)
             end)) as H.
  { eapply preserves_attempt_bind.
    - apply analysis_update_preserves. apply _.
    - apply analysis_update_returns.
    - intros x (rs & t & ->). apply preserves_try_except.
      + apply preserves_bind.
        * apply (upsert_item_kept k it); [exact Hit|]. repeat split.
        * intros _. apply preserves_logger_info. apply _.
      + intros e. apply Hmark. repeat split.
    - intros e. apply Hmark. apply same_identity_refl. }
  destruct k; exact H.
Qed.

Lemma process_pending_analyses_once_kept :
  kept_here (exec (process_pending_analyses_once env) w0).
Proof.
  unfold process_pending_analyses_once.
  apply exec_try_except; [|intros e; apply preserves_logger_error; apply _].
  rewrite !exec_gets_bind.
  apply preserves_bind.
  - apply preserves_for_each. intros it Hit. apply query_pending_elem in Hit as [Hin _].
    apply (process_analysis_kept Food). exact Hin.
  - intros _. apply preserves_for_each. intros it Hit.
    apply query_pending_elem in Hit as [Hin _].
    apply (process_analysis_kept Medical). exact Hin.
  - split_and!; try reflexivity; apply Forall2_same_identity_refl.
Qed.

End DrainKeeps.

(** X3.  Whatever the services do, an iteration of the drainer on
    containers with unique keys never adds, removes or moves a document:
    each container holds, place by place, documents with the key,
    timestamp, type and paths of the ones it held; and the drainer never
    writes to [Recommendations] or to the blob containers. *)
Theorem drain_keeps_documents (env : Env) (w : world) :
  unique_keys w ->
  let w' := exec (process_pending_analyses_once env) w in
  Forall2 same_identity (food_container w) (food_container w') /\
  Forall2 same_identity (medical_container w) (medical_container w') /\
  doc_key <$> food_container w' = doc_key <$> food_container w /\
  doc_key <$> medical_container w' = doc_key <$> medical_container w /\
  recommendations_container w' = recommendations_container w /\
  food_images w' = food_images w /\
  medical_documents w' = medical_documents w.
Proof.
  intros Hu w'.
  destruct (process_pending_analyses_once_kept env w Hu) as (Hf & Hm & Hr & Hfi & Hmd).
  split_and!; try assumption; apply Forall2_same_identity_keys; assumption.
Qed.

Lemma drain_keeps_documents_witness :
  doc_key <$> food_container (exec (process_pending_analyses_once (faulty_write_env 1))
                                   sample_world)
  = doc_key <$> food_container sample_world.
Proof.
  apply (drain_keeps_documents (faulty_write_env 1) sample_world).
  apply (bool_decide_unpack _). vm_compute. exact I.
Defined.

(* A store that refuses *)

Lemma triple_of_preserves {St A} (I : St -> Prop) (m : M St A) :
  preserves I m -> triple I m I I.
Proof.
  intros Hm s Hs. specialize (Hm s Hs). unfold exec in Hm.
  destruct (m s) as [[a|e] s']; exact Hm.
Qed.

Lemma triple_attempt_bind {St A B} (P Q E Q' E' : St -> Prop) (m : M St A)
    (k : outcome A -> M St B) :
  triple P m Q E ->
  (forall a, triple Q (k (Ret a)) Q' E') ->
  (forall e, triple E (k (Raise e)) Q' E') ->
  triple P (bind (attempt m) k) Q' E'.
Proof.
  intros Hm Hret Hraise s Hs. specialize (Hm s Hs). unfold bind, attempt.
  destruct (m s) as [[a|e] s']; [apply Hret, Hm | apply Hraise, Hm].
Qed.

Section Outage.

Variable env : Env.
Hypothesis Hout : every_write_refused env.
Variable w0 : world.

Abbreviation at_write j := (refused_so_far w0 j).

#[local] Instance refused_so_far_tick j : TickInsensitive (at_write j).
Proof. intros w H. exact H. Qed.
#[local] Instance refused_so_far_log j : LogInsensitive (at_write j).
Proof. intros e w H. exact H. Qed.

Lemma triple_quiet {A} j (m : M world A) (E : world -> Prop) :
  preserves (at_write j) m -> (forall s, at_write j s -> E s) ->
  triple (at_write j) m (at_write j) E.
Proof.
  intros Hm HE. apply triple_weaken with (P' := at_write j) (Q' := at_write j)
    (E' := at_write j); [apply triple_of_preserves, Hm|auto|auto|exact HE].
Qed.

Lemma triple_store_write_refused j c effect :
  triple (at_write j) (store_write env c effect) (fun _ => False) (at_write (S j)).
Proof.
  intros w (Hf & Hm & Hr & Hfi & Hmd & Hn & Hlen & Hall). unfold store_write.
  destruct (Hout (length (journal w))) as (e & ->).
  unfold refused_so_far, sent_since in *. cbn [journal record_call food_container
    medical_container recommendations_container food_images medical_documents].
  rewrite drop_app_le by exact Hn. rewrite !length_app. cbn [length].
  split_and!; try assumption; [lia | lia |].
  apply Forall_app. split; [exact Hall|]. apply Forall_singleton. reflexivity.
Qed.

Lemma triple_utcnow (P Q E : world -> Prop) :
  (forall w, P w -> Q (tick_clock w)) -> triple P (utcnow env) Q E.
Proof. intros H w Hw. apply H, Hw. Qed.

Lemma triple_mark_failed_refused j k it e :
  triple (at_write j) (mark_failed env k it e) (fun _ => False) (at_write (S j)).
Proof.
  unfold mark_failed.
  eapply triple_bind; [apply triple_modify with (Q := at_write j); intros s Hs; exact Hs|].
  intros _.
  eapply triple_bind; [apply triple_utcnow with (Q := at_write j); intros s Hs; exact Hs|].
  intros t. apply triple_store_write_refused.
Qed.

(** Processing a document when the store refuses: it raises after one
    refused upsert (the analysis stage raised) or two (it returned). *)
Lemma triple_process_analysis_refused k it :
  triple (at_write 0) (process_analysis env k it) (at_write 0)
         (fun w => at_write 1 w \/ at_write 2 w).
Proof.
  assert (triple (at_write 0)
            (r <- attempt (analysis_update env k it) ;;
             match r with
             | Raise e => mark_failed env k it e
             | Ret updated =>
                 try_except
                   (upsert_item env k updated ;;
                    logger_info ("Processed " +:+ kind_name k +:+ " analysis for item "
                                 +:+ doc_id updated))
                   (mark_failed env k updated)
             end) (at_write 0) (fun w => at_write 1 w \/ at_write 2 w)) as H.
  { eapply triple_attempt_bind.
    - apply triple_of_preserves, analysis_update_preserves. apply _.
    - intros updated. eapply triple_try_except with (R := at_write 1).
      + eapply triple_bind with (R := fun _ => False).
        * unfold upsert_item. apply triple_store_write_refused.
        * intros _ s [].
      + intros e.
        apply triple_weaken with (P' := at_write 1) (Q' := fun _ => False)
          (E' := at_write 2);
          [apply triple_mark_failed_refused | intros s Hs; exact Hs | intros s []
          | intros s Hs; right; exact Hs].
    - intros e.
      apply triple_weaken with (P' := at_write 0) (Q' := fun _ => False)
        (E' := at_write 1);
        [apply triple_mark_failed_refused | intros s Hs; exact Hs | intros s []
        | intros s Hs; left; exact Hs]. }
  destruct k; exact H.
Qed.

Lemma process_pending_analyses_once_refused :
  let w := exec (process_pending_analyses_once env) w0 in
  at_write 0 w \/ at_write 1 w \/ at_write 2 w.
Proof.
  assert (triple (at_write 0) (process_pending_analyses_once env)
                 (fun w => at_write 0 w \/ at_write 1 w \/ at_write 2 w)
                 (fun _ => False)) as H.
  { unfold process_pending_analyses_once.
    eapply triple_try_except with (R := fun w => at_write 1 w \/ at_write 2 w).
    - eapply triple_weaken with (Q' := at_write 0);
        [|intros s Hs; exact Hs|intros s Hs; left; exact Hs|intros s Hs; exact Hs].
      eapply triple_bind; [apply triple_gets|]. intros pending_food.
      eapply triple_bind; [apply triple_gets|]. intros pending_medical.
      eapply triple_bind.
      + apply triple_for_each. intros it. apply (triple_process_analysis_refused Food).
      + intros _. apply triple_for_each. intros it.
        apply (triple_process_analysis_refused Medical).
    - intros e. apply triple_modify. intros s [Hs|Hs]; [right; left|right; right]; exact Hs. }
  assert (at_write 0 w0) as H0.
  { unfold refused_so_far, sent_since. rewrite drop_all.
    split_and!; try reflexivity; try lia. constructor. }
  cbn zeta. unfold exec. specialize (H w0 H0).
  destruct (process_pending_analyses_once env w0) as [[[]|e] w]; [exact H | destruct H].
Qed.

End Outage.

(** X4.  While the store refuses every write, an iteration of the drainer
    changes no store: every document, pending ones included, stays as it
    was, so the pending ones are taken up again by the next iteration.  The
    iteration gives up at the first document: it sends at most two upserts,
    both refused. *)
Theorem drain_gives_up_on_store_outage (env : Env) (w : world) :
  every_write_refused env ->
  let w' := exec (process_pending_analyses_once env) w in
  let sent := sent_since (length (journal w)) w' in
  food_container w' = food_container w /\
  medical_container w' = medical_container w /\
  recommendations_container w' = recommendations_container w /\
  (length sent <= 2)%nat /\
  Forall refused sent.
Proof.
  intros Hout. cbn zeta.
  destruct (process_pending_analyses_once_refused env Hout w)
    as [H|[H|H]]; destruct H as (Hf & Hm & Hr & _ & _ & _ & Hlen & Hall);
    split_and!; try assumption; lia.
Qed.

Lemma drain_gives_up_on_store_outage_witness :
  let w' := exec (process_pending_analyses_once outage_env) sample_world in
  food_container w' = food_container sample_world /\
  length (journal w') = 1%nat.
Proof.
  split; [|vm_compute; reflexivity].
  apply (drain_gives_up_on_store_outage outage_env sample_world).
  intros n. eexists. reflexivity.
Defined.

(* One refused upsert *)

Lemma process_analysis_refused_once env k it updated e w w1 :
  analysis_update env k it w = (Ret updated, w1) ->
  write_fault env (length (journal w1)) = Some e ->
  write_fault env (S (length (journal w1))) = None ->
  process_analysis env k it w =
  (Ret tt,
   set_items k (upsert_doc (update_failed updated e (utcnow_at env (clock_reads w1))))
     (record_call (UpsertItem (container_of k) (doc_key updated)) true
        (tick_clock
           (record_log (LogError ("Error processing " +:+ kind_name k +:+ " analysis "
                                  +:+ doc_id updated +:+ ": " +:+ e))
              (record_call (UpsertItem (container_of k) (doc_key updated)) false w1))))).
Proof.
  intros Hup Hrefused Hok.
  destruct k; cbn [process_analysis analysis_update] in *;
    unfold process_food_analysis, process_medical_analysis, attempt;
    unfold bind at 1; rewrite Hup;
    unfold try_except, bind, upsert_item, store_write; rewrite Hrefused;
    unfold mark_failed, bind, logger_error, modify, utcnow, upsert_item, store_write;
    cbn [journal record_log record_call tick_clock];
    rewrite length_app; cbn [length]; rewrite Nat.add_1_r, Hok; reflexivity.
Qed.

(** X5.  When the analysis stage returns but the store refuses the upsert of
    the completed document and accepts the next write, the document ends up
    failed, with the store's error text, and still carries the analysis
    results the refused upsert was to store: the handler marks failed the
    dict the [try] block had already updated. *)
Theorem refused_completion_is_stored_as_failure (env : Env) (k : kind) (it updated : item)
    (e : exn) (w : world) :
  result (analysis_update env k it) w = Ret updated ->
  write_fault env (length (journal w)) = Some e ->
  write_fault env (S (length (journal w))) = None ->
  let w' := exec (process_analysis env k it) w in
  exists doc,
    stored k (doc_key it) w' = Some doc /\
    status doc = "failed" /\ error doc = Some e /\
    analysis doc = analysis updated /\
    sent_since (length (journal w)) w' =
      [(UpsertItem (container_of k) (doc_key it), false);
       (UpsertItem (container_of k) (doc_key it), true)].
Proof.
  intros Hup Hrefused Hok. cbn zeta.
  pose proof (analysis_update_same_stores env k it w) as Hs.
  pose proof (analysis_update_key env k it w updated Hup) as Hkey.
  unfold result, exec in *.
  destruct (analysis_update env k it w) as [[x|e'] w1] eqn:Heq; cbn [fst snd] in *;
    [|discriminate].
  injection Hup as ->. destruct Hs as (Hf & Hm & _ & _ & _ & Hj).
  rewrite <- Hj in Hrefused, Hok.
  rewrite (process_analysis_refused_once env k it updated e w w1 Heq Hrefused Hok).
  exists (update_failed updated e (utcnow_at env (clock_reads w1))).
  cbn [snd]. rewrite Hkey. split_and!; try reflexivity.
  - unfold stored. rewrite <- Hkey.
    destruct k; cbn [items_of set_items set_food set_medical food_container
      medical_container record_call];
      rewrite head_filter_upsert_doc, decide_True by reflexivity; reflexivity.
  - unfold sent_since.
    destruct k; cbn [journal set_items set_food set_medical record_call record_log
      tick_clock]; rewrite Hj, <- app_assoc, drop_app_length; reflexivity.
Qed.

Lemma refused_completion_is_stored_as_failure_witness :
  exists doc,
    stored Medical (doc_key medical_pending)
      (exec (process_analysis (faulty_write_env 0) Medical medical_pending) sample_world)
      = Some doc /\
    status doc = "failed" /\ error doc = Some "Service Unavailable" /\
    assoc "keyFindings" (analysis doc) = Some (JArr []).
Proof.
  destruct (refused_completion_is_stored_as_failure (faulty_write_env 0) Medical
              medical_pending _ "Service Unavailable" sample_world eq_refl eq_refl eq_refl)
    as (doc & Hs & Hst & He & Ha & _).
  exists doc. rewrite Ha. auto.
Defined.

(* The food prompt and the objects Vision detected *)

Lemma process_analysis_raise_stored env k it e w w1 :
  analysis_update env k it w = (Raise e, w1) ->
  write_fault env (length (journal w1)) = None ->
  stored k (doc_key it) (exec (process_analysis env k it) w) =
  Some (update_failed it e (utcnow_at env (clock_reads w1))).
Proof.
  intros Hup Hok.
  assert (exec (process_analysis env k it) w =
          set_items k (upsert_doc (update_failed it e (utcnow_at env (clock_reads w1))))
            (record_call (UpsertItem (container_of k) (doc_key it)) true
               (tick_clock
                  (record_log (LogError ("Error processing " +:+ kind_name k +:+ " analysis "
                                         +:+ doc_id it +:+ ": " +:+ e)) w1)))) as ->.
  { unfold exec. destruct k; cbn [process_analysis analysis_update] in *;
      unfold process_food_analysis, process_medical_analysis, attempt;
      unfold bind at 1; rewrite Hup;
      unfold mark_failed, bind, logger_error, modify, utcnow, upsert_item, store_write;
      cbn [journal record_log tick_clock]; rewrite Hok; reflexivity. }
  unfold stored.
  destruct k; cbn [items_of set_items set_food set_medical food_container medical_container];
    rewrite head_filter_upsert_doc, decide_True by reflexivity; reflexivity.
Qed.

(** X6.  Whenever the Vision answer about a food image carries an objects
    result, building the prompt raises [AttributeError] (the comprehension
    of source line 199 iterates the result object itself, which yields
    strings), so the model is never asked: whatever it would answer, the
    document is stored with status [failed], that error text and
    [processedAt] set, and without any analysis result, provided the store
    accepts the upsert. *)
Theorem vision_objects_fail_food_analysis (env : Env) (it : item) (w : world)
    (image_data : list Byte.byte) (vision : vision_result) :
  result (download_blob env "food-images" (imagePath it)) w = Ret image_data ->
  vision_analyze env image_data [OBJECTS; TAGS; CAPTION] = Ret vision ->
  is_Some (objects vision) ->
  write_fault env (length (journal w)) = None ->
  exists doc,
    stored Food (doc_key it) (exec (process_food_analysis env it) w) = Some doc /\
    status doc = "failed" /\
    error doc = Some "'str' object has no attribute 'tags'" /\
    processedAt doc = Some (utcnow_at env (clock_reads w)) /\
    analysis doc = analysis it.
Proof.
  intros Hdl Hvision [detected Hobjects] Hok.
  exists (update_failed it "'str' object has no attribute 'tags'"
            (utcnow_at env (clock_reads w))).
  split_and!; try reflexivity.
  apply (process_analysis_raise_stored env Food it _ w w); [|exact Hok].
  cbn [analysis_update]. unfold food_update. unfold bind at 1.
  pose proof (download_blob_world env "food-images" (imagePath it) w) as Hw.
  unfold result in Hdl.
  destruct (download_blob env "food-images" (imagePath it) w) as [[data|e] w1];
    cbn [fst snd] in *; [|discriminate].
  injection Hdl as ->. subst w1.
  unfold bind at 1. unfold lift_outcome at 1. rewrite Hvision.
  unfold bind at 1. unfold lift_outcome at 1. unfold food_prompt, object_names.
  rewrite Hobjects. reflexivity.
Qed.

Lemma vision_objects_fail_food_analysis_witness :
  exists doc,
    stored Food (doc_key food_pending)
      (exec (process_food_analysis sample_env food_pending) sample_world) = Some doc /\
    status doc = "failed" /\
    error doc = Some "'str' object has no attribute 'tags'".
Proof.
  destruct (vision_objects_fail_food_analysis sample_env food_pending sample_world []
              (mkVision (Some "an apple on a plate") (Some [["apple"]])
                        (Some ["fruit"; "food"]) (Some [["Glucose 5.4 mmol/L"]]))
              eq_refl eq_refl (mk_is_Some _ _ eq_refl) eq_refl)
    as (doc & Hs & Hst & He & _).
  exists doc. auto.
Defined.

(* ------------------------------------------------------------------ *)
(** ** Every loop: exceptions, writes, footprint *)

Lemma result_try_except_log {St} (m : M St unit) (h : exn -> M St unit) s :
  (forall e s', result (h e) s' = Ret tt) -> result (try_except m h) s = Ret tt.
Proof.
  intros Hh. unfold result, try_except.
  destruct (m s) as [[[]|e] s']; [reflexivity|]. apply Hh.
Qed.

(** X7.  No iteration of any loop raises: each loop body is a [try] whose
    handler only logs, so the loop always reaches its [asyncio.sleep] and
    goes on to the next iteration. *)
Theorem iteration_never_raises (env : Env) (l : loop) (w : world) :
  result (iteration env l) w = Ret tt.
Proof.
  destruct l; cbn [iteration];
    apply result_try_except_log; intros e s'; reflexivity.
Qed.

(** Decomposes a goal [preserves I program] along the structure of the
    program; [leaf] is tried on what is left. *)
Ltac preserves_by leaf :=
  repeat first
    [ apply preserves_ret | apply preserves_raise | apply preserves_lift_outcome
    | apply preserves_gets
    | apply preserves_utcnow; apply _
    | apply preserves_logger_info; apply _
    | apply preserves_logger_error; apply _
    | apply preserves_download_blob
    | leaf
    | apply preserves_bind; [|intros ?]
    | apply preserves_try_except; [|intros ?]
    | apply preserves_attempt
    | apply preserves_for_each; intros ? ?
    | match goal with
      | |- preserves _ (if ?b then _ else _) => destruct b
      | |- preserves _ (match ?x with _ => _ end) => destruct x
      end ].

#[global] Instance sends_only_tick allowed n0 : TickInsensitive (sends_only allowed n0).
Proof. intros w H. exact H. Qed.
#[global] Instance sends_only_log allowed n0 : LogInsensitive (sends_only allowed n0).
Proof. intros e w H. exact H. Qed.

Lemma sends_only_store_write env allowed n0 c effect :
  allowed c -> (forall w, journal (effect w) = journal w) ->
  preserves (sends_only allowed n0) (store_write env c effect).
Proof.
  intros Hc He.
  assert (forall ok w, sends_only allowed n0 w -> sends_only allowed n0 (record_call c ok w)) as Hcall.
  { intros ok w [Hle Hall]. unfold sends_only, sent_since in *. cbn [journal record_call].
    rewrite length_app. split; [lia|].
    rewrite drop_app_le by exact Hle. apply Forall_app. split; [exact Hall|].
    constructor; [exact Hc | constructor]. }
  apply preserves_store_write_outcomes.
  - intros w. apply Hcall.
  - intros w Hw. specialize (Hcall true w Hw).
    unfold sends_only, sent_since in *. rewrite He. exact Hcall.
Qed.

Lemma journal_set_items k f w : journal (set_items k f w) = journal w.
Proof. destruct k; reflexivity. Qed.

Lemma journal_set_blobs container f w : journal (set_blobs container f w) = journal w.
Proof. unfold set_blobs. repeat case_bool_decide; reflexivity. Qed.

Lemma sends_only_start allowed w : sends_only allowed (length (journal w)) w.
Proof. unfold sends_only, sent_since. rewrite drop_all. split; [lia | constructor]. Qed.

Lemma iteration_sends_only env l n0 :
  preserves (sends_only (loop_call l) n0) (iteration env l).
Proof.
  destruct l; cbn [iteration].
  - unfold process_pending_analyses_once, process_food_analysis, process_medical_analysis,
      mark_failed, food_update, medical_update, upsert_item.
    preserves_by ltac:(apply sends_only_store_write;
                       [eexists; cbn [container_of]; eauto | intros; apply journal_set_items]).
  - unfold generate_daily_insights_once, daily_insights_run, generate_user_daily_insights,
      upsert_insight.
    preserves_by ltac:(apply sends_only_store_write; [eexists; reflexivity | reflexivity]).
  - unfold health_trend_analysis_once, trend_run, analyze_user_health_trends, upsert_insight.
    preserves_by ltac:(apply sends_only_store_write; [eexists; reflexivity | reflexivity]).
  - unfold cleanup_old_data_once, cleanup_run, cleanup_old_blobs, delete_item.
    preserves_by ltac:(apply sends_only_store_write;
                       [left; eexists; cbn [container_of]; eauto
                       | intros; apply journal_set_items]).
    all: apply sends_only_store_write;
      [right; eexists; eauto | intros; apply journal_set_blobs].
  - unfold process_service_bus_messages_once.
    apply preserves_try_except; [|intros ?; apply preserves_logger_error; apply _].
    apply preserves_for_each. intros msg Hmsg.
    unfold process_message, handle_notification_message, complete_message, abandon_message,
      process_urgent_health_alert, process_daily_reminder, process_analysis_request.
    preserves_by ltac:(apply sends_only_store_write; [exists msg; eauto | reflexivity]).
Qed.

(** X8.  Whatever the services do, the writes an iteration of a loop sends
    are of that loop's own kind: the drainer only upserts into [FoodHistory]
    and [MedicalRecords], the daily and weekly jobs only upsert into
    [Recommendations], the cleanup only deletes documents and blobs, and the
    consumer only completes or abandons messages it received. *)
Theorem iteration_sends_own_calls (env : Env) (l : loop) (w : world) :
  Forall (fun c => loop_call l c.1)
         (sent_since (length (journal w)) (exec (iteration env l) w)).
Proof.
  apply (iteration_sends_only env l (length (journal w)) w), sends_only_start.
Qed.

#[global] Instance items_untouched_tick w0 : TickInsensitive (items_untouched w0).
Proof. intros w H. exact H. Qed.
#[global] Instance items_untouched_log w0 : LogInsensitive (items_untouched w0).
Proof. intros e w H. exact H. Qed.
#[global] Instance recommendations_untouched_tick w0 :
  TickInsensitive (recommendations_untouched w0).
Proof. intros w H. exact H. Qed.
#[global] Instance recommendations_untouched_log w0 :
  LogInsensitive (recommendations_untouched w0).
Proof. intros e w H. exact H. Qed.
#[global] Instance blobs_untouched_tick w0 : TickInsensitive (blobs_untouched w0).
Proof. intros w H. exact H. Qed.
#[global] Instance blobs_untouched_log w0 : LogInsensitive (blobs_untouched w0).
Proof. intros e w H. exact H. Qed.

(** A write whose effect is on another store. *)
Ltac write_elsewhere :=
  apply preserves_store_write;
    [ let Hw := fresh in intros ? ? Hw; exact Hw
    | let Hw := fresh in intros ? Hw; exact Hw ].

Ltac unfold_loops :=
  unfold process_pending_analyses_once, process_food_analysis, process_medical_analysis,
    mark_failed, food_update, medical_update, upsert_item,
    generate_daily_insights_once, daily_insights_run, generate_user_daily_insights,
    health_trend_analysis_once, trend_run, analyze_user_health_trends, upsert_insight,
    cleanup_old_data_once, cleanup_run, cleanup_old_blobs, sweep_container,
    delete_item, delete_blob,
    process_service_bus_messages_once, process_message, handle_notification_message,
    complete_message, abandon_message,
    process_urgent_health_alert, process_daily_reminder, process_analysis_request.

Lemma iteration_items_untouched env l w0 :
  l <> Drainer -> l <> DataCleanup -> preserves (items_untouched w0) (iteration env l).
Proof.
  intros H1 H2. destruct l; try done; cbn [iteration]; unfold_loops;
    preserves_by write_elsewhere.
Qed.

Lemma iteration_recommendations_untouched env l w0 :
  l <> DailyInsights -> l <> TrendAnalysis ->
  preserves (recommendations_untouched w0) (iteration env l).
Proof.
  intros H1 H2. destruct l; try done; cbn [iteration]; unfold_loops;
    preserves_by write_elsewhere.
Qed.

Lemma iteration_blobs_untouched env l w0 :
  l <> DataCleanup -> preserves (blobs_untouched w0) (iteration env l).
Proof.
  intros H1. destruct l; try done; cbn [iteration]; unfold_loops;
    preserves_by write_elsewhere.
Qed.

(** X9.  Whatever the services do, an iteration of a loop leaves the
    stores outside its task as they were: the drainer never changes
    [Recommendations] or a blob, the daily and weekly jobs never change an
    analysis document or a blob, the cleanup never changes
    [Recommendations], and the consumer changes no store at all. *)
Theorem iteration_footprint (env : Env) (l : loop) (w : world) :
  let w' := exec (iteration env l) w in
  match l with
  | Drainer => recommendations_untouched w w' /\ blobs_untouched w w'
  | DailyInsights | TrendAnalysis => items_untouched w w' /\ blobs_untouched w w'
  | DataCleanup => recommendations_untouched w w'
  | Consumer _ => items_untouched w w' /\ recommendations_untouched w w' /\ blobs_untouched w w'
  end.
Proof.
  cbn zeta.
  destruct l; split_and?;
    first [ apply iteration_items_untouched; [done|done|split; reflexivity]
          | apply iteration_recommendations_untouched; [done|done|reflexivity]
          | apply iteration_blobs_untouched; [done|split; reflexivity] ].
Qed.

(* ------------------------------------------------------------------ *)
(** ** The consumer on a batch *)

Lemma process_message_no_fault env msg w :
  no_write_fault env ->
  exists w', process_message env msg w = (Ret tt, w') /\
             journal w' = (journal w ++ [(settlement env msg, true)])%list.
Proof.
  intros Hnf. unfold process_message, settlement, try_except, bind, lift_outcome.
  destruct (json_loads env msg) as [data|e]; cbn beta iota.
  - destruct (handle_notification_message_total env data w) as (entry & ->).
    unfold complete_message, store_write. rewrite Hnf.
    eexists. split; reflexivity.
  - unfold logger_error, modify, abandon_message, store_write. cbn [journal record_log].
    rewrite Hnf. eexists. split; reflexivity.
Qed.

Lemma for_each_process_message_no_fault env received w :
  no_write_fault env ->
  exists w', for_each received (process_message env) w = (Ret tt, w') /\
             journal w' =
             (journal w ++ ((fun msg => (settlement env msg, true)) <$> received))%list.
Proof.
  intros Hnf. revert w. induction received as [|msg received IH]; intros w; cbn [for_each].
  - exists w. split; [reflexivity|]. rewrite app_nil_r. reflexivity.
  - destruct (process_message_no_fault env msg w Hnf) as (w1 & Hrun & Hj).
    destruct (IH w1) as (w2 & Hrest & Hj2).
    exists w2. unfold bind. rewrite Hrun. split; [exact Hrest|].
    rewrite Hj2, Hj, fmap_cons, <- app_assoc. reflexivity.
Qed.

(** X10.  When the receiver accepts every call, the consumer settles each
    message of the batch exactly once and in the order received: it
    completes the ones whose body decodes as JSON and abandons the others;
    a message that cannot be decoded does not stop the batch. *)
Theorem consumer_settles_batch_in_order (env : Env) (received : list string) (w : world) :
  no_write_fault env ->
  sent_since (length (journal w)) (exec (process_service_bus_messages_once env received) w) =
  (fun msg => (settlement env msg, true)) <$> received.
Proof.
  intros Hnf.
  destruct (for_each_process_message_no_fault env received w Hnf) as (w' & Hrun & Hj).
  unfold exec, process_service_bus_messages_once, try_except. rewrite Hrun. cbn [snd].
  unfold sent_since. rewrite Hj, drop_app_length. reflexivity.
Qed.

Lemma consumer_settles_batch_in_order_witness :
  sent_since 0 (exec (process_service_bus_messages_once sample_env ["{}"; "not json"; "[1]"])
                  sample_world) =
  [(CompleteMessage "{}", true); (AbandonMessage "not json", true);
   (CompleteMessage "[1]", true)].
Proof.
  apply (consumer_settles_batch_in_order sample_env ["{}"; "not json"; "[1]"] sample_world).
  intros n. reflexivity.
Defined.

(* ------------------------------------------------------------------ *)
(** ** What the blob sweep does *)

(** Against a naive cutoff no name is ever collected: the comparison of the
    first blob raises. *)
Lemma older_blobs_naive cutoff blobs :
  older_blobs (Naive cutoff) blobs =
  match blobs with
  | [] => Ret []
  | _ :: _ => Raise "can't compare offset-naive and offset-aware datetimes"
  end.
Proof. destruct blobs; reflexivity. Qed.

Lemma cleanup_old_blobs_eq env cutoff w :
  cleanup_old_blobs env cutoff w =
  (Ret tt,
   match food_images w, medical_documents w with
   | _ :: _, _ => record_log SWEEP_ERROR w
   | [], _ :: _ =>
       record_log SWEEP_ERROR
         (record_log (LogInfo "Deleted 0 old blobs from food-images") w)
   | [], [] =>
       record_log (LogInfo "Deleted 0 old blobs from medical-documents")
         (record_log (LogInfo "Deleted 0 old blobs from food-images") w)
   end).
Proof.
  unfold cleanup_old_blobs, try_except. cbn zeta. cbn [for_each].
  unfold bind at 1. unfold sweep_container at 1. unfold bind at 1. unfold gets at 1.
  change (blobs_of "food-images" w) with (food_images w).
  unfold bind at 1. unfold lift_outcome at 1. rewrite older_blobs_naive.
  destruct (food_images w) as [|b blobs]; [|reflexivity].
  cbn [for_each]. unfold bind at 1. unfold ret at 1.
  unfold logger_info at 1, modify at 1.
  unfold bind at 1. unfold sweep_container at 1. unfold bind at 1. unfold gets at 1.
  change (blobs_of "medical-documents" (record_log ?e w)) with (medical_documents w).
  unfold bind at 1. unfold lift_outcome at 1. rewrite older_blobs_naive.
  destruct (medical_documents w) as [|b blobs]; reflexivity.
Qed.

Lemma cleanup_old_blobs_preserves (I : world -> Prop) `{!LogInsensitive I} env cutoff :
  preserves I (cleanup_old_blobs env cutoff).
Proof.
  intros w Hw. unfold exec. rewrite cleanup_old_blobs_eq. cbn [snd].
  destruct (food_images w), (medical_documents w); repeat apply log_insensitive; exact Hw.
Qed.

(* ------------------------------------------------------------------ *)
(** ** The cleanup under faults *)

Lemma culled_refl {A} (keep : A -> Prop) (c : list A) : culled keep c c.
Proof. split; [reflexivity | auto]. Qed.

Lemma culled_delete {A K} (key : A -> K) `{EqDecision K} (keep : A -> Prop)
    (c0 c : list A) (x : A) :
  NoDup (key <$> c0) -> culled keep c0 c -> x ∈ c0 -> ~ keep x ->
  culled keep c0 (filter (fun y => key y <> key x) c).
Proof.
  intros Hnd [Hsub Hkeep] Hx0 Hnot. split.
  - etrans; [apply sublist_filter | exact Hsub].
  - intros y Hy Hky. apply list_elem_of_filter. split; [|auto].
    intros Heq. apply Hnot.
    assert (y = x) as <-; [|exact Hky].
    clear - Hnd Hy Hx0 Heq. induction c0 as [|z c0 IH]; [apply elem_of_nil in Hy; done|].
    rewrite fmap_cons in Hnd. apply NoDup_cons in Hnd as [Hz Hnd].
    apply elem_of_cons in Hy as [->|Hy], Hx0 as [->|Hx0]; [reflexivity| | |auto].
    + exfalso. apply Hz. rewrite Heq. apply list_elem_of_fmap. eauto.
    + exfalso. apply Hz. rewrite <- Heq. apply list_elem_of_fmap. eauto.
Qed.

Lemma preserves_gets_bind {St A B} (I : St -> Prop) (f : St -> A) (k : A -> M St B) :
  (forall s, I s -> preserves I (k (f s))) -> preserves I (bind (gets f) k).
Proof. intros Hk s Hs. rewrite exec_gets_bind. apply Hk; exact Hs. Qed.

Section CleanupKeeps.

Variable env : Env.
Variable now : Z.
Variable w0 : world.
Hypothesis Hkeys : unique_keys w0.

Abbreviation culling := (only_expired_removed now w0).

#[local] Instance culling_tick : TickInsensitive culling.
Proof. intros w H. exact H. Qed.
#[local] Instance culling_log : LogInsensitive culling.
Proof. intros e w H. exact H. Qed.

Lemma delete_food_culling s x :
  culling s -> x ∈ query_older_than (now - Clock.days 730) (food_container s) ->
  preserves culling (delete_item env Food x).
Proof.
  intros (Hs & _) Hx. apply list_elem_of_filter in Hx as [Hold Hx].
  pose proof (elem_of_sublist _ _ _ Hx (proj1 Hs)) as Hx0.
  apply preserves_store_write; [intros ok w H; exact H|].
  intros w (Hf & Hm & Hfi & Hmd). split_and!; try assumption.
  cbn [set_items set_food food_container]. unfold delete_doc.
  apply (culled_delete doc_key); [apply Hkeys|exact Hf|exact Hx0|].
  unfold retained_food. lia.
Qed.

Lemma delete_medical_culling s x :
  culling s ->
  x ∈ query_older_not_critical (now - Clock.days 1095) (medical_container s) ->
  preserves culling (delete_item env Medical x).
Proof.
  intros (_ & Hs & _) Hx. apply list_elem_of_filter in Hx as [[Hold Hcrit] Hx].
  pose proof (elem_of_sublist _ _ _ Hx (proj1 Hs)) as Hx0.
  apply preserves_store_write; [intros ok w H; exact H|].
  intros w (Hf & Hm & Hfi & Hmd). split_and!; try assumption.
  cbn [set_items set_medical medical_container]. unfold delete_doc.
  apply (culled_delete doc_key); [apply Hkeys|exact Hm|exact Hx0|].
  unfold retained_medical. intros [H|H]; [lia | done].
Qed.

Lemma cleanup_run_culling : preserves culling (cleanup_run env now).
Proof.
  unfold cleanup_run.
  apply preserves_bind; [apply preserves_logger_info; apply _|intros _].
  apply preserves_gets_bind. intros s1 Hs1.
  apply preserves_bind;
    [apply preserves_for_each; intros x Hx; apply (delete_food_culling s1 x Hs1 Hx)|intros _].
  apply preserves_gets_bind. intros s2 Hs2.
  apply preserves_bind;
    [apply preserves_for_each; intros x Hx; apply (delete_medical_culling s2 x Hs2 Hx)|intros _].
  apply preserves_bind; [|intros _; apply preserves_logger_info; apply _].
  apply cleanup_old_blobs_preserves. apply _.
Qed.

End CleanupKeeps.

(** X11.  Whatever the services do — deletes refused or not — an iteration
    of the cleanup loop on stores with unique keys and blob names only ever
    removes: what is left of each container and blob container is a
    sub-list of what was there, and nothing the retention rules keep is
    gone.  A food document or a blob not older than 730 days before the
    clock reading, a medical document not older than 1095 days or of type
    [critical], is still there afterwards. *)
Theorem cleanup_never_removes_retained (env : Env) (w : world) :
  unique_keys w -> unique_blob_names w ->
  only_expired_removed (utcnow_at env (clock_reads w)) w (exec (cleanup_old_data_once env) w).
Proof.
  intros Hk Hn. unfold exec. rewrite cleanup_old_data_once_unfold. cbn zeta.
  set (now := utcnow_at env (clock_reads w)).
  assert (only_expired_removed now w (tick_clock w)) as Hstart
    by (split_and!; apply culled_refl).
  destruct (cleanup_due now); [|exact Hstart].
  apply (exec_try_except (only_expired_removed now w)).
  - apply (cleanup_run_culling env now w Hk), Hstart.
  - intros e. apply preserves_logger_error.
    intros entry s H. exact H.
Qed.

Lemma cleanup_never_removes_retained_witness :
  only_expired_removed cleanup_now sample_world
    (exec (cleanup_old_data_once (cleanup_env 1)) sample_world).
Proof.
  apply (cleanup_never_removes_retained (cleanup_env 1) sample_world).
  - apply (bool_decide_unpack _). vm_compute. exact I.
  - apply (bool_decide_unpack _). vm_compute. exact I.
Defined.

(* ------------------------------------------------------------------ *)
(** ** The blob sweep *)

Lemma cleanup_old_data_once_blobs env w0 :
  preserves (blobs_untouched w0) (cleanup_old_data_once env).
Proof.
  unfold cleanup_old_data_once, cleanup_run, delete_item.
  preserves_by ltac:(first [ write_elsewhere
                           | apply cleanup_old_blobs_preserves; apply _ ]).
Qed.

(** X12.  The blob sweep never deletes a blob.  Its cutoff is a naive
    datetime and [blob.last_modified] an aware one, so the comparison of the
    first blob listed raises [TypeError]: [cleanup_old_blobs] sends no
    write, changes no store and returns after logging that error, or, for a
    container without blobs, that it deleted 0 blobs ([food-images] is
    listed first, and [medical-documents] only when [food-images] is
    empty).  An iteration of the cleanup loop therefore leaves both blob
    containers as they were, whatever the services do. *)
Theorem blob_sweep_never_deletes (env : Env) (cutoff_date : Z) (w : world) :
  let w' := exec (cleanup_old_blobs env cutoff_date) w in
  let w'' := exec (cleanup_old_data_once env) w in
  result (cleanup_old_blobs env cutoff_date) w = Ret tt /\
  same_stores w w' /\
  logged_since (length (log w)) w' =
    match food_images w, medical_documents w with
    | _ :: _, _ => [SWEEP_ERROR]
    | [], _ :: _ => [LogInfo "Deleted 0 old blobs from food-images"; SWEEP_ERROR]
    | [], [] => [LogInfo "Deleted 0 old blobs from food-images";
                 LogInfo "Deleted 0 old blobs from medical-documents"]
    end /\
  food_images w'' = food_images w /\
  medical_documents w'' = medical_documents w.
Proof.
  cbn zeta. unfold result, exec at 1 2. rewrite cleanup_old_blobs_eq. cbn [fst snd].
  split_and!.
  - reflexivity.
  - destruct (food_images w) eqn:Hf, (medical_documents w) eqn:Hm;
      unfold same_stores; cbn; rewrite ?Hf, ?Hm; split_and!; reflexivity.
  - unfold logged_since.
    destruct (food_images w), (medical_documents w); cbn [log record_log];
      rewrite <- ?app_assoc, drop_app_length; reflexivity.
  - apply (cleanup_old_data_once_blobs env w w). split; reflexivity.
  - apply (cleanup_old_data_once_blobs env w w). split; reflexivity.
Qed.

(* ------------------------------------------------------------------ *)
(** ** The users a periodic job serves *)

(** X13.  The users the daily and the weekly job go through are exactly
    the users with a document, in [FoodHistory] or in [MedicalRecords],
    whose timestamp is not before the cutoff; a user found in both
    containers, or more than once in one, is served once. *)
Theorem active_users_spec (cutoff : Z) (w : world) :
  NoDup (active_users cutoff w) /\
  forall user,
    user ∈ active_users cutoff w <->
    exists it, (it ∈ food_container w \/ it ∈ medical_container w) /\
               userId it = user /\ cutoff <= timestamp it.
Proof.
  unfold active_users, query_active_users. split; [apply NoDup_remove_dups|].
  intros user. rewrite elem_of_remove_dups, elem_of_app, !elem_of_remove_dups,
    !list_elem_of_fmap.
  split.
  - intros [(it & -> & Hit)|(it & -> & Hit)]; apply list_elem_of_filter in Hit as [Hts Hit];
      exists it; auto.
  - intros (it & [Hit|Hit] & <- & Hts); [left|right]; exists it;
      (split; [reflexivity|]); apply list_elem_of_filter; auto.
Qed.

(* ------------------------------------------------------------------ *)
(** ** A run of the daily or of the weekly job *)

#[global] Instance journal_is_tick j : TickInsensitive (journal_is j).
Proof. intros w H. exact H. Qed.
#[global] Instance journal_is_log j : LogInsensitive (journal_is j).
Proof. intros e w H. exact H. Qed.

Lemma triple_preserved {St A} (P E : St -> Prop) (m : M St A) :
  preserves P m -> (forall s, P s -> E s) -> triple P m P E.
Proof.
  intros Hm HE s Hs. specialize (Hm s Hs). unfold exec in Hm.
  destruct (m s) as [[a|e] s']; auto.
Qed.

Lemma one_record_sent_none ident user j w : journal_is j w -> one_record_sent ident user j w.
Proof. intros H. left. exact H. Qed.

(** The one write of a run for a user, and the entry logged after it. *)
Lemma triple_record_then_log env ident user j t (r : insight) text :
  rec_key r = (user, ident user t) ->
  triple (journal_is j) (upsert_insight env r ;; logger_info text)
         (one_record_sent ident user j) (one_record_sent ident user j).
Proof.
  intros Hkey w Hw. unfold journal_is in Hw.
  unfold bind, upsert_insight, store_write, logger_info, modify. rewrite Hkey.
  destruct (write_fault env _); right; exists t; eexists;
    cbn [journal record_call record_log set_recommendations]; rewrite Hw; reflexivity.
Qed.

(** Steps a triple over [journal_is j] past the parts of a program that
    send no write. *)
Ltac quiet_steps :=
  repeat first
    [ eapply triple_bind;
      [ apply triple_preserved; [solve [preserves_by fail] | apply one_record_sent_none]
      | intros ? ]
    | match goal with
      | |- triple _ (if ?b then _ else _) _ _ => destruct b
      | |- triple _ (match ?x with _ => _ end) _ _ => destruct x
      end ].

Lemma generate_user_daily_insights_one_record env user j :
  triple (journal_is j) (generate_user_daily_insights env user)
         (one_record_sent daily_insight_id user j) (one_record_sent daily_insight_id user j).
Proof.
  unfold generate_user_daily_insights.
  apply (triple_try_except _ (one_record_sent daily_insight_id user j));
    [|intros e; apply triple_modify; intros w Hw; exact Hw].
  quiet_steps;
    first [ intros w Hw; left; exact Hw
          | eapply triple_record_then_log; reflexivity ].
Qed.

Lemma analyze_user_health_trends_one_record env user j :
  triple (journal_is j) (analyze_user_health_trends env user)
         (one_record_sent trend_id user j) (one_record_sent trend_id user j).
Proof.
  unfold analyze_user_health_trends.
  apply (triple_try_except _ (one_record_sent trend_id user j));
    [|intros e; apply triple_modify; intros w Hw; exact Hw].
  quiet_steps;
    first [ intros w Hw; left; exact Hw
          | eapply triple_record_then_log; reflexivity ].
Qed.

Section UserLoop.

Variable body : string -> M world unit.
Variable ident : string -> Z -> string.

Hypothesis body_returns : forall user s, result (body user) s = Ret tt.
Hypothesis body_once : forall user j,
  triple (journal_is j) (body user) (one_record_sent ident user j) (one_record_sent ident user j).

Lemma for_each_returns l s : result (for_each l body) s = Ret tt.
Proof.
  revert s. induction l as [|user l IH]; intros s; cbn [for_each]; [reflexivity|].
  rewrite (result_bind_ret _ _ _ tt (body_returns user s)). apply IH.
Qed.

(** The users are served one after the other: each leaves the journal as
    it is or adds the upsert of its own record. *)
Lemma for_each_serves l s :
  exists served sent,
    served `sublist_of` l /\
    journal (exec (for_each l body) s) = (journal s ++ sent)%list /\
    serves ident served sent.
Proof.
  revert s. induction l as [|user l IH]; intros s; cbn [for_each].
  - exists [], []. split_and!; [constructor | symmetry; apply app_nil_r | constructor].
  - rewrite (exec_bind_ret _ _ _ tt (body_returns user s)).
    assert (one_record_sent ident user (journal s) (exec (body user) s)) as Hone.
    { pose proof (body_once user (journal s) s eq_refl) as H. unfold exec.
      destruct (body user s) as [[[]|e] s']; exact H. }
    destruct (IH (exec (body user) s)) as (served & sent & Hsub & Hj & Hserves).
    destruct Hone as [Hsame|(t & ok & Hone)].
    + exists served, sent. split_and!; [apply sublist_cons, Hsub | | exact Hserves].
      rewrite Hj, Hsame. reflexivity.
    + exists (user :: served),
             ((UpsertItem Recommendations (user, ident user t), ok) :: sent).
      split_and!; [apply sublist_skip, Hsub | |].
      * rewrite Hj, Hone, <- app_assoc. reflexivity.
      * constructor; [exists t; reflexivity | exact Hserves].
Qed.

(** The shape [generate_daily_insights] and [health_trend_analysis] share:
    announce, collect the users, serve each, report how many. *)
Lemma serve_users opening (closing : list string -> string) cutoff w :
  let users := active_users cutoff w in
  let m := (logger_info opening ;;
            users <- gets (active_users cutoff) ;;
            for_each users body ;;
            logger_info (closing users)) in
  let sent := sent_since (length (journal w)) (exec m w) in
  result m w = Ret tt /\
  (exists served, served `sublist_of` users /\ serves ident served sent) /\
  last (log (exec m w)) = Some (LogInfo (closing users)).
Proof.
  cbn zeta. set (users := active_users cutoff w).
  set (w1 := record_log (LogInfo opening) w).
  set (w2 := exec (for_each users body) w1).
  assert ((logger_info opening ;;
           users <- gets (active_users cutoff) ;;
           for_each users body ;;
           logger_info (closing users)) w
          = (Ret tt, record_log (LogInfo (closing users)) w2)) as Hrun.
  { unfold bind at 1. unfold logger_info at 1, modify. fold w1.
    unfold bind at 1, gets. change (active_users cutoff w1) with users.
    pose proof (for_each_returns users w1) as Hr. unfold w2, exec, result in *.
    unfold bind. destruct (for_each users body w1) as [[[]|e] s']; [reflexivity|discriminate]. }
  unfold result, exec. rewrite Hrun. cbn [fst snd].
  destruct (for_each_serves users w1) as (served & sent & Hsub & Hj & Hserves). fold w2 in Hj.
  split_and!; [reflexivity | | cbn [log record_log]; apply last_snoc].
  exists served. split; [exact Hsub|].
  unfold sent_since. cbn [journal record_log]. rewrite Hj.
  change (journal w1) with (journal w). rewrite drop_app_length. exact Hserves.
Qed.

End UserLoop.


